(* ===== verification/_CoqProject ===== *)
-Q . S2P
Prelude.v
Runtime.v
IsoDate.v
JsMap.v
Types.v
TuyaApi.v
Transport.v
App.v
Client.v
Card.v
Generic.v
Faults.v
System.v
View.v
Persist.v
Session.v
Settle.v
