(* ===== verification/Prelude.v ===== *)
(** * Verification of tuya-cli-controller: device-state synchronisation

    The repository is a browser dashboard that discovers smart-home
    devices and switches them on and off. Its logic is in three files:

    - [src/src/lib/types.ts]: the device record and the discovery and
      control messages;
    - [src/src/lib/tuya-api.ts]: [TuyaAPIService], a mock transport that
      keeps the authoritative devices in a [Map] and answers
      [discoverDevices], [controlDevice] and [getDeviceStatus] after a
      random delay, with random failures; [simulateDeviceOffline] and
      [simulateDeviceOnline] are test hooks;
    - [src/src/App.tsx]: the controller. [scanForDevices] replaces the
      local device list by a discovery result. [handleDeviceToggle]
      updates the local list optimistically, calls [controlDevice], and
      confirms or rolls back. The per-device card
      ([src/src/components/DeviceCard.tsx]) calls it with [!device.isOn]
      and guards it with [isToggling].

    The controller calls the registry through promises; the registry's
    timers decide when each call's continuation runs, so scans and toggles
    of different devices interleave.

    ** Files

    In dependency order (the order of [_CoqProject]):

    - [Prelude] (this file): the state monad [St] with its notation in
      [tuya_scope], JavaScript's [<] on numbers ([Qltb]), the selective
      list update [map (fun x => if p x then f x else x)] and its lemmas,
      [all_from] (a decidable property checked at every integer of a
      range), the closure [star] of a step relation, the [tuya] hint
      databases.
    - [Runtime]: the host services the sources call, modelled from the
      ECMAScript and HTML semantics. [World] holds the clock and the
      [Math.random] stream (a function from draw index to a rational in
      [0, 1), with a cursor); [new Date()] and the timer delay
      conversion ([timeout_ms]).
    - [IsoDate]: [Date.prototype.toISOString] and the parse of its format
      by [new Date(string)] ([parse_iso]), with the civil calendar in both
      directions ([civil_from_days], [days_from_civil]).
    - [JsMap]: the insertion-ordered [Map] as an association list
      ([map_get], [map_set], [map_values]), refined to stdpp's [gmap]
      ([to_gmap_lookup], [to_gmap_set]); [jsmap_equiv] (the same entries
      in any order) is an equivalence that [get], [set] and [to_gmap]
      respect ([Proper] instances).
    - [Types]: [types.ts]; [TuyaDevice], [DeviceType], [Action] and the
      request, response and discovery records, each in a module of its
      own name; [with_isOn] and its siblings are object spread.
      [lastSeen] holds a [DateOrString]: a [Date], or the string a
      record read back from JSON storage carries in its place.
    - [TuyaApi]: [tuya-api.ts]. A [Machine] is the service's map
      together with the [World]; every method is an [Api] computation (the
      state monad over [Machine]). Each [async] method is split at its
      [await]: [networkDelay] is the synchronous delay draw and the
      [_resume] definitions are the bodies, with [discoverDevices],
      [controlDevice] and [getDeviceStatus] their sequential composition.
      [mockDevices] and [new_TuyaAPIService] are the seeded fleet and the
      constructor.
    - [Transport]: the registry's contract over an unordered table
      (stdpp [gmap]), with the random outcomes as oracle arguments
      ([control_spec], [status_spec], [offline_spec], [online_spec],
      [discover_spec]), its refinement by every method of [TuyaApi]
      through the abstraction [table], which identifies registries with
      the same entries ([machine_equiv]), and the interface the controller
      relies on: the class [Transport] with its laws [TransportLaws], of
      which the registry is an instance ([mock_transport_laws]).
    - [App]: the component [App] of [App.tsx]. [AppState] holds the hooks
      ([devices], [isScanning], [lastScan], [error]) and the toasts
      raised. Each handler is a [_start] phase (up to its [await]) and a
      [_finish] phase (the continuation, given the settled promise).
      [mount_scans] is the mount effect; [onlineDevices],
      [offlineDevices] and [activeDevices] are the summary counts;
      [formatLastScan] is the last-scan label.
    - [Client]: each handler's full round ([scan_round], [toggle_round])
      against any transport meeting [TransportLaws], in a section.
    - [Card]: [DeviceCard.tsx]; the icon table, [handleToggle] (guard and
      the call [onToggle(id, !isOn)]), the switch's [disabled] state and
      [formatLastSeen], on a [Date] or on the string a persisted [Date]
      becomes ([formatLastSeen_of]).
    - [Generic]: the pending-timer bookkeeping ([Task], [toggle_ids],
      [is_toggling]) and the dashboard's interleaving over any transport
      meeting [TransportLaws] ([gstep] over [GSys]), transport faults
      included (a rejected discovery or control request that was not
      applied), with its consistency invariant [ginv] and the scanning
      flag's invariant [flag_ok]; [gsettle] fulfils the pending requests
      in the order they were issued.
    - [Faults]: [lstep], the generic steps together with a control
      request whose response is lost after the transport applied it.
    - [System]: the running dashboard as a step relation [step] over
      [Sys] (component state, registry machine, pending timers). Its
      steps are the user's clicks, as far as the rendered controls allow
      them (scan button, card switch with its guards), each timer firing
      (the registry body, then the controller continuation) and time
      passing. Timers fire in any order. [exec] is an executable
      interpreter of the same steps. Its invariant is [Generic]'s, read
      through [abs], by a simulation ([step_sim]).
    - [View]: the JSX of [App] and [DeviceCard] as data ([render_app],
      [render_body], [render_card]).
    - [Persist]: the store behind [useKV] as a [gmap] from keys to JSON
      values ([Json]); [to_json] and [from_json] (type classes with one
      instance per type) are [JSON.stringify] and [JSON.parse] on the
      values the page stores; [useKV_get] reads a hook's value at a page
      load, [useKV_set] is a setter; [kv_of] is the store a page leaves.
    - [Session]: page loads ([page_load]: the registry re-seeded, the
      hooks' values read, the mount effect; [reload] reads them from a
      store) and the Retry button's reload of the store the page leaves
      as a further step ([session_step]).
    - [Settle]: the event loop of an idle page, earliest timer first
      ([event_loop]).

    ** What is proved

    The claims are numbered as in the manifest, most important first.

    - The registry ([TuyaApi]): [controlDevice] on every branch: unknown
      id, offline device, the 5% timeout, success (C4 to C7). Discovery
      returns an ordered snapshot and does not modify the registry (C9).
      Every method keeps the registry well formed and its keys in order
      (C10). Polling an offline device brings it back online exactly when
      a reconnect draw is below 0.3 (C12). [simulateNetworkDelay] makes
      one draw, touches no record and resumes within its bounds (C13).
      Each test hook changes one flag of one record (C27); a status query
      of an unknown id resolves to [null] (C28). The methods implement
      the table contract of [Transport] (C15 for [controlDevice]; lemmas
      for the other methods, discovery up to permutation).
    - The controller ([App]): the state a settled toggle leaves on the
      device (C2), exact rollback under the card's calling convention
      (C3), scan outcomes (C8), the frame of a toggle (C11), the summary
      counts (C14). The last-scan label reads back the discovery time:
      [parse_iso] inverts [toISOString] on years 1970 to 9999 (C20).
    - Against the interface ([Client]): a scan and a toggle issued as the
      card issues it leave the list synchronised with any lawful
      transport's table, on every outcome (C25, C26).
    - The card ([Card]): an enabled switch always calls
      [onToggle(id, !isOn)] (C16); the four buckets of the "last seen"
      label with their ranges (C17).
    - The system ([System]): an invariant of [step], obtained from
      [Generic]'s through [abs] by a simulation ([step_sim]) and
      established by a fresh page load ([sys_init_inv]). In every
      reachable state, each listed device without a toggle in flight
      shows exactly the registry's power and online flags (C1). The
      scanning flag is raised exactly while one discovery is in flight
      (C18) and a running scan can always complete (C19).
    - The screen ([View]): the grid's React keys are distinct in every
      reachable state (C21) and a settled card shows the registry's
      flags (C22).
    - Page loads ([Session]): a first visit starts a discovery and keeps
      the invariants (C23).
    - Termination ([Settle]): an idle page's event loop fires every
      pending timer, one per firing, and leaves a page consistent with
      the registry and not scanning (C24).
    - Over any transport ([Generic]): the consistency invariant of the
      interleaved dashboard, proved by rule induction against the laws
      only, faults on requests that were not applied included (C29).
      The scanning flag is raised exactly while one discovery is
      pending, and the discovery can settle either way, both clearing it
      (C32). Each settled request raises exactly one toast, clicks none
      (C33). An idle page settles: fulfilling the pending requests in
      order ([gsettle]) is a run that leaves a consistent page, not
      scanning (C34).
    - Persistence ([Persist]): a reload gives the list back with each
      [Date] turned into its ISO text and every other field unchanged,
      the last-scan string unchanged, and every card rendering exactly
      as before, for times in the years 1970 to 9999 (C30).
    - Lost responses ([Faults]): over any lawful transport, a lost
      response to a control request the transport carried out leaves
      the device settled and shown with the opposite of the table's
      power state (C31).

    Concrete sessions that document findings of the manifest, not
    claims: [Session.retry_persists_unconfirmed] (a reload while a
    toggle is in flight restores the unconfirmed state, reading [useKV]
    as handing the stored list to the first render) and
    [Card.formatLastSeen_garbled] (an unparsable string shows "NaNd
    ago").

    ** Modelling choices and bounds

    - Numbers: [Math.random()] draws are exact rationals in [0, 1); the
      comparisons with 0.05 and 0.3 and the delay [r * (max - min) + min]
      are read on rationals, not doubles. The timer delay is truncated to
      whole ms. Time values are [Z] milliseconds; synchronous code takes
      no time, so the [new Date()] calls of one task read one clock.
    - No fuel bounds a result: every definition is structurally
      recursive. [pollStatus n] takes the number of polls, and
      [event_loop n] the number of timers, which C24 shows is enough.
    - Dates: the round trip covers the years 1970 to 9999, where
      [toISOString] writes four-digit years; the fixed-width fields are
      checked at every value they can hold ([all_from], 10000 values for
      the year), the calendar by [lia] on the 400-year era.
    - Rendering: a card reads the committed state; React re-renders
      before the next user event, and [useKV] setters take functional
      updaters like [useState]. Each setter writes through to the store
      at once, so the store always holds the hooks' values ([kv_of]); a
      key never written reads as the hook's default, which is then its
      value. At a page load the hooks are read as handing the stored
      values to the first render, so the mount effect sees the restored
      list ([page_load]); [@github/spark] is not in the repository, and
      a [useKV] that gave its default first would make the mount effect
      scan. No claim rests on a reload: C23 is a first visit, and C30
      is about what the store gives back.
    - Host semantics that no line of [src/] contains are modelled and
      used but left out of the manifest's map: the event loop
      ([event_loop], [gsettle]), the executable interpreter [exec], and
      [JSON.stringify] / [JSON.parse] ([to_json], [from_json]).
    - Promises: a registry body and the controller's continuation run in
      one task. React applies the functional [setDevices] updaters in
      order, so each phase is a function of the current state. The
      in-tree registry never rejects, so [System] has no rejection step;
      [Generic] has one for each handler, for transports that fail
      ([gstep_reject_scan], [gstep_reject_toggle]), and [Faults] the
      lost response.

    ** Not modelled

    Layout and styling, the icons' sizes and the toasts' on-screen
    rendering (the messages raised are modelled); the text of
    [toLocaleTimeString] (locale and time-zone dependent: the model keeps
    the time value it formats); the storage library's asynchronous API
    behind [useKV] (the store is a map of JSON values, written at once),
    and JSON as text: [JSON.stringify] followed by [JSON.parse] is the
    identity on the strings, booleans, arrays and objects without
    repeated keys the page writes, so the store keeps values; the forms of date string other than [toISOString]'s and a
    day beyond its month's length, which [parse_iso] does not reject.

    ** Plan for later versions

    Settling with faults, and in the timers' order, over the generic
    system; JSON text with its escapes, if the store's wire format
    comes to matter. *)

From stdpp Require Export base list strings.
From Stdlib Require Export ZArith QArith Qround DecimalString.

Declare Scope tuya_scope.
Delimit Scope tuya_scope with tuya.
Open Scope tuya_scope.

(** ** A state monad

    The registry threads a mutable [Map] and the JavaScript runtime (the
    clock and the [Math.random] source) through every call; the model
    passes that state explicitly. *)

Definition St (S A : Type) : Type := S -> A * S.

Definition st_ret {S A} (a : A) : St S A := fun s => (a, s).

Definition st_bind {S A B} (m : St S A) (k : A -> St S B) : St S B :=
  fun s => let '(a, s') := m s in k a s'.

Definition st_get {S} : St S S := fun s => (s, s).

Definition st_put {S} (s : S) : St S unit := fun _ => (tt, s).

Definition st_modify {S} (f : S -> S) : St S unit := fun s => (tt, f s).

Notation "x <- m ;; k" := (st_bind m (fun x => k))
  (at level 100, m at next level, right associativity) : tuya_scope.
Notation "m ;;; k" := (st_bind m (fun _ => k))
  (at level 100, right associativity) : tuya_scope.

Lemma st_bind_ret_l {S A B} (a : A) (k : A -> St S B) s :
  st_bind (st_ret a) k s = k a s.
Proof. reflexivity. Qed.

Lemma st_bind_assoc {S A B C} (m : St S A) (k : A -> St S B) (h : B -> St S C) s :
  st_bind (st_bind m k) h s = st_bind m (fun a => st_bind (k a) h) s.
Proof. unfold st_bind. by destruct (m s). Qed.

Lemma st_bind_unfold {S A B} (m : St S A) (k : A -> St S B) s :
  st_bind m k s = k (fst (m s)) (snd (m s)).
Proof. unfold st_bind. by destruct (m s). Qed.

(** ** JavaScript numbers

    [a < b] on numbers, read on exact rationals. *)

Definition Qltb (a b : Q) : bool := negb (Qle_bool b a).

Lemma Qltb_iff a b : Qltb a b = true <-> (a < b)%Q.
Proof.
  unfold Qltb. rewrite negb_true_iff.
  split; intros H.
  - apply Qnot_le_lt. intros Hle. apply Qle_bool_iff in Hle. congruence.
  - destruct (Qle_bool b a) eqn:E; [|done].
    apply Qle_bool_iff in E. exfalso. apply (Qlt_not_le a b); auto.
Qed.

Lemma Qltb_false a b : Qltb a b = false <-> (b <= a)%Q.
Proof.
  unfold Qltb. rewrite negb_false_iff. apply Qle_bool_iff.
Qed.

(** Decimal rendering of a natural number, as a template literal
    [`${n}`] prints it. *)
Definition string_of_nat (n : nat) : string :=
  NilZero.string_of_uint (Nat.to_uint n).

(** ** Lists updated at the elements a predicate selects

    [xs.map(x => p(x) ? f(x) : x)] is the idiom the controller uses to
    change one device of its list. *)

Section MapWhere.
Context {A : Type} (p : A -> bool) (f : A -> A).

Lemma length_map_where (l : list A) :
  length (map (fun x => if p x then f x else x) l) = length l.
Proof. apply length_map. Qed.

Lemma map_where_unselected (l : list A) :
  Forall (fun x => p x = false) l ->
  map (fun x => if p x then f x else x) l = l.
Proof. induction 1 as [|x l Hx _ IH]; simpl; [done|]. by rewrite Hx, IH. Qed.

Lemma in_map_where (l : list A) y :
  In y (map (fun x => if p x then f x else x) l) <->
  exists x, In x l /\ y = (if p x then f x else x).
Proof. rewrite in_map_iff. firstorder eauto. Qed.

Lemma nth_error_map_where (l : list A) i :
  nth_error (map (fun x => if p x then f x else x) l) i =
  option_map (fun x => if p x then f x else x) (nth_error l i).
Proof. apply nth_error_map. Qed.
End MapWhere.

(** Two successive selective updates with the same selector compose. *)
Lemma map_where_compose {A} (p : A -> bool) (f g : A -> A) (l : list A) :
  (forall x, p x = true -> p (f x) = true) ->
  map (fun x => if p x then g x else x) (map (fun x => if p x then f x else x) l) =
  map (fun x => if p x then g (f x) else x) l.
Proof.
  intros Hp. rewrite map_map. apply map_ext. intros x.
  destruct (p x) eqn:E; [by rewrite Hp | by rewrite E].
Qed.

(** stdpp's [<$>] on lists is [List.map]. *)
Lemma list_fmap_is_map {A B} (f : A -> B) (l : list A) : f <$> l = map f l.
Proof. induction l as [|x l IH]; simpl; [done|]. by rewrite <- IH. Qed.

(** ** Checking a decidable property at every integer of a range

    Calendar arithmetic is periodic: a property of the days of one
    400-year era, or of the numbers a fixed-width field can hold, is
    checked at each of them by evaluation. *)

Fixpoint all_from (f : Z -> bool) (lo : Z) (n : nat) : bool :=
  match n with
  | O => true
  | S n => f lo && all_from f (lo + 1) n
  end.

Lemma all_from_spec f lo n :
  all_from f lo n = true -> forall k, (lo <= k < lo + Z.of_nat n)%Z -> f k = true.
Proof.
  revert lo. induction n as [|n IH]; intros lo Hall k Hk; simpl in *; [lia|].
  apply andb_true_iff in Hall as [Hlo Hrest].
  destruct (Z.eq_dec k lo) as [->|Hne]; [done|]. apply (IH (lo + 1)%Z); [done|lia].
Qed.

(** The same, for a range whose length is written as an integer. *)
Lemma all_from_range f lo n :
  all_from f lo (Z.to_nat n) = true -> forall k, (lo <= k < lo + n)%Z -> f k = true.
Proof. intros H k Hk. apply (all_from_spec f lo _ H). lia. Qed.

(** ** Proof automation *)

Create HintDb tuya discriminated.
Create Rewrite HintDb tuya_rw.

Ltac invc H := inversion H; subst; clear H.

(** Unfold the monad and evaluate the record projections it exposes. *)
Ltac st_simpl :=
  repeat (unfold st_bind, st_ret, st_get, st_put, st_modify in *; simpl in *).

#[export] Hint Rewrite @st_bind_ret_l @length_map_where : tuya_rw.

(** ** Finite sequences of transitions *)

Section Star.
Context {A : Type} (R : A -> A -> Prop).

Inductive star : A -> A -> Prop :=
| star_refl a : star a a
| star_step a b c : R a b -> star b c -> star a c.

Lemma star_one a b : R a b -> star a b.
Proof. eauto using star. Qed.

Lemma star_trans a b c : star a b -> star b c -> star a c.
Proof. induction 1; eauto using star. Qed.

(** An invariant of every step holds along every sequence. *)
Lemma star_invariant (P : A -> Prop) :
  (forall a b, P a -> R a b -> P b) -> forall a b, star a b -> P a -> P b.
Proof. intros Hstep a b Hs. induction Hs; eauto. Qed.
End Star.
