(* ===== verification/Runtime.v ===== *)
(** * The JavaScript runtime the sources call

    The clock ([new Date()], a time value in milliseconds since the
    epoch), the random source ([Math.random()], an injectable stream of
    draws) and [setTimeout]'s delay conversion.
    None of this is code of the repository: it is the host semantics the
    repository relies on, written from the ECMAScript and HTML
    specifications. *)

From S2P Require Import Prelude.
From Stdlib Require Import Lqa.
Local Open Scope Z_scope.

(** ** The world: clock and random source *)

Record World := mkWorld {
  clock : Z;            (** current time value, in ms *)
  rng : nat -> Q;       (** the n-th value [Math.random()] returns *)
  cursor : nat          (** how many draws have been consumed *)
}.

(** [Math.random()] returns a number in [0, 1). *)
Definition rng_ok (w : World) : Prop := forall n, (0 <= rng w n < 1)%Q.

(** [Math.random()]: the next draw of the stream. *)
Definition math_random : St World Q :=
  fun w => (rng w (cursor w), mkWorld (clock w) (rng w) (S (cursor w))).

(** [new Date()]: the current time value. *)
Definition date_now : St World Z := fun w => (clock w, w).

(** [await new Promise(r => setTimeout(r, delay))] in a sequential run:
    the HTML timer converts [delay] to an integer number of milliseconds
    (a non-negative double is truncated, a negative one becomes 0) and the
    continuation runs once the clock has advanced that far. *)
Definition timeout_ms (delay : Q) : Z := Z.max 0 (Qfloor delay).

Definition sleep (delay : Q) : St World unit :=
  fun w => (tt, mkWorld (clock w + timeout_ms delay) (rng w) (cursor w)).

Lemma math_random_rng_ok w : rng_ok w -> rng_ok (snd (math_random w)).
Proof. done. Qed.

Lemma sleep_rng_ok d w : rng_ok w -> rng_ok (snd (sleep d w)).
Proof. done. Qed.

Lemma sleep_clock d w : clock (snd (sleep d w)) = clock w + timeout_ms d.
Proof. reflexivity. Qed.

(** ** Delay bounds

    A delay of [Math.random() * (hi - lo) + lo] fires after [lo] to
    [hi - 1] whole milliseconds. *)
Lemma timeout_ms_bounds (r : Q) (lo hi : Z) :
  0 <= lo < hi -> (0 <= r < 1)%Q ->
  lo <= timeout_ms (r * inject_Z (hi - lo) + inject_Z lo) <= hi - 1.
Proof.
  intros [Hlo Hhi] [Hr0 Hr1].
  set (x := (r * inject_Z (hi - lo) + inject_Z lo)%Q).
  assert (Hd : (0 < inject_Z (hi - lo))%Q)
    by (change 0%Q with (inject_Z 0); rewrite <- Zlt_Qlt; lia).
  assert (Hx0 : (inject_Z lo <= x)%Q).
  { unfold x. assert (0 <= r * inject_Z (hi - lo))%Q
      by (apply Qmult_le_0_compat; [done | apply Qlt_le_weak, Hd]).
    lra. }
  assert (Hx1 : (x < inject_Z hi)%Q).
  { unfold x. assert (r * inject_Z (hi - lo) < 1 * inject_Z (hi - lo))%Q
      by (apply Qmult_lt_r; done).
    unfold Z.sub in *. rewrite !inject_Z_plus, !inject_Z_opp in *. lra. }
  assert (Hf0 : lo <= Qfloor x) by (rewrite <- (Qfloor_Z lo); by apply Qfloor_resp_le).
  assert (Hf1 : Qfloor x < hi).
  { rewrite Zlt_Qlt. eapply Qle_lt_trans; [apply Qfloor_le | exact Hx1]. }
  unfold timeout_ms. lia.
Qed.
