(* ===== verification/IsoDate.v ===== *)
(** * The [Date] string format

    [Date.prototype.toISOString], which the controller uses to store the
    time of the last scan ([App.tsx], [setLastScan]), and the parse of
    that format that [new Date(isoString)] performs when the page shows
    it ([formatLastScan]). Both are host semantics written from the
    ECMAScript specification (Date Time String Format, [YearFromTime],
    [MonthFromTime], [DateFromTime], [MakeDay], [MakeTime]). The civil
    calendar is the proleptic Gregorian one, computed era by era (an era
    is 400 years, 146097 days); a property of the days of one era is
    checked at each of them by evaluation ([civil_table]).

    The main result is the round trip: for every time value from 1970 to
    the end of year 9999, parsing the string [toISOString] prints gives
    back the time value. *)

From S2P Require Import Prelude.
From Stdlib Require Import Ascii.
Local Open Scope Z_scope.

(** ** Days and civil dates *)

Definition ms_per_day : Z := 86400000.

(** Within an era, the day [doe] (0 = March 1 of the era's first year)
    falls in year [year_of_era doe] (years start on March 1), on day
    [day_of_year] of it, in month [month_index] (0 = March). *)
Definition year_of_era (doe : Z) : Z :=
  (doe - doe / 1460 + doe / 36524 - doe / 146096) / 365.

Definition day_of_year (doe : Z) : Z :=
  let yoe := year_of_era doe in doe - (365 * yoe + yoe / 4 - yoe / 100).

Definition month_index (doy : Z) : Z := (5 * doy + 2) / 153.

Definition day_of_month (doy : Z) : Z := doy - (153 * month_index doy + 2) / 5 + 1.

(** Day number (days since 1970-01-01) to (year, month 1..12, day 1..31). *)
Definition civil_from_days (days : Z) : Z * Z * Z :=
  let z := days + 719468 in
  let era := z / 146097 in
  let doe := z - era * 146097 in
  let yoe := year_of_era doe in
  let mp := month_index (day_of_year doe) in
  let m := if mp <? 10 then mp + 3 else mp - 9 in
  let y := yoe + era * 400 + (if m <=? 2 then 1 else 0) in
  (y, m, day_of_month (day_of_year doe)).

(** [MakeDay(year, month - 1, date)]: the day number of a civil date. *)
Definition days_from_civil (y m d : Z) : Z :=
  let y := if m <=? 2 then y - 1 else y in
  let era := y / 400 in
  let yoe := y - era * 400 in
  let mp := (m + 9) mod 12 in
  let doy := (153 * mp + 2) / 5 + d - 1 in
  let doe := yoe * 365 + yoe / 4 - yoe / 100 + doy in
  era * 146097 + doe - 719468.

(** ** [Date.prototype.toISOString]

    [YYYY-MM-DDTHH:mm:ss.sssZ] in UTC; years outside 0..9999 are written
    with a sign and six digits. *)

(** [n] in decimal, left-padded with zeros to [width] digits. *)
Definition pad (width : nat) (n : Z) : string :=
  let s := string_of_nat (Z.to_nat n) in
  String.append (String.concat "" (repeat "0"%string (width - String.length s))) s.

Definition iso_year (y : Z) : string :=
  if (0 <=? y) && (y <=? 9999) then pad 4 y
  else if y <? 0 then String.append "-" (pad 6 (- y))
  else String.append "+" (pad 6 y).

Definition toISOString (t : Z) : string :=
  let '(y, mo, d) := civil_from_days (t / ms_per_day) in
  let ms := t mod ms_per_day in
  String.concat "" [iso_year y; "-"; pad 2 mo; "-"; pad 2 d; "T";
                    pad 2 (ms / 3600000); ":"; pad 2 (ms / 60000 mod 60); ":";
                    pad 2 (ms / 1000 mod 60); "."; pad 3 (ms mod 1000); "Z"].

Example toISOString_epoch : toISOString 0 = "1970-01-01T00:00:00.000Z".
Proof. reflexivity. Qed.

Example toISOString_sample : toISOString 1700000000123 = "2023-11-14T22:13:20.123Z".
Proof. vm_compute. reflexivity. Qed.

Example toISOString_leap : toISOString 951782400000 = "2000-02-29T00:00:00.000Z".
Proof. vm_compute. reflexivity. Qed.

Arguments pad : simpl never.

(** ** Reading the format

    [new Date(isoString)] on the Date Time String Format: fixed-width
    decimal fields and separators, then [MakeDay] and [MakeTime]. An
    hour of 24 is [24:00:00.000] only. Other accepted forms (date only,
    an offset instead of [Z], six-digit years) are not modelled, and
    neither is the rejection of a day beyond its month's length: the
    model reads every string of this format as [None] or its time. *)

Definition digit_value (c : ascii) : option Z :=
  let n := Z.of_nat (nat_of_ascii c) - 48 in
  if (0 <=? n) && (n <=? 9) then Some n else None.

(** The next [k] characters as a decimal number, after [acc]. *)
Fixpoint take_digits (k : nat) (acc : Z) (s : string) : option (Z * string) :=
  match k with
  | O => Some (acc, s)
  | S k =>
      match s with
      | EmptyString => None
      | String c s =>
          match digit_value c with
          | Some n => take_digits k (acc * 10 + n) s
          | None => None
          end
      end
  end.

Definition expect (c : ascii) (s : string) : option string :=
  match s with
  | String c' s => if Ascii.eqb c c' then Some s else None
  | EmptyString => None
  end.

Definition valid_fields (mo d h mi sec ms : Z) : bool :=
  (1 <=? mo) && (mo <=? 12) && (1 <=? d) && (d <=? 31) &&
  (mi <=? 59) && (sec <=? 59) &&
  ((h <=? 23) || ((h =? 24) && (mi =? 0) && (sec =? 0) && (ms =? 0))).

Definition parse_iso (s : string) : option Z :=
  '(y, s) ← take_digits 4 0 s; s ← expect "-" s;
  '(mo, s) ← take_digits 2 0 s; s ← expect "-" s;
  '(d, s) ← take_digits 2 0 s; s ← expect "T" s;
  '(h, s) ← take_digits 2 0 s; s ← expect ":" s;
  '(mi, s) ← take_digits 2 0 s; s ← expect ":" s;
  '(sec, s) ← take_digits 2 0 s; s ← expect "." s;
  '(ms, s) ← take_digits 3 0 s; s ← expect "Z" s;
  match s with
  | EmptyString =>
      if valid_fields mo d h mi sec ms then
        Some (days_from_civil y mo d * ms_per_day + h * 3600000 + mi * 60000 + sec * 1000 + ms)
      else None
  | String _ _ => None
  end.

Example parse_iso_sample : parse_iso "2023-11-14T22:13:20.123Z" = Some 1700000000123.
Proof. vm_compute. reflexivity. Qed.

(** ** Calendar bounds *)

Ltac div_lia := Z.div_mod_to_equations; lia.

Lemma year_of_era_bounds doe : 0 <= doe < 146097 -> 0 <= year_of_era doe <= 399.
Proof. unfold year_of_era. intros. div_lia. Qed.

Lemma day_of_year_bounds doe : 0 <= doe < 146097 -> 0 <= day_of_year doe <= 365.
Proof. unfold day_of_year, year_of_era. intros. div_lia. Qed.

Lemma month_index_bounds doy : 0 <= doy <= 365 -> 0 <= month_index doy <= 11.
Proof. unfold month_index. intros. div_lia. Qed.

Lemma day_of_month_bounds doy : 0 <= doy <= 365 -> 1 <= day_of_month doy <= 31.
Proof. unfold day_of_month, month_index. intros. div_lia. Qed.

(** The last year of an era reaches January only on its day 146037. *)
Lemma last_year_of_era doe :
  0 <= doe < 146037 -> year_of_era doe = 399 -> month_index (day_of_year doe) < 10.
Proof. unfold day_of_year, month_index. intros ? ->. revert H. unfold year_of_era. intros. div_lia. Qed.

(** ** The day number round trip *)

Lemma days_from_civil_from_days z :
  let '(y, m, d) := civil_from_days z in days_from_civil y m d = z.
Proof.
  unfold civil_from_days, days_from_civil.
  set (era := (z + 719468) / 146097).
  set (doe := z + 719468 - era * 146097).
  assert (Hdoe : 0 <= doe < 146097) by (unfold doe, era; div_lia).
  pose proof (year_of_era_bounds doe Hdoe).
  pose proof (day_of_year_bounds doe Hdoe).
  pose proof (month_index_bounds (day_of_year doe) ltac:(lia)).
  set (yoe := year_of_era doe) in *. set (doy := day_of_year doe) in *.
  set (mp := month_index doy) in *.
  assert (Hdoy : doy = doe - (365 * yoe + yoe / 4 - yoe / 100)) by reflexivity.
  assert (Hd : day_of_month doy = doy - (153 * mp + 2) / 5 + 1) by reflexivity.
  assert (Hz : doe = z + 719468 - era * 146097) by reflexivity.
  rewrite Hd. clearbody era doe yoe doy mp.
  destruct (Z.ltb_spec mp 10); [destruct (Z.leb_spec (mp + 3) 2) | destruct (Z.leb_spec (mp - 9) 2)];
    div_lia.
Qed.

(** ** Fixed-width fields *)

Lemma take_digits_app k acc a v rest :
  take_digits k acc a = Some (v, EmptyString) -> take_digits k acc (a ++ rest) = Some (v, rest).
Proof.
  revert acc a. induction k as [|k IH]; intros acc a H; simpl in *.
  - by injection H as -> ->.
  - destruct a as [|c a]; [discriminate|]. simpl.
    destruct (digit_value c); [by apply IH | discriminate].
Qed.

Definition field_ok (k : nat) (n : Z) : bool :=
  match take_digits k 0 (pad k n) with
  | Some (v, EmptyString) => v =? n
  | _ => false
  end.

Lemma field_ok_take k n rest :
  field_ok k n = true -> take_digits k 0 (pad k n ++ rest) = Some (n, rest).
Proof.
  unfold field_ok. destruct (take_digits k 0 (pad k n)) as [[v [|]]|] eqn:E; try discriminate.
  intros Hv%Z.eqb_eq. subst v. by apply take_digits_app.
Qed.

Lemma field_table_2 : all_from (field_ok 2) 0 (Z.to_nat 100) = true.
Proof. vm_compute. reflexivity. Qed.

Lemma field_table_3 : all_from (field_ok 3) 0 (Z.to_nat 1000) = true.
Proof. vm_compute. reflexivity. Qed.

Lemma field_table_4 : all_from (field_ok 4) 0 (Z.to_nat 10000) = true.
Proof. vm_compute. reflexivity. Qed.

Lemma take_pad2 n rest : 0 <= n < 100 -> take_digits 2 0 (pad 2 n ++ rest) = Some (n, rest).
Proof. intros. apply field_ok_take, (all_from_range _ _ _ field_table_2). lia. Qed.

Lemma take_pad3 n rest : 0 <= n < 1000 -> take_digits 3 0 (pad 3 n ++ rest) = Some (n, rest).
Proof. intros. apply field_ok_take, (all_from_range _ _ _ field_table_3). lia. Qed.

Lemma take_pad4 n rest : 0 <= n < 10000 -> take_digits 4 0 (pad 4 n ++ rest) = Some (n, rest).
Proof. intros. apply field_ok_take, (all_from_range _ _ _ field_table_4). lia. Qed.

(** ** The round trip *)

(** Days 0 to 2932896 are the years 1970 to 9999. *)
Lemma civil_from_days_bounds z :
  0 <= z < 2932897 ->
  let '(y, m, d) := civil_from_days z in 0 <= y <= 9999 /\ 1 <= m <= 12 /\ 1 <= d <= 31.
Proof.
  intros Hz. unfold civil_from_days.
  set (era := (z + 719468) / 146097).
  set (doe := z + 719468 - era * 146097).
  assert (Hdoe : 0 <= doe < 146097) by (unfold doe, era; div_lia).
  assert (Hera : 0 <= era <= 24) by (unfold era; div_lia).
  assert (Hlast : era = 24 -> doe < 146037) by (unfold doe; lia).
  pose proof (year_of_era_bounds doe Hdoe).
  pose proof (day_of_year_bounds doe Hdoe).
  pose proof (month_index_bounds _ H0). pose proof (day_of_month_bounds _ H0).
  pose proof (last_year_of_era doe).
  clearbody era doe.
  destruct (Z.ltb_spec (month_index (day_of_year doe)) 10);
    [destruct (Z.leb_spec (month_index (day_of_year doe) + 3) 2)
    | destruct (Z.leb_spec (month_index (day_of_year doe) - 9) 2)];
    lia.
Qed.

Arguments valid_fields : simpl never.
Arguments take_digits : simpl never.
Arguments days_from_civil : simpl never.

Lemma append_nil_l s : "" +:+ s = s.
Proof. reflexivity. Qed.

Lemma append_cons c s t : String c s +:+ t = String c (s +:+ t).
Proof. reflexivity. Qed.

Lemma valid_fields_intro mo d h mi sec ms :
  1 <= mo <= 12 -> 1 <= d <= 31 -> 0 <= h <= 23 -> mi <= 59 -> sec <= 59 ->
  valid_fields mo d h mi sec ms = true.
Proof.
  intros. unfold valid_fields.
  repeat (apply andb_true_intro; split); try (apply orb_true_intro; left); apply Z.leb_le; lia.
Qed.

Lemma iso_year_four_digits y : 0 <= y <= 9999 -> iso_year y = pad 4 y.
Proof. intros Hy. unfold iso_year. by replace ((0 <=? y) && (y <=? 9999)) with true by lia. Qed.

(** [new Date(isoString)] reads back what [toISOString] writes: for
    every time value from 1970 to the end of year 9999, parsing the
    24-character string gives the same time value, to the millisecond. *)
Lemma parse_iso_toISOString t :
  0 <= t < 253402300800000 -> parse_iso (toISOString t) = Some t.
Proof.
  intros Ht. unfold toISOString.
  pose proof (days_from_civil_from_days (t / ms_per_day)) as Hrt.
  pose proof (civil_from_days_bounds (t / ms_per_day) ltac:(unfold ms_per_day; div_lia)) as Hb.
  destruct (civil_from_days (t / ms_per_day)) as [[y mo] d].
  destruct Hb as (Hy & Hmo & Hd).
  rewrite iso_year_four_digits by done.
  pose proof (Z.mod_pos_bound t ms_per_day ltac:(done)) as Hms.
  set (ms := t mod ms_per_day) in *.
  simpl String.concat. rewrite ?append_nil_l, ?append_cons, ?append_nil_l. unfold parse_iso.
  repeat (first [ rewrite take_pad4 by lia | rewrite take_pad3 by (unfold ms_per_day in *; div_lia)
                | rewrite take_pad2 by (unfold ms_per_day in *; div_lia) ];
            simpl; rewrite ?append_nil_l, ?append_cons, ?append_nil_l).
  rewrite valid_fields_intro by (unfold ms_per_day in *; div_lia).
  f_equal. rewrite Hrt. unfold ms, ms_per_day in *. div_lia.
Qed.

Lemma toISOString_nonempty t : 0 <= t < 253402300800000 -> toISOString t <> "".
Proof. intros Ht E. pose proof (parse_iso_toISOString t Ht) as H. rewrite E in H. discriminate. Qed.
