(* ===== verification/JsMap.v ===== *)
(** * JavaScript [Map<string, V>]

    The registry keeps its devices in a [Map], whose iteration order is
    insertion order: [values()] lists the entries in the order their keys
    were first set, and [set] on a present key replaces the value in
    place. The model is an association list in that order. It refines
    stdpp's [gmap]: [get] and [set] are [lookup] and [insert] of the
    abstraction [to_gmap], so lemmas on finite maps transfer. *)

From S2P Require Import Prelude.
From stdpp Require Import gmap.

Definition JsMap (V : Type) : Type := list (string * V).

Section JsMap.
Context {V : Type}.
Implicit Types (m : JsMap V) (k : string) (v : V).

(** [m.get(k)] (undefined is [None]). *)
Fixpoint map_get k m : option V :=
  match m with
  | [] => None
  | (k', v') :: m' => if String.eqb k k' then Some v' else map_get k m'
  end.

(** [m.set(k, v)]. *)
Fixpoint map_set k v m : JsMap V :=
  match m with
  | [] => [(k, v)]
  | (k', v') :: m' =>
      if String.eqb k k' then (k', v) :: m' else (k', v') :: map_set k v m'
  end.

(** [Array.from(m.values())] and the keys in iteration order. *)
Definition map_values m : list V := map snd m.
Definition map_keys m : list string := map fst m.

(** The abstraction: a finite map with the same lookups. *)
Definition to_gmap m : gmap string V := list_to_map m.

Lemma map_get_set_eq k v m : map_get k (map_set k v m) = Some v.
Proof.
  induction m as [|[k' v'] m IH]; simpl; [by rewrite String.eqb_refl|].
  destruct (String.eqb k k') eqn:E; simpl; rewrite ?E; [done|].
  exact IH.
Qed.

Lemma map_get_set_ne k k' v m :
  k <> k' -> map_get k' (map_set k v m) = map_get k' m.
Proof.
  intros Hne. induction m as [|[k0 v0] m IH]; simpl.
  - destruct (String.eqb_spec k' k); congruence.
  - destruct (String.eqb_spec k k0) as [->|]; simpl.
    + destruct (String.eqb_spec k' k0); congruence.
    + by rewrite IH.
Qed.

(** [set] on a present key keeps the key order. *)
Lemma map_keys_set_present k v m :
  map_get k m <> None -> map_keys (map_set k v m) = map_keys m.
Proof.
  induction m as [|[k' v'] m IH]; simpl; [done|].
  destruct (String.eqb k k'); simpl; [done|]. intros H. by rewrite IH.
Qed.

(** [set] on an absent key appends it. *)
Lemma map_keys_set_absent k v m :
  map_get k m = None -> map_keys (map_set k v m) = map_keys m ++ [k].
Proof.
  induction m as [|[k' v'] m IH]; simpl; [done|].
  destruct (String.eqb k k'); simpl; [done|]. intros H. by rewrite IH.
Qed.

Lemma map_get_In k v m : map_get k m = Some v -> In (k, v) m.
Proof.
  induction m as [|[k' v'] m IH]; simpl; [done|].
  destruct (String.eqb_spec k k') as [->|]; [intros [= ->]; by left|].
  intros H. right. auto.
Qed.

Lemma map_get_None k m : map_get k m = None <-> ~ In k (map_keys m).
Proof.
  induction m as [|[k' v'] m IH]; simpl; [tauto|].
  destruct (String.eqb_spec k k') as [->|Hne]; [split; [done|tauto]|].
  rewrite IH. intuition congruence.
Qed.

(** With distinct keys, [set] on a present key replaces exactly the value
    stored under it and leaves the other entries where they are. *)
Lemma map_set_present_map k v m :
  NoDup (map_keys m) -> map_get k m <> None ->
  map_set k v m = map (fun e => if String.eqb k e.1 then (e.1, v) else e) m.
Proof.
  induction m as [|[k' v'] m IH]; simpl; [done|].
  intros Hnd. inversion Hnd as [|? ? Hnin Hnd']; subst.
  destruct (String.eqb_spec k k') as [->|Hne]; intros Hget.
  - f_equal. symmetry. apply map_where_unselected.
    apply Forall_forall. intros [k0 v0] Hk0. simpl.
    destruct (String.eqb_spec k' k0) as [->|]; [|done].
    exfalso. apply Hnin. apply list_elem_of_In, (in_map fst) in Hk0. apply list_elem_of_In. exact Hk0.
  - f_equal. by apply IH.
Qed.

Lemma NoDup_map_set k v m :
  NoDup (map_keys m) -> NoDup (map_keys (map_set k v m)).
Proof.
  intros Hnd. destruct (map_get k m) eqn:E.
  - rewrite map_keys_set_present by congruence. done.
  - rewrite map_keys_set_absent by done.
    apply NoDup_app. split; [done|split; [|apply NoDup_singleton]].
    intros x Hx ->%list_elem_of_singleton.
    apply map_get_None in E. apply E, list_elem_of_In, Hx.
Qed.

Lemma Forall_map_set (P : string * V -> Prop) k v m :
  P (k, v) -> Forall P m -> Forall P (map_set k v m).
Proof.
  intros Hkv. induction 1 as [|[k' v'] m Hx Hm IH]; simpl; [by constructor|].
  destruct (String.eqb_spec k k') as [->|]; constructor; auto.
Qed.

Lemma map_get_Forall (P : string * V -> Prop) k v m :
  Forall P m -> map_get k m = Some v -> P (k, v).
Proof.
  intros HP Hget. apply map_get_In in Hget.
  rewrite Forall_forall in HP. apply HP, list_elem_of_In, Hget.
Qed.

Lemma map_get_NoDup_In k v m :
  NoDup (map_keys m) -> In (k, v) m -> map_get k m = Some v.
Proof.
  induction m as [|[k' v'] m IH]; simpl; [done|].
  intros Hnd [[= -> ->]|Hin]; inversion Hnd as [|? ? Hnin Hnd']; subst.
  - by rewrite String.eqb_refl.
  - destruct (String.eqb_spec k k') as [->|]; [|by apply IH].
    exfalso. apply Hnin, list_elem_of_In. apply (in_map fst) in Hin. exact Hin.
Qed.

(** ** Refinement of the finite-map abstraction *)

Lemma to_gmap_lookup k m : to_gmap m !! k = map_get k m.
Proof.
  induction m as [|[k' v'] m IH]; simpl; [apply lookup_empty|].
  unfold to_gmap in *. simpl.
  destruct (String.eqb_spec k k') as [->|Hne].
  - apply lookup_insert_eq.
  - rewrite lookup_insert_ne by congruence. exact IH.
Qed.

Lemma to_gmap_set k v m : to_gmap (map_set k v m) = <[k := v]> (to_gmap m).
Proof.
  apply map_eq. intros k'. rewrite to_gmap_lookup.
  destruct (decide (k = k')) as [->|Hne].
  - by rewrite map_get_set_eq, lookup_insert_eq.
  - rewrite map_get_set_ne, lookup_insert_ne by done. by rewrite to_gmap_lookup.
Qed.
End JsMap.

(** ** Maps with the same entries

    Two maps that answer every [get] alike differ at most in their
    iteration order. [get], [set] and the abstraction respect that
    equivalence, so it can be rewritten with. *)

Definition jsmap_equiv {V} (m1 m2 : JsMap V) : Prop := forall k, map_get k m1 = map_get k m2.

#[export] Instance jsmap_equiv_Equivalence {V} : Equivalence (@jsmap_equiv V).
Proof. split; repeat intro; [done | by symmetry | etrans; eauto]. Qed.

#[export] Instance map_get_proper {V} : Proper (eq ==> jsmap_equiv ==> eq) (@map_get V).
Proof. intros k ? <- m1 m2 Hm. apply Hm. Qed.

#[export] Instance map_set_proper {V} :
  Proper (eq ==> eq ==> jsmap_equiv ==> jsmap_equiv) (@map_set V).
Proof.
  intros k ? <- v ? <- m1 m2 Hm k'.
  destruct (String.eqb_spec k k') as [->|Hne]; [by rewrite !map_get_set_eq|].
  rewrite !map_get_set_ne by done. apply Hm.
Qed.

Lemma jsmap_equiv_to_gmap {V} (m1 m2 : JsMap V) : jsmap_equiv m1 m2 <-> to_gmap m1 = to_gmap m2.
Proof.
  split.
  - intros Hm. apply map_eq. intros k. by rewrite !to_gmap_lookup.
  - intros Hg k. by rewrite <- !to_gmap_lookup, Hg.
Qed.

#[export] Instance to_gmap_proper {V} : Proper (jsmap_equiv ==> eq) (@to_gmap V).
Proof. intros m1 m2 Hm. by apply jsmap_equiv_to_gmap. Qed.

#[export] Hint Rewrite @map_get_set_eq : tuya_rw.
#[export] Hint Resolve NoDup_map_set : tuya.
