(* ===== verification/Types.v ===== *)
(** * The device model ([src/src/lib/types.ts])

    A device record, the discovery result and the control request and
    response. Each interface of the source is a record; the two string
    unions ([type], [action]) are inductive types with the source's
    literals as constructors. Optional properties ([ip?], [model?],
    [error?]) are options. [lastSeen] is declared a [Date], but a record
    read back from [useKV]'s JSON storage carries the string
    [toISOString] wrote in its place, which [DeviceCard]'s
    [formatLastSeen(date: Date | string)] expects: the field holds a
    [DateOrString], a [Date] being its time value in milliseconds.
    The request, response and discovery-result records share field names
    in the source, so each lives in a module of its own name. *)

From S2P Require Import Prelude.

Inductive DeviceType := switch | light | outlet | fan | other.

(** The runtime value of a [lastSeen] field: [new Date(...)], or the
    string of a record that went through JSON. *)
Inductive DateOrString := DateValue (t : Z) | DateText (s : string).

Record TuyaDevice := mkTuyaDevice {
  id : string;
  name : string;
  type : DeviceType;
  isOnline : bool;
  isOn : bool;
  ip : option string;
  model : option string;
  lastSeen : DateOrString
}.

Module DeviceDiscoveryResult.
Record t := mk { devices : list TuyaDevice; timestamp : Z }.
End DeviceDiscoveryResult.

Inductive Action := turn_on | turn_off.

Module DeviceControlRequest.
Record t := mk { deviceId : string; action : Action }.
End DeviceControlRequest.

Module DeviceControlResponse.
Record t := mk {
  success : bool;
  deviceId : string;
  newState : bool;
  error : option string
}.
End DeviceControlResponse.

(** ** Object spread with one property overridden

    [{ ...device, isOn: b }] and the like: a copy of the record with one
    field replaced. *)

Definition with_isOn (b : bool) (d : TuyaDevice) : TuyaDevice :=
  mkTuyaDevice (id d) (name d) (type d) (isOnline d) b (ip d) (model d) (lastSeen d).

Definition with_isOnline (b : bool) (d : TuyaDevice) : TuyaDevice :=
  mkTuyaDevice (id d) (name d) (type d) b (isOn d) (ip d) (model d) (lastSeen d).

Definition with_lastSeen (t : DateOrString) (d : TuyaDevice) : TuyaDevice :=
  mkTuyaDevice (id d) (name d) (type d) (isOnline d) (isOn d) (ip d) (model d) t.

(** ** Decidable equality *)

#[export] Instance DeviceType_eq_dec : EqDecision DeviceType.
Proof. solve_decision. Defined.

#[export] Instance DateOrString_eq_dec : EqDecision DateOrString.
Proof. solve_decision. Defined.

#[export] Instance Action_eq_dec : EqDecision Action.
Proof. solve_decision. Defined.

#[export] Instance TuyaDevice_eq_dec : EqDecision TuyaDevice.
Proof. intros [] []. unfold Decision. decide equality; apply (decide (_ = _)). Defined.

(** [request.action === 'turn_on'] *)
Definition is_turn_on (a : Action) : bool :=
  match a with turn_on => true | turn_off => false end.

(** ** What the field updates change *)

Lemma with_isOn_id b d : id (with_isOn b d) = id d.
Proof. reflexivity. Qed.
Lemma with_isOnline_id b d : id (with_isOnline b d) = id d.
Proof. reflexivity. Qed.
Lemma with_lastSeen_id t d : id (with_lastSeen t d) = id d.
Proof. reflexivity. Qed.

Lemma with_isOn_same d : with_isOn (isOn d) d = d.
Proof. by destruct d. Qed.

Lemma with_isOn_twice b c d : with_isOn b (with_isOn c d) = with_isOn b d.
Proof. reflexivity. Qed.

#[export] Hint Rewrite with_isOn_id with_isOnline_id with_lastSeen_id
  with_isOn_same with_isOn_twice : tuya_rw.
