(* ===== verification/TuyaApi.v ===== *)
(** * The device registry ([src/src/lib/tuya-api.ts], class [TuyaAPIService])

    The mock transport keeps the authoritative devices in a [Map] keyed by
    identifier and answers discovery, control and status requests after a
    random network delay, with random failures. Every method is a
    computation of the state monad [Api] over a [Machine]: the service's
    map together with the runtime (clock and [Math.random] stream) it
    runs on. [await this.simulateNetworkDelay(..)] draws one number and
    advances the clock; the rest of each method runs after it, as in the
    source. *)

From S2P Require Import Prelude Runtime JsMap Types.
Local Open Scope Z_scope.

Record TuyaAPIService := mkService { devices : JsMap TuyaDevice }.

Record Machine := mkMachine { svc : TuyaAPIService; world : World }.

Definition Api (A : Type) : Type := St Machine A.

(** ** Access to the runtime and to [this.devices] *)

Definition lift_world {A} (m : St World A) : Api A :=
  fun s => let '(a, w) := m (world s) in (a, mkMachine (svc s) w).

Definition get_device (deviceId : string) : Api (option TuyaDevice) :=
  fun s => (map_get deviceId (devices (svc s)), s).

Definition set_device (deviceId : string) (d : TuyaDevice) : Api unit :=
  fun s => (tt, mkMachine (mkService (map_set deviceId d (devices (svc s)))) (world s)).

Definition get_values : Api (list TuyaDevice) :=
  fun s => (map_values (devices (svc s)), s).

(** ** The seeded fleet and the constructor

    [mockDevices] is evaluated when the module loads, at time [t0]; the
    constructor copies each record into the map in array order. *)

Definition mockDevices (t0 : Z) : list TuyaDevice := [
  mkTuyaDevice "device_001" "Living Room Light" light true false
    (Some "192.168.1.101") (Some "Tuya Smart Bulb v2") (DateValue t0);
  mkTuyaDevice "device_002" "Kitchen Outlet" outlet true true
    (Some "192.168.1.102") (Some "Smart Plug Pro") (DateValue t0);
  mkTuyaDevice "device_003" "Bedroom Fan" fan false false
    (Some "192.168.1.103") (Some "Ceiling Fan Controller") (DateValue (t0 - 300000));
  mkTuyaDevice "device_004" "Patio Switch" switch true false
    (Some "192.168.1.104") (Some "Outdoor Smart Switch") (DateValue t0) ]%string.

Definition new_TuyaAPIService (seed : list TuyaDevice) : TuyaAPIService :=
  mkService (fold_left (fun m device => map_set (id device) device m) seed []).

(** ** Methods *)

(** [const delay = Math.random() * (maxMs - minMs) + minMs], then the
    timer. [networkDelay] is the synchronous part, run when the method is
    called; the [_resume] definitions below are the method bodies after
    their [await], run when the timer fires. *)
Definition networkDelay (minMs maxMs : Z) : Api Q :=
  r <- lift_world math_random ;;
  st_ret (r * inject_Z (maxMs - minMs) + inject_Z minMs)%Q.

Definition simulateNetworkDelay (minMs maxMs : Z) : Api unit :=
  delay <- networkDelay minMs maxMs ;;
  lift_world (sleep delay).

Definition discoverDevices_resume : Api DeviceDiscoveryResult.t :=
  values <- get_values ;;
  now <- lift_world date_now ;;
  let devices := map (fun device =>
        with_lastSeen (if isOnline device then DateValue now else lastSeen device) device) values in
  timestamp <- lift_world date_now ;;
  st_ret (DeviceDiscoveryResult.mk devices timestamp).

Definition discoverDevices : Api DeviceDiscoveryResult.t :=
  simulateNetworkDelay 1500 3000 ;;; discoverDevices_resume.

Definition controlDevice_resume (request : DeviceControlRequest.t) : Api DeviceControlResponse.t :=
  let deviceId := DeviceControlRequest.deviceId request in
  device <- get_device deviceId ;;
  match device with
  | None =>
      st_ret (DeviceControlResponse.mk false deviceId false (Some "Device not found"%string))
  | Some device =>
      if negb (isOnline device) then
        st_ret (DeviceControlResponse.mk false deviceId (isOn device)
                  (Some "Device is offline"%string))
      else
        r <- lift_world math_random ;;
        if Qltb r (5 # 100) then
          st_ret (DeviceControlResponse.mk false deviceId (isOn device)
                    (Some "Communication timeout"%string))
        else
          let newState := is_turn_on (DeviceControlRequest.action request) in
          now <- lift_world date_now ;;
          set_device deviceId (with_lastSeen (DateValue now) (with_isOn newState device)) ;;;
          st_ret (DeviceControlResponse.mk true deviceId newState None)
  end.

Definition controlDevice (request : DeviceControlRequest.t) : Api DeviceControlResponse.t :=
  simulateNetworkDelay 200 800 ;;; controlDevice_resume request.

(** [!device.isOnline && Math.random() < 0.3]: the draw happens only for
    an offline device. *)
Definition getDeviceStatus_resume (deviceId : string) : Api (option TuyaDevice) :=
  device <- get_device deviceId ;;
  match device with
  | None => st_ret None
  | Some device =>
      reconnect <- (if negb (isOnline device)
                    then r <- lift_world math_random ;; st_ret (Qltb r (3 # 10))
                    else st_ret false) ;;
      if reconnect then
        now <- lift_world date_now ;;
        let device := with_lastSeen (DateValue now) (with_isOnline true device) in
        set_device deviceId device ;;;
        st_ret (Some device)
      else st_ret (Some device)
  end.

Definition getDeviceStatus (deviceId : string) : Api (option TuyaDevice) :=
  simulateNetworkDelay 500 1200 ;;; getDeviceStatus_resume deviceId.

Definition simulateDeviceOffline (deviceId : string) : Api unit :=
  device <- get_device deviceId ;;
  match device with
  | Some device => set_device deviceId (with_isOnline false device)
  | None => st_ret tt
  end.

Definition simulateDeviceOnline (deviceId : string) : Api unit :=
  device <- get_device deviceId ;;
  match device with
  | Some device =>
      now <- lift_world date_now ;;
      set_device deviceId (with_lastSeen (DateValue now) (with_isOnline true device))
  | None => st_ret tt
  end.

(** ** Well-formedness of the registry

    Every key of the map is the identifier of the record stored under it,
    and no key is stored twice. *)

Definition registry_wf (s : TuyaAPIService) : Prop :=
  NoDup (map_keys (devices s)) /\ Forall (fun e => id e.2 = e.1) (devices s).

Definition machine_ok (m : Machine) : Prop := registry_wf (svc m) /\ rng_ok (world m).

(** ** Running the delay

    [simulateNetworkDelay] consumes one draw, advances the clock and
    leaves the map alone. *)

Definition delay_world (minMs maxMs : Z) (w : World) : World :=
  mkWorld (clock w + timeout_ms (rng w (cursor w) * inject_Z (maxMs - minMs) + inject_Z minMs)%Q)
          (rng w) (S (cursor w)).

Lemma simulateNetworkDelay_run minMs maxMs m :
  simulateNetworkDelay minMs maxMs m = (tt, mkMachine (svc m) (delay_world minMs maxMs (world m))).
Proof. reflexivity. Qed.

Lemma delay_world_rng_ok a b w : rng_ok w -> rng_ok (delay_world a b w).
Proof. done. Qed.


(** The machine a control request runs on after its delay, and the
    world after the failure draw. *)
Definition control_world (w : World) : World := snd (math_random (delay_world 200 800 w)).
Definition control_draw (w : World) : Q := fst (math_random (delay_world 200 800 w)).

Ltac run_api := repeat (unfold simulateNetworkDelay, networkDelay, discoverDevices,
  discoverDevices_resume, controlDevice, controlDevice_resume, getDeviceStatus,
  getDeviceStatus_resume, st_bind, st_ret, lift_world, get_device, set_device,
  get_values, math_random, date_now, sleep in *; simpl in *).

(** ** [controlDevice], branch by branch *)

Section Control.
Variables (request : DeviceControlRequest.t) (m : Machine).
Let deviceId := DeviceControlRequest.deviceId request.
Let devs := devices (svc m).

(** C4. An unknown identifier fails with "Device not found" and
    [newState = false], and the registry is left as it was: only the
    delay has run. *)
Theorem controlDevice_not_found :
  map_get deviceId devs = None ->
  controlDevice request m =
    (DeviceControlResponse.mk false deviceId false (Some "Device not found"%string),
     mkMachine (svc m) (delay_world 200 800 (world m))).
Proof. intros H. unfold controlDevice. run_api. subst devs deviceId. by rewrite H. Qed.

(** C5. A known device that is offline fails with "Device is offline",
    reports its current power state, and nothing is mutated. *)
Theorem controlDevice_offline d :
  map_get deviceId devs = Some d -> isOnline d = false ->
  controlDevice request m =
    (DeviceControlResponse.mk false deviceId (isOn d) (Some "Device is offline"%string),
     mkMachine (svc m) (delay_world 200 800 (world m))).
Proof. intros H Hoff. unfold controlDevice. run_api. subst devs deviceId. by rewrite H, Hoff. Qed.

(** C6. An online device whose failure draw falls below 0.05 fails with
    "Communication timeout", reports its current power state, and
    nothing but the runtime changes. *)
Theorem controlDevice_timeout d :
  map_get deviceId devs = Some d -> isOnline d = true ->
  Qltb (control_draw (world m)) (5 # 100) = true ->
  controlDevice request m =
    (DeviceControlResponse.mk false deviceId (isOn d) (Some "Communication timeout"%string),
     mkMachine (svc m) (control_world (world m))).
Proof.
  intros H Hon Hr. unfold controlDevice, control_draw, control_world in *. run_api.
  subst devs deviceId. rewrite H; rewrite ?Hon. simpl. by rewrite Hr.
Qed.

(** C7. Otherwise the request succeeds: the device's power flag becomes
    [action === 'turn_on'], its [lastSeen] the time the request resumed,
    and the response echoes the new state. *)
Theorem controlDevice_success d :
  map_get deviceId devs = Some d -> isOnline d = true ->
  Qltb (control_draw (world m)) (5 # 100) = false ->
  let newState := is_turn_on (DeviceControlRequest.action request) in
  let w' := control_world (world m) in
  controlDevice request m =
    (DeviceControlResponse.mk true deviceId newState None,
     mkMachine (mkService (map_set deviceId (with_lastSeen (DateValue (clock w')) (with_isOn newState d)) devs)) w').
Proof.
  intros H Hon Hr. unfold controlDevice, control_draw, control_world in *. run_api.
  subst devs deviceId. rewrite H; rewrite ?Hon. simpl. by rewrite Hr.
Qed.
End Control.

(** ** The public methods as one interface

    Each method of the class, called on a machine, gives the next
    machine. *)

Inductive ApiCall :=
  | CallDiscover
  | CallControl (request : DeviceControlRequest.t)
  | CallStatus (deviceId : string)
  | CallOffline (deviceId : string)
  | CallOnline (deviceId : string).

Definition run_call (c : ApiCall) (m : Machine) : Machine :=
  match c with
  | CallDiscover => snd (discoverDevices m)
  | CallControl request => snd (controlDevice request m)
  | CallStatus deviceId => snd (getDeviceStatus deviceId m)
  | CallOffline deviceId => snd (simulateDeviceOffline deviceId m)
  | CallOnline deviceId => snd (simulateDeviceOnline deviceId m)
  end.

(** Storing a record with the same identifier under a present key keeps
    the registry well formed and its key order. *)
Lemma set_present_ok (s : TuyaAPIService) k d d' :
  registry_wf s -> map_get k (devices s) = Some d -> id d' = id d ->
  registry_wf (mkService (map_set k d' (devices s))) /\
  map_keys (map_set k d' (devices s)) = map_keys (devices s).
Proof.
  intros [Hnd Hids] Hget Hid.
  pose proof (map_get_Forall _ _ _ _ Hids Hget) as Hk. simpl in Hk.
  split; [split|].
  - by apply NoDup_map_set.
  - apply Forall_map_set; [simpl; congruence | done].
  - apply map_keys_set_present. congruence.
Qed.

Ltac api_cases :=
  run_api;
  repeat match goal with
  | |- context [map_get ?k ?m] => destruct (map_get k m) eqn:?
  | |- context [if ?b then _ else _] => destruct b eqn:?
  end; simpl.

Lemma set_present_wf (s : TuyaAPIService) k d d' :
  registry_wf s -> map_get k (devices s) = Some d -> id d' = id d ->
  registry_wf (mkService (map_set k d' (devices s))).
Proof. intros. by eapply set_present_ok. Qed.

Lemma set_present_keys (s : TuyaAPIService) k d d' :
  registry_wf s -> map_get k (devices s) = Some d -> id d' = id d ->
  map_keys (map_set k d' (devices s)) = map_keys (devices s).
Proof. intros. by eapply set_present_ok. Qed.

(** C10. Every method keeps the registry well formed (keys distinct and
    equal to the identifiers of their records) and the random source
    valid, and no method adds, removes or reorders a device. *)
Theorem run_call_ok c m :
  machine_ok m ->
  machine_ok (run_call c m) /\
  map_keys (devices (svc (run_call c m))) = map_keys (devices (svc m)).
Proof.
  intros [Hwf Hrng].
  destruct c; unfold run_call, discoverDevices, controlDevice, getDeviceStatus,
    simulateDeviceOffline, simulateDeviceOnline, simulateNetworkDelay, sleep;
    api_cases;
    (split; [split; [first [exact Hwf | eapply set_present_wf; [exact Hwf | eassumption | reflexivity]]
                    | intros n; apply Hrng]
            | first [reflexivity | eapply set_present_keys; [exact Hwf | eassumption | reflexivity]]]).
Qed.

(** ** Discovery *)

Lemma discoverDevices_run m :
  let w := delay_world 1500 3000 (world m) in
  discoverDevices m =
    (DeviceDiscoveryResult.mk
       (map (fun d => with_lastSeen (if isOnline d then DateValue (clock w) else lastSeen d) d)
            (map_values (devices (svc m))))
       (clock w),
     mkMachine (svc m) w).
Proof. reflexivity. Qed.

Lemma map_id_values (s : TuyaAPIService) :
  registry_wf s -> map id (map_values (devices s)) = map_keys (devices s).
Proof.
  intros [_ Hids]. unfold map_values, map_keys. rewrite map_map.
  apply map_ext_Forall. exact Hids.
Qed.

(** C9. Discovery returns every registered device, in the registry's
    insertion order, with [lastSeen] refreshed to the resume time for the
    online ones only; its timestamp is that time, and the registry itself
    is not modified. *)
Theorem discoverDevices_snapshot m :
  registry_wf (svc m) ->
  let w := delay_world 1500 3000 (world m) in
  let '(result, m') := discoverDevices m in
  m' = mkMachine (svc m) w /\
  DeviceDiscoveryResult.timestamp result = clock w /\
  map id (DeviceDiscoveryResult.devices result) = map_keys (devices (svc m)) /\
  (forall k d, map_get k (devices (svc m)) = Some d ->
     In (with_lastSeen (if isOnline d then DateValue (clock w) else lastSeen d) d)
        (DeviceDiscoveryResult.devices result)).
Proof.
  intros Hwf w. rewrite discoverDevices_run. simpl. split; [done|]. split; [done|]. split.
  - rewrite map_map. simpl. apply map_id_values, Hwf.
  - intros k d Hget. apply in_map_iff. exists d. split; [done|]. apply map_get_In in Hget.
    apply (in_map snd) in Hget. exact Hget.
Qed.

(** ** Status checks *)

Definition status_draw (w : World) : Q := fst (math_random (delay_world 500 1200 w)).

Lemma getDeviceStatus_online m deviceId d :
  map_get deviceId (devices (svc m)) = Some d -> isOnline d = true ->
  getDeviceStatus deviceId m = (Some d, mkMachine (svc m) (delay_world 500 1200 (world m))).
Proof. intros H Hon. unfold getDeviceStatus. run_api. by rewrite H, Hon. Qed.

Lemma getDeviceStatus_offline m deviceId d :
  map_get deviceId (devices (svc m)) = Some d -> isOnline d = false ->
  let w := snd (math_random (delay_world 500 1200 (world m))) in
  getDeviceStatus deviceId m =
    if Qltb (status_draw (world m)) (3 # 10) then
      let d' := with_lastSeen (DateValue (clock w)) (with_isOnline true d) in
      (Some d', mkMachine (mkService (map_set deviceId d' (devices (svc m)))) w)
    else (Some d, mkMachine (svc m) w).
Proof.
  intros H Hoff. unfold getDeviceStatus, status_draw. run_api. rewrite H, Hoff. simpl.
  by destruct (Qltb _ _).
Qed.

(** ** Polling an offline device

    [n] successive status checks of one device. While it stays offline
    each check consumes two draws: the delay, then the reconnect draw. *)

Fixpoint pollStatus (n : nat) (deviceId : string) : Api unit :=
  match n with
  | O => st_ret tt
  | S n => getDeviceStatus deviceId ;;; pollStatus n deviceId
  end.

Lemma pollStatus_keeps_online n m deviceId d :
  map_get deviceId (devices (svc m)) = Some d -> isOnline d = true ->
  map_get deviceId (devices (svc (snd (pollStatus n deviceId m)))) = Some d.
Proof.
  revert m. induction n as [|n IH]; intros m H Hon; [done|].
  simpl. unfold st_bind. rewrite (getDeviceStatus_online m deviceId d H Hon).
  by apply IH.
Qed.

(** Two draws of the same stream at indices [lia] proves equal. *)
Ltac same_draw H :=
  match type of H with
  | Qltb (rng ?w ?a) ?q = ?b =>
      match goal with
      | |- Qltb (rng w ?c) q = b => replace c with a by lia; exact H
      end
  end.

(** C12. Polling an offline device [n] times brings it back online if and
    only if one of the [n] reconnect draws falls below 0.3: the device is
    eventually observed online exactly when the 30% branch is taken. *)
Theorem pollStatus_reconnects n m deviceId d :
  map_get deviceId (devices (svc m)) = Some d -> isOnline d = false ->
  (exists d', map_get deviceId (devices (svc (snd (pollStatus n deviceId m)))) = Some d' /\
              isOnline d' = true) <->
  (exists j, (j < n)%nat /\
     Qltb (rng (world m) (cursor (world m) + 2 * j + 1)) (3 # 10) = true).
Proof.
  revert m. induction n as [|n IH]; intros m H Hoff.
  - simpl. rewrite H. split; [intros (d' & [= <-] & ?); congruence | intros (j & ? & _); lia].
  - simpl. unfold st_bind. rewrite (getDeviceStatus_offline m deviceId d H Hoff).
    unfold status_draw. simpl.
    destruct (Qltb (rng (world m) (S (cursor (world m)))) (3 # 10)) eqn:Hr.
    + split; [intros _; exists 0%nat; split; [lia | same_draw Hr]|].
      intros _. eexists. split.
      * apply pollStatus_keeps_online; [simpl; apply map_get_set_eq | reflexivity].
      * reflexivity.
    + rewrite IH by done. split.
      * intros (j & Hj & Hdraw). simpl in Hdraw. exists (S j). split; [lia | same_draw Hdraw].
      * intros ([|j] & Hj & Hdraw).
        { assert (Qltb (rng (world m) (S (cursor (world m)))) (3 # 10) = true)
            by same_draw Hdraw. congruence. }
        exists j. split; [lia|]. simpl. same_draw Hdraw.
Qed.

(** ** The method bodies after their delay *)

Lemma discoverDevices_resume_run m :
  discoverDevices_resume m =
    (DeviceDiscoveryResult.mk
       (map (fun d => with_lastSeen (if isOnline d then DateValue (clock (world m)) else lastSeen d) d)
            (map_values (devices (svc m))))
       (clock (world m)), m).
Proof. by destruct m as [? []]. Qed.

(** Every record of a snapshot is the registry's record of that
    identifier, up to [lastSeen]. *)
Lemma snapshot_agrees m d :
  registry_wf (svc m) ->
  In d (DeviceDiscoveryResult.devices (fst (discoverDevices_resume m))) ->
  exists r, map_get (id d) (devices (svc m)) = Some r /\
            isOn r = isOn d /\ isOnline r = isOnline d.
Proof.
  intros [Hnd Hids]. rewrite discoverDevices_resume_run. simpl.
  intros (r & <- & Hin)%in_map_iff. exists r. simpl. split; [|done].
  apply in_map_iff in Hin as ([k r'] & <- & Hin). simpl.
  rewrite Forall_forall in Hids. pose proof (Hids _ (proj2 (list_elem_of_In _ _) Hin)) as Hk.
  simpl in Hk. rewrite Hk. by apply map_get_NoDup_In.
Qed.

Lemma controlDevice_resume_online request m d :
  let deviceId := DeviceControlRequest.deviceId request in
  let w := world m in
  let w1 := mkWorld (clock w) (rng w) (S (cursor w)) in
  map_get deviceId (devices (svc m)) = Some d -> isOnline d = true ->
  controlDevice_resume request m =
    if Qltb (rng w (cursor w)) (5 # 100) then
      (DeviceControlResponse.mk false deviceId (isOn d) (Some "Communication timeout"%string),
       mkMachine (svc m) w1)
    else
      let newState := is_turn_on (DeviceControlRequest.action request) in
      (DeviceControlResponse.mk true deviceId newState None,
       mkMachine (mkService (map_set deviceId (with_lastSeen (DateValue (clock w)) (with_isOn newState d))
                                     (devices (svc m)))) w1).
Proof.
  intros deviceId w w1 H Hon. run_api. subst deviceId. rewrite H; rewrite ?Hon. simpl.
  by destruct (Qltb _ _).
Qed.

(** ** Concrete runs

    The registry as constructed at time [1700000000000], over a random
    stream whose first draws are 0.5, 0.01, 0.75, 0.75, ... *)

Definition demo_rng (n : nat) : Q :=
  match n with 0%nat => 1 # 2 | 1%nat => 1 # 100 | _ => 3 # 4 end.

Definition demo_machine (c : nat) : Machine :=
  mkMachine (new_TuyaAPIService (mockDevices 1700000000000))
            (mkWorld 1700000000000 demo_rng c).

Lemma demo_rng_ok c : rng_ok (mkWorld 1700000000000 demo_rng c).
Proof.
  intros [|[|n]]; simpl; split; unfold Qle, Qlt; simpl; lia.
Qed.

Lemma demo_machine_ok c : machine_ok (demo_machine c).
Proof.
  split; [|apply demo_rng_ok].
  split; [apply (bool_decide_unpack _); vm_compute; reflexivity | repeat constructor].
Qed.

Lemma controlDevice_not_found_witness :
  let request := DeviceControlRequest.mk "device_999" turn_on in
  map_get "device_999" (devices (svc (demo_machine 0))) = None /\
  controlDevice request (demo_machine 0) =
    (DeviceControlResponse.mk false "device_999" false (Some "Device not found"%string),
     mkMachine (svc (demo_machine 0)) (delay_world 200 800 (world (demo_machine 0)))).
Proof. split; [reflexivity | apply controlDevice_not_found; reflexivity]. Defined.

(** The scenario of the specification: [device_003] is seeded offline, and
    turning it on fails with [newState = false] and no mutation. *)
Lemma controlDevice_offline_witness :
  let request := DeviceControlRequest.mk "device_003" turn_on in
  exists d, map_get "device_003" (devices (svc (demo_machine 0))) = Some d /\
  isOnline d = false /\ isOn d = false /\
  controlDevice request (demo_machine 0) =
    (DeviceControlResponse.mk false "device_003" (isOn d) (Some "Device is offline"%string),
     mkMachine (svc (demo_machine 0)) (delay_world 200 800 (world (demo_machine 0)))).
Proof.
  eexists. split; [reflexivity|]. split; [reflexivity|]. split; [reflexivity|].
  eapply controlDevice_offline; reflexivity.
Defined.

Lemma controlDevice_timeout_witness :
  let request := DeviceControlRequest.mk "device_002" turn_off in
  exists d, map_get "device_002" (devices (svc (demo_machine 0))) = Some d /\
  isOnline d = true /\ Qltb (control_draw (world (demo_machine 0))) (5 # 100) = true /\
  controlDevice request (demo_machine 0) =
    (DeviceControlResponse.mk false "device_002" (isOn d) (Some "Communication timeout"%string),
     mkMachine (svc (demo_machine 0)) (control_world (world (demo_machine 0)))).
Proof.
  eexists. split; [reflexivity|]. split; [reflexivity|]. split; [reflexivity|].
  eapply controlDevice_timeout; reflexivity.
Defined.

(** The other scenario of the specification: [device_002] is online and
    on; with the failure draw not triggering, turning it off succeeds. *)
Lemma controlDevice_success_witness :
  let request := DeviceControlRequest.mk "device_002" turn_off in
  let w' := control_world (world (demo_machine 2)) in
  exists d, map_get "device_002" (devices (svc (demo_machine 2))) = Some d /\
  isOnline d = true /\ isOn d = true /\
  Qltb (control_draw (world (demo_machine 2))) (5 # 100) = false /\
  controlDevice request (demo_machine 2) =
    (DeviceControlResponse.mk true "device_002" false None,
     mkMachine (mkService (map_set "device_002" (with_lastSeen (DateValue (clock w')) (with_isOn false d))
                                   (devices (svc (demo_machine 2))))) w').
Proof.
  eexists. split; [reflexivity|]. split; [reflexivity|]. split; [reflexivity|].
  split; [reflexivity|]. eapply controlDevice_success; reflexivity.
Defined.

Lemma run_call_ok_witness :
  let c := CallControl (DeviceControlRequest.mk "device_001" turn_on) in
  machine_ok (demo_machine 2) /\
  machine_ok (run_call c (demo_machine 2)) /\
  map_keys (devices (svc (run_call c (demo_machine 2)))) = map_keys (devices (svc (demo_machine 2))).
Proof. split; [apply demo_machine_ok | apply run_call_ok, demo_machine_ok]. Defined.

Lemma discoverDevices_snapshot_witness :
  let m := demo_machine 0 in
  let w := delay_world 1500 3000 (world m) in
  registry_wf (svc m) /\
  let '(result, m') := discoverDevices m in
  m' = mkMachine (svc m) w /\
  DeviceDiscoveryResult.timestamp result = clock w /\
  map id (DeviceDiscoveryResult.devices result) = map_keys (devices (svc m)) /\
  (forall k d, map_get k (devices (svc m)) = Some d ->
     In (with_lastSeen (if isOnline d then DateValue (clock w) else lastSeen d) d)
        (DeviceDiscoveryResult.devices result)).
Proof. split; [apply demo_machine_ok | apply discoverDevices_snapshot, demo_machine_ok]. Defined.

(** [device_003] comes back on the first poll: its reconnect draw is 0.01. *)
Lemma pollStatus_reconnects_witness :
  exists d, map_get "device_003" (devices (svc (demo_machine 0))) = Some d /\
  isOnline d = false /\
  ((exists d', map_get "device_003" (devices (svc (snd (pollStatus 1 "device_003" (demo_machine 0))))) = Some d' /\
               isOnline d' = true) <->
   (exists j, (j < 1)%nat /\
      Qltb (rng (world (demo_machine 0)) (cursor (world (demo_machine 0)) + 2 * j + 1)) (3 # 10) = true)).
Proof.
  eexists. split; [reflexivity|]. split; [reflexivity|].
  eapply pollStatus_reconnects; reflexivity.
Defined.


(** ** The test hooks and an unknown status query *)

(** C27. Each simulation hook acts on one record and on one flag:
    [simulateDeviceOffline] sets a registered device's [isOnline] to
    false and keeps every other field, [simulateDeviceOnline] sets it to
    true and [lastSeen] to the current time and keeps the others; neither
    changes another record, draws a random number or lets time pass, and
    both do nothing on an unknown identifier. *)
Theorem simulate_hooks deviceId m :
  let off := snd (simulateDeviceOffline deviceId m) in
  let on := snd (simulateDeviceOnline deviceId m) in
  world off = world m /\ world on = world m /\
  (forall k, k <> deviceId ->
     map_get k (devices (svc off)) = map_get k (devices (svc m)) /\
     map_get k (devices (svc on)) = map_get k (devices (svc m))) /\
  map_get deviceId (devices (svc off)) =
    option_map (with_isOnline false) (map_get deviceId (devices (svc m))) /\
  map_get deviceId (devices (svc on)) =
    option_map (fun d => with_lastSeen (DateValue (clock (world m))) (with_isOnline true d))
               (map_get deviceId (devices (svc m))).
Proof.
  unfold simulateDeviceOffline, simulateDeviceOnline. run_api.
  destruct (map_get deviceId (devices (svc m))) as [d|] eqn:E; simpl; [|by rewrite E].
  split; [done|]. split; [done|]. split.
  - intros k Hk. rewrite !map_get_set_ne by congruence. done.
  - by rewrite !map_get_set_eq.
Qed.

(** C28. Querying the status of an unknown identifier is not an error
    but an absent result: after its delay [getDeviceStatus] resolves to
    [null], changes no record and draws no reconnect outcome. *)
Theorem getDeviceStatus_unknown deviceId m :
  map_get deviceId (devices (svc m)) = None ->
  getDeviceStatus deviceId m = (None, mkMachine (svc m) (delay_world 500 1200 (world m))).
Proof. intros H. unfold getDeviceStatus. run_api. by rewrite H. Qed.

Lemma getDeviceStatus_unknown_witness :
  map_get "device_999" (devices (svc (demo_machine 0))) = None /\
  getDeviceStatus "device_999" (demo_machine 0) =
    (None, mkMachine (svc (demo_machine 0)) (delay_world 500 1200 (world (demo_machine 0)))).
Proof. split; [reflexivity | apply getDeviceStatus_unknown; reflexivity]. Defined.
