(* ===== verification/Transport.v ===== *)
(** * The transport contract and its refinement by the registry

    The specification describes the registry as an owned table behind an
    interface ([discover], [control], [getStatus] and the two simulation
    hooks), which a real transport could implement later. This file
    states that contract over an unordered table, stdpp's [gmap] from
    identifiers to records, with the random outcomes as explicit oracle
    arguments. It proves that [TuyaAPIService]'s methods implement it:
    abstracting the ordered [Map] by [to_gmap] commutes with every
    method, the oracle being the draw the method makes. Discovery is
    refined up to the order of the table. *)

From S2P Require Import Prelude Runtime JsMap Types TuyaApi.
From stdpp Require Import gmap.
Local Open Scope Z_scope.

Abbreviation Table := (gmap string TuyaDevice).

(** ** The contract *)

(** [control]: [timedout] is the 5% failure outcome, [now] the time the
    request is handled. *)
Definition control_spec (reg : Table) (request : DeviceControlRequest.t)
    (timedout : bool) (now : Z) : DeviceControlResponse.t * Table :=
  let k := DeviceControlRequest.deviceId request in
  match reg !! k with
  | None => (DeviceControlResponse.mk false k false (Some "Device not found"%string), reg)
  | Some d =>
      if negb (isOnline d) then
        (DeviceControlResponse.mk false k (isOn d) (Some "Device is offline"%string), reg)
      else if timedout then
        (DeviceControlResponse.mk false k (isOn d) (Some "Communication timeout"%string), reg)
      else
        let newState := is_turn_on (DeviceControlRequest.action request) in
        (DeviceControlResponse.mk true k newState None,
         <[k := with_lastSeen (DateValue now) (with_isOn newState d)]> reg)
  end.

(** [getStatus]: [reconnect] is the 30% outcome for an offline device. *)
Definition status_spec (reg : Table) (k : string) (reconnect : bool) (now : Z)
    : option TuyaDevice * Table :=
  match reg !! k with
  | None => (None, reg)
  | Some d =>
      if negb (isOnline d) && reconnect then
        let d' := with_lastSeen (DateValue now) (with_isOnline true d) in (Some d', <[k := d']> reg)
      else (Some d, reg)
  end.

(** [forceOffline] and [forceOnline]. *)
Definition offline_spec (reg : Table) (k : string) : Table :=
  match reg !! k with Some d => <[k := with_isOnline false d]> reg | None => reg end.

Definition online_spec (reg : Table) (k : string) (now : Z) : Table :=
  match reg !! k with
  | Some d => <[k := with_lastSeen (DateValue now) (with_isOnline true d)]> reg
  | None => reg
  end.

(** [discover]: every record, [lastSeen] refreshed for the online ones. *)
Definition refresh (now : Z) (d : TuyaDevice) : TuyaDevice :=
  with_lastSeen (if isOnline d then DateValue now else lastSeen d) d.

Definition discover_spec (reg : Table) (now : Z) : list TuyaDevice :=
  map (refresh now) (map snd (map_to_list reg)).

(** ** Refinement *)

(** The table a machine's registry abstracts to. *)
Definition table (m : Machine) : Table := to_gmap (devices (svc m)).

(** C15. [controlDevice] implements the contract: after its delay, the
    response and the abstracted registry are those [control_spec] gives
    on the abstracted registry, with the timeout outcome decided by the
    draw ([Math.random() < 0.05]) and the time the body runs. *)
Theorem controlDevice_refines request m :
  let w := world m in
  let '(response, m') := controlDevice_resume request m in
  (response, table m') =
    control_spec (table m) request (Qltb (rng w (cursor w)) (5 # 100)) (clock w).
Proof.
  unfold table, control_spec. rewrite to_gmap_lookup. run_api.
  destruct (map_get _ _) as [d|]; [|done]. simpl.
  destruct (isOnline d); [|done]. simpl.
  destruct (Qltb _ _); [done|]. simpl. by rewrite to_gmap_set.
Qed.

Lemma getDeviceStatus_refines deviceId m :
  let w := world m in
  let '(result, m') := getDeviceStatus_resume deviceId m in
  (result, table m') = status_spec (table m) deviceId (Qltb (rng w (cursor w)) (3 # 10)) (clock w).
Proof.
  unfold table, status_spec. rewrite to_gmap_lookup. run_api.
  destruct (map_get _ _) as [d|]; [|done]. simpl.
  destruct (isOnline d); simpl; [done|].
  destruct (Qltb _ _); simpl; [by rewrite to_gmap_set | done].
Qed.

Lemma simulateDeviceOffline_refines deviceId m :
  table (snd (simulateDeviceOffline deviceId m)) = offline_spec (table m) deviceId.
Proof.
  unfold table, offline_spec, simulateDeviceOffline. rewrite to_gmap_lookup. run_api.
  destruct (map_get _ _); simpl; [by rewrite to_gmap_set | done].
Qed.

Lemma simulateDeviceOnline_refines deviceId m :
  table (snd (simulateDeviceOnline deviceId m)) = online_spec (table m) deviceId (clock (world m)).
Proof.
  unfold table, online_spec, simulateDeviceOnline. rewrite to_gmap_lookup. run_api.
  destruct (map_get _ _); simpl; [by rewrite to_gmap_set | done].
Qed.

Lemma discoverDevices_refines m :
  registry_wf (svc m) ->
  let '(result, m') := discoverDevices_resume m in
  table m' = table m /\
  DeviceDiscoveryResult.devices result ≡ₚ discover_spec (table m) (clock (world m)).
Proof.
  intros [Hnd _]. rewrite discoverDevices_resume_run. split; [done|].
  unfold discover_spec, table, to_gmap, map_values. simpl.
  apply Permutation_map, Permutation_map. symmetry. apply map_to_list_to_map.
  unfold map_keys in Hnd. by rewrite list_fmap_is_map.
Qed.

(** ** Registries with the same entries

    The contract sees a registry only through [table]: two machines whose
    maps answer every [get] alike (they may list their entries in another
    order) and whose worlds agree have the same table, and [controlDevice]
    gives them the same response and keeps them alike. *)

Definition machine_equiv (m1 m2 : Machine) : Prop :=
  jsmap_equiv (devices (svc m1)) (devices (svc m2)) /\ world m1 = world m2.

#[export] Instance machine_equiv_Equivalence : Equivalence machine_equiv.
Proof.
  split.
  - intros m. split; reflexivity.
  - intros m1 m2 [Hm Hw]. split; by symmetry.
  - intros m1 m2 m3 [Hm Hw] [Hm' Hw']. split; etrans; eauto.
Qed.

#[export] Instance table_proper : Proper (machine_equiv ==> eq) table.
Proof. intros m1 m2 [Hm _]. unfold table. by rewrite Hm. Qed.

Lemma controlDevice_resume_equiv request m1 m2 :
  machine_equiv m1 m2 ->
  fst (controlDevice_resume request m1) = fst (controlDevice_resume request m2) /\
  machine_equiv (snd (controlDevice_resume request m1)) (snd (controlDevice_resume request m2)).
Proof.
  destruct m1 as [s1 w], m2 as [s2 w2]. intros [Hm Hw]. simpl in *. subst w2.
  unfold controlDevice_resume. run_api.
  rewrite (Hm (DeviceControlRequest.deviceId request)).
  destruct (map_get _ (devices s2)) as [d|]; simpl; [|done].
  destruct (isOnline d); simpl; [|done].
  destruct (Qltb _ _); simpl; [done|]. split; [done|]. split; [cbn; by apply map_set_proper | done].
Qed.

(** ** The interface

    What the controller may assume of a transport: a table it abstracts
    to, a validity condition every operation keeps, and the contract
    above for [discover] (the table unchanged, the result a snapshot up
    to order) and [control]. Theorems about the controller are proved
    against [TransportLaws] ([Client]); [TuyaAPIService] is one instance. *)

(** Every record is stored under its own identifier. *)
Definition table_wf (reg : Table) : Prop := map_Forall (fun k d => id d = k) reg.

(** Every record of a discovery snapshot of a well-formed table is the
    table's record of its identifier, up to [lastSeen]. *)
Lemma discover_spec_in reg now d :
  table_wf reg -> In d (discover_spec reg now) ->
  exists r, reg !! id d = Some r /\ isOn r = isOn d /\ isOnline r = isOnline d.
Proof.
  intros Hwf Hd. unfold discover_spec, refresh in Hd.
  apply in_map_iff in Hd as (r & <- & Hr). apply in_map_iff in Hr as ([k r'] & <- & Hkr).
  apply list_elem_of_In, elem_of_map_to_list in Hkr. simpl.
  rewrite (Hwf k r' Hkr). by exists r'.
Qed.

Class Transport (M : Type) := {
  tr_table : M -> Table;
  tr_valid : M -> Prop;
  tr_discover : M -> DeviceDiscoveryResult.t * M;
  tr_control : DeviceControlRequest.t -> M -> DeviceControlResponse.t * M
}.

Class TransportLaws (M : Type) `{Transport M} := {
  tr_valid_wf m : tr_valid m -> table_wf (tr_table m);
  tr_discover_law m : tr_valid m ->
    tr_valid (snd (tr_discover m)) /\ tr_table (snd (tr_discover m)) = tr_table m /\
    exists now, DeviceDiscoveryResult.devices (fst (tr_discover m)) ≡ₚ discover_spec (tr_table m) now;
  tr_control_law request m : tr_valid m ->
    tr_valid (snd (tr_control request m)) /\
    exists timedout now,
      (fst (tr_control request m), tr_table (snd (tr_control request m))) =
        control_spec (tr_table m) request timedout now
}.

(** ** [TuyaAPIService] implements the interface *)

#[export] Instance mock_transport : Transport Machine := {
  tr_table := table;
  tr_valid m := registry_wf (svc m);
  tr_discover := discoverDevices_resume;
  tr_control := controlDevice_resume
}.

Lemma registry_table_wf m : registry_wf (svc m) -> table_wf (table m).
Proof.
  intros [_ Hids] k d Hk. unfold table in Hk. rewrite to_gmap_lookup in Hk.
  exact (map_get_Forall _ _ _ _ Hids Hk).
Qed.

Lemma controlDevice_resume_wf request m :
  registry_wf (svc m) -> registry_wf (svc (snd (controlDevice_resume request m))).
Proof.
  intros Hwf. unfold controlDevice_resume. api_cases; try done.
  by eapply set_present_wf.
Qed.

#[export] Instance mock_transport_laws : TransportLaws Machine.
Proof.
  split; simpl.
  - apply registry_table_wf.
  - intros m Hwf. pose proof (discoverDevices_refines m Hwf) as Href.
    rewrite discoverDevices_resume_run in *. simpl in *.
    destruct Href as [_ Hperm]. split; [done|]. split; [done|]. eauto.
  - intros request m Hwf. split; [by apply controlDevice_resume_wf|].
    exists (Qltb (rng (world m) (cursor (world m))) (5 # 100)), (clock (world m)).
    unfold table, control_spec. rewrite to_gmap_lookup. run_api.
    destruct (map_get _ _) as [d|]; [|done]. simpl.
    destruct (isOnline d); [|done]. simpl.
    destruct (Qltb _ _); [done|]. simpl. by rewrite to_gmap_set.
Qed.
