(* ===== verification/App.v ===== *)
(** * The synchronisation controller ([src/src/App.tsx], component [App])

    The component's state: the device list and the last-scan time (both
    persisted through [useKV]), the scanning flag and the error surface;
    the toasts it raises are kept as an output log. Its two handlers are
    [async]: each is split at its [await] into the part that runs when
    it is called ([_start]) and the continuation that runs when the
    registry's promise settles ([_finish]), which receives the settled
    value. React applies the functional [setDevices] updaters in order, so
    each phase is a function of the current state. *)

From S2P Require Import Prelude IsoDate Types.
Local Open Scope Z_scope.

Inductive Toast := ToastSuccess (msg : string) | ToastError (msg : string).

Record AppState := mkApp {
  devices : list TuyaDevice;     (** [useKV('tuya-devices', [])] *)
  isScanning : bool;             (** [useState(false)] *)
  lastScan : string;             (** [useKV('last-scan-time', '')] *)
  error : option string;         (** [useState<string | null>(null)] *)
  toasts : list Toast            (** [toast.success] / [toast.error] calls *)
}.

(** An awaited promise either fulfils with a value or rejects; the
    rejection reason is not used by the handlers. *)
Inductive Settled (A : Type) := Fulfilled (a : A) | Rejected.
Arguments Fulfilled {A} a.
Arguments Rejected {A}.

Definition set_devices (l : list TuyaDevice) (s : AppState) : AppState :=
  mkApp l (isScanning s) (lastScan s) (error s) (toasts s).
Definition set_isScanning (b : bool) (s : AppState) : AppState :=
  mkApp (devices s) b (lastScan s) (error s) (toasts s).
Definition set_lastScan (t : string) (s : AppState) : AppState :=
  mkApp (devices s) (isScanning s) t (error s) (toasts s).
Definition set_error (e : option string) (s : AppState) : AppState :=
  mkApp (devices s) (isScanning s) (lastScan s) e (toasts s).
Definition push_toast (t : Toast) (s : AppState) : AppState :=
  mkApp (devices s) (isScanning s) (lastScan s) (error s) (toasts s ++ [t]).

(** ** [scanForDevices] *)

Definition scan_error_message : string :=
  "Failed to discover devices. Check network connection.".

Definition scanForDevices_start (s : AppState) : AppState :=
  set_error None (set_isScanning true s).

Definition found_message (n : nat) : string :=
  "Found " ++ string_of_nat n ++ " device" ++ (if Nat.eqb n 1 then "" else "s").

Definition scanForDevices_finish (o : Settled DeviceDiscoveryResult.t) (s : AppState) : AppState :=
  let s := match o with
    | Fulfilled result =>
        let s := set_devices (DeviceDiscoveryResult.devices result) s in
        let s := set_lastScan (toISOString (DeviceDiscoveryResult.timestamp result)) s in
        push_toast (ToastSuccess (found_message (length (DeviceDiscoveryResult.devices result)))) s
    | Rejected =>
        push_toast (ToastError scan_error_message) (set_error (Some scan_error_message) s)
    end in
  set_isScanning false s.

(** ** [handleDeviceToggle] *)

(** [currentDevices.map(device => device.id === deviceId ? f(device) : device)] *)
Definition update_device (deviceId : string) (f : TuyaDevice -> TuyaDevice)
    (currentDevices : list TuyaDevice) : list TuyaDevice :=
  map (fun device => if String.eqb (id device) deviceId then f device else device) currentDevices.

Definition toggle_action (turnOn : bool) : Action := if turnOn then turn_on else turn_off.

(** The optimistic update, and the request the handler then sends. *)
Definition handleDeviceToggle_start (deviceId : string) (turnOn : bool) (s : AppState)
    : AppState * DeviceControlRequest.t :=
  (set_devices (update_device deviceId (with_isOn turnOn) (devices s)) s,
   DeviceControlRequest.mk deviceId (toggle_action turnOn)).

(** [response.error || 'Failed to control device']: an absent or empty
    message falls back to the generic one. *)
Definition failure_message (e : option string) : string :=
  match e with
  | Some msg => if String.eqb msg "" then "Failed to control device" else msg
  | None => "Failed to control device"
  end.

(** The continuation; [now] is the time [new Date()] reads when it runs. *)
Definition handleDeviceToggle_finish (deviceId : string) (turnOn : bool) (now : Z)
    (o : Settled DeviceControlResponse.t) (s : AppState) : AppState :=
  match o with
  | Fulfilled response =>
      if negb (DeviceControlResponse.success response) then
        push_toast (ToastError (failure_message (DeviceControlResponse.error response)))
          (set_devices (update_device deviceId (with_isOn (negb turnOn)) (devices s)) s)
      else
        push_toast (ToastSuccess (if turnOn then "Turned on device" else "Turned off device"))
          (set_devices (update_device deviceId
             (fun device => with_lastSeen (DateValue now) (with_isOn (DeviceControlResponse.newState response) device))
             (devices s)) s)
  | Rejected =>
      push_toast (ToastError "Network error. Please try again.")
        (set_devices (update_device deviceId (with_isOn (negb turnOn)) (devices s)) s)
  end.

(** ** Mounting and the summary counts *)

(** [useEffect(() => { if (devices.length === 0) scanForDevices(); }, [])]:
    whether the mount starts a scan. *)
Definition mount_scans (s : AppState) : bool := Nat.eqb (length (devices s)) 0.

Definition onlineDevices (s : AppState) : list TuyaDevice := List.filter isOnline (devices s).
Definition offlineDevices (s : AppState) : list TuyaDevice :=
  List.filter (fun device => negb (isOnline device)) (devices s).
Definition activeDevices (s : AppState) : list TuyaDevice :=
  List.filter (fun device => isOn device && isOnline device) (devices s).

(** ** The last-scan label *)

(** What [date.toLocaleTimeString()] renders: the time of a valid date
    (its text depends on the locale and time zone, so the model keeps the
    time value it formats), or "Invalid Date". *)
Inductive LastScanLabel := Never | LocaleTime (t : Z) | InvalidDate.

(** [formatLastScan]: "Never" for the empty string, otherwise
    [new Date(isoString)] rendered as a time. *)
Definition formatLastScan (isoString : string) : LastScanLabel :=
  if String.eqb isoString "" then Never
  else match parse_iso isoString with Some t => LocaleTime t | None => InvalidDate end.

(** ** The selective update *)

Section UpdateDevice.
Context (deviceId : string) (f : TuyaDevice -> TuyaDevice).
Hypothesis f_id : forall d, id (f d) = id d.

Lemma update_device_ids l : map id (update_device deviceId f l) = map id l.
Proof.
  unfold update_device. rewrite map_map. apply map_ext. intros d.
  by destruct (String.eqb _ _); [rewrite f_id|].
Qed.

Lemma update_device_in l d' :
  In d' (update_device deviceId f l) -> id d' = deviceId ->
  exists d, In d l /\ id d = deviceId /\ d' = f d.
Proof.
  unfold update_device. intros (d & Heq & Hin)%in_map_iff Hid.
  destruct (String.eqb_spec (id d) deviceId) as [Hk|Hk]; subst d'; [by eauto|].
  congruence.
Qed.

(** The records of the other devices are the same, in the same order. *)
Lemma update_device_others l :
  List.filter (fun d => negb (String.eqb (id d) deviceId)) (update_device deviceId f l) =
  List.filter (fun d => negb (String.eqb (id d) deviceId)) l.
Proof.
  induction l as [|d l IH]; [done|]. unfold update_device in *. simpl.
  destruct (String.eqb_spec (id d) deviceId) as [Hk|Hk]; simpl.
  - rewrite f_id, Hk, String.eqb_refl. exact IH.
  - apply String.eqb_neq in Hk. rewrite Hk. simpl. by rewrite IH.
Qed.
End UpdateDevice.

Lemma update_device_compose k f g l :
  (forall d, id (f d) = id d) ->
  update_device k g (update_device k f l) = update_device k (fun d => g (f d)) l.
Proof.
  intros Hf. unfold update_device. apply map_where_compose.
  intros d Hd. by rewrite Hf.
Qed.

Lemma update_device_noop k f l :
  Forall (fun d => id d = k -> f d = d) l -> update_device k f l = l.
Proof.
  induction 1 as [|d l Hd _ IH]; [done|]. unfold update_device in *. simpl.
  rewrite IH. destruct (String.eqb_spec (id d) k); [by rewrite Hd|done].
Qed.

#[export] Hint Resolve with_isOn_id with_lastSeen_id : tuya.

(** The continuation of a toggle keeps the identifiers of the list. *)
Lemma handleDeviceToggle_finish_ids k t now o s :
  map id (devices (handleDeviceToggle_finish k t now o s)) = map id (devices s).
Proof.
  destruct o as [r|]; simpl; [destruct (negb (DeviceControlResponse.success r))|]; simpl;
    first [by apply update_device_ids | done].
Qed.

(** ** Toggle: the outcome on the targeted device *)

(** The power flag a settled control request leaves on the device. *)
Definition settled_power (turnOn : bool) (o : Settled DeviceControlResponse.t) : bool :=
  match o with
  | Fulfilled response =>
      if DeviceControlResponse.success response then DeviceControlResponse.newState response
      else negb turnOn
  | Rejected => negb turnOn
  end.

(** C2. After the continuation of a toggle, every local record of the
    targeted device shows the registry-reported [newState] when the
    request succeeded (with [lastSeen] set to the time it resumed), and
    [!turnOn] when it failed or the request was rejected. *)
Theorem handleDeviceToggle_finish_target deviceId turnOn now o s d :
  In d (devices (handleDeviceToggle_finish deviceId turnOn now o s)) -> id d = deviceId ->
  isOn d = settled_power turnOn o /\
  (forall response, o = Fulfilled response -> DeviceControlResponse.success response = true ->
     lastSeen d = DateValue now).
Proof.
  intros Hin Hid.
  destruct o as [response|]; [destruct (DeviceControlResponse.success response) eqn:Hs|];
    simpl in Hin; rewrite ?Hs in Hin; simpl in Hin;
    (apply update_device_in in Hin as (d0 & _ & _ & ->); [| first [exact Hid | intros; reflexivity] ..]);
    simpl; rewrite ?Hs; (split; [done|]); intros ? [= <-]; congruence.
Qed.

(** C11. A toggle, in both of its phases, leaves the records of every
    other device unchanged and in place, and touches neither the scanning
    flag, the last-scan time nor the error surface. *)
Theorem handleDeviceToggle_frame deviceId turnOn now o s :
  let s1 := fst (handleDeviceToggle_start deviceId turnOn s) in
  let s2 := handleDeviceToggle_finish deviceId turnOn now o s1 in
  let others := List.filter (fun d => negb (String.eqb (id d) deviceId)) in
  others (devices s1) = others (devices s) /\ others (devices s2) = others (devices s) /\
  map id (devices s2) = map id (devices s) /\
  isScanning s2 = isScanning s /\ lastScan s2 = lastScan s /\ error s2 = error s.
Proof.
  cbv zeta.
  destruct o as [response|]; simpl;
    [destruct (DeviceControlResponse.success response)|]; simpl;
    rewrite ?update_device_ids by (intros; reflexivity);
    repeat split; rewrite ?update_device_others by (intros; reflexivity); reflexivity.
Qed.

(** ** Toggle: rollback *)

(** A toggle that fails or is rejected. *)
Definition settled_failed (o : Settled DeviceControlResponse.t) : bool :=
  match o with
  | Fulfilled response => negb (DeviceControlResponse.success response)
  | Rejected => true
  end.

(** C3. Rollback is exact under the card's calling convention: when
    every local record of the device shows [!turnOn] before the toggle
    (the card passes [!device.isOn]), a failed or rejected toggle leaves
    the device list exactly as it was. *)
Theorem handleDeviceToggle_rollback_exact deviceId turnOn now o s :
  Forall (fun d => id d = deviceId -> isOn d = negb turnOn) (devices s) ->
  settled_failed o = true ->
  devices (handleDeviceToggle_finish deviceId turnOn now o
             (fst (handleDeviceToggle_start deviceId turnOn s))) = devices s.
Proof.
  intros Hprior Hfail.
  assert (E : devices (handleDeviceToggle_finish deviceId turnOn now o
                (fst (handleDeviceToggle_start deviceId turnOn s))) =
              update_device deviceId (with_isOn (negb turnOn))
                (devices (fst (handleDeviceToggle_start deviceId turnOn s)))).
  { destruct o as [response|]; simpl in Hfail |- *; [|done].
    by destruct (DeviceControlResponse.success response). }
  rewrite E. simpl.
  rewrite update_device_compose by (intros; reflexivity).
  apply update_device_noop. eapply Forall_impl; [exact Hprior|].
  intros d Hd Hid. rewrite with_isOn_twice, <- (Hd Hid). apply with_isOn_same.
Qed.

(** A one-device page used by the examples below and in [Client]. *)
Definition lamp : TuyaDevice :=
  mkTuyaDevice "device_002" "Kitchen Outlet" outlet true true None None (DateValue 0).

Definition lamp_app : AppState := mkApp [lamp] false "" None [].

(** ** Scan *)

(** C8. A completed scan replaces the local list by the discovered
    devices, records the discovery timestamp as an ISO string and clears
    the error; a rejected scan keeps the list and the last-scan time and
    surfaces the fixed message. Either way the scanning flag is cleared. *)
Theorem scanForDevices_outcome o s :
  let s' := scanForDevices_finish o (scanForDevices_start s) in
  isScanning s' = false /\
  match o with
  | Fulfilled result =>
      devices s' = DeviceDiscoveryResult.devices result /\
      lastScan s' = toISOString (DeviceDiscoveryResult.timestamp result) /\
      error s' = None
  | Rejected =>
      devices s' = devices s /\ lastScan s' = lastScan s /\
      error s' = Some scan_error_message
  end.
Proof. destruct o; simpl; auto. Qed.

Example found_message_plural : found_message 4 = "Found 4 devices".
Proof. reflexivity. Qed.

Example found_message_single : found_message 1 = "Found 1 device".
Proof. reflexivity. Qed.

(** ** Summary counts *)

(** C14. The online and offline counts partition the device list, and
    the active count never exceeds the online count. *)
Theorem summary_counts s :
  (length (onlineDevices s) + length (offlineDevices s) = length (devices s))%nat /\
  (length (activeDevices s) <= length (onlineDevices s))%nat.
Proof.
  unfold onlineDevices, offlineDevices, activeDevices.
  induction (devices s) as [|d l IH]; simpl; [lia|].
  destruct (isOnline d), (isOn d); simpl; lia.
Qed.

(** A property of every record of an updated list, from the records
    before the update. *)
Lemma Forall_update_device (P : TuyaDevice -> Prop) k f l :
  (forall d, In d l -> id d <> k -> P d) ->
  (forall d, In d l -> id d = k -> P (f d)) ->
  Forall P (update_device k f l).
Proof.
  intros Hother Htarget. apply Forall_forall. intros d' Hd'%list_elem_of_In.
  unfold update_device in Hd'. apply in_map_iff in Hd' as (d & <- & Hin).
  destruct (String.eqb_spec (id d) k); auto.
Qed.

(** ** Concrete runs *)

Lemma handleDeviceToggle_finish_target_witness :
  let response := DeviceControlResponse.mk true "device_002" false None in
  let s' := handleDeviceToggle_finish "device_002" false 5 (Fulfilled response) lamp_app in
  exists d, In d (devices s') /\ id d = "device_002" /\
  isOn d = settled_power false (Fulfilled response) /\
  (forall response', Fulfilled response = Fulfilled response' ->
     DeviceControlResponse.success response' = true -> lastSeen d = DateValue 5).
Proof.
  intros response s'. eexists. split; [simpl; left; reflexivity|]. split; [reflexivity|].
  apply (handleDeviceToggle_finish_target "device_002" false 5 (Fulfilled response) lamp_app);
    [simpl; left; reflexivity | reflexivity].
Defined.

(** The card turns the outlet off ([turnOn = !isOn = false]); the request
    is rejected, and the list is restored. *)
Lemma handleDeviceToggle_rollback_exact_witness :
  Forall (fun d => id d = "device_002" -> isOn d = negb false) (devices lamp_app) /\
  settled_failed Rejected = true /\
  devices (handleDeviceToggle_finish "device_002" false 7 Rejected
             (fst (handleDeviceToggle_start "device_002" false lamp_app))) = devices lamp_app.
Proof.
  assert (Hprior : Forall (fun d => id d = "device_002" -> isOn d = negb false) (devices lamp_app))
    by (simpl; constructor; [intros _; reflexivity | constructor]).
  split; [exact Hprior|]. split; [reflexivity|].
  apply handleDeviceToggle_rollback_exact; [exact Hprior | reflexivity].
Defined.

(** C20. The "Last scan" label shows the time of the discovery: after a
    completed scan whose timestamp lies between 1970 and the end of year
    9999, [formatLastScan(lastScan)] renders exactly the timestamp the
    registry returned, which [toISOString] stored as a string. *)
Theorem formatLastScan_after_scan result s :
  0 <= DeviceDiscoveryResult.timestamp result < 253402300800000 ->
  formatLastScan (lastScan (scanForDevices_finish (Fulfilled result) s)) =
  LocaleTime (DeviceDiscoveryResult.timestamp result).
Proof.
  intros Ht. unfold formatLastScan. simpl.
  destruct (String.eqb_spec (toISOString (DeviceDiscoveryResult.timestamp result)) "") as [E|_].
  - by apply toISOString_nonempty in E.
  - by rewrite parse_iso_toISOString.
Qed.

Lemma formatLastScan_after_scan_witness :
  let result := DeviceDiscoveryResult.mk [lamp] 1700000000123 in
  (0 <= DeviceDiscoveryResult.timestamp result < 253402300800000)%Z /\
  formatLastScan (lastScan (scanForDevices_finish (Fulfilled result) lamp_app)) = LocaleTime 1700000000123.
Proof. split; [simpl; lia | apply (formatLastScan_after_scan (DeviceDiscoveryResult.mk [lamp] 1700000000123) lamp_app); simpl; lia]. Defined.
