(* ===== verification/Client.v ===== *)
(** * The controller against any transport

    [App]'s two handlers composed with a transport that meets the
    interface of [Transport]: a scan round ([scanForDevices] with its
    discovery) and a toggle round ([handleDeviceToggle] with its control
    request), each run to completion before the next. Their theorems are
    proved in a section whose only assumption is [TransportLaws], so they
    hold for the mock registry ([mock_transport_laws]) and for any
    transport that meets the same contract, as the specification asks
    (design note on an owned table behind an interface).

    The property is synchronisation: after a scan, and after a toggle
    issued as the card issues it, every listed device shows the power and
    online state the transport's table holds. *)

From S2P Require Import Prelude Runtime JsMap Types TuyaApi Transport App.
From stdpp Require Import gmap.
Local Open Scope Z_scope.

Section Client.
Context {M : Type} `{TransportLaws M}.

(** [await tuyaAPI.discoverDevices()] and the continuation. *)
Definition scan_round (s : AppState) (m : M) : AppState * M :=
  let '(result, m') := tr_discover m in
  (scanForDevices_finish (Fulfilled result) (scanForDevices_start s), m').

(** [await tuyaAPI.controlDevice(request)] between the two phases, the
    continuation running at time [now]. *)
Definition toggle_round (deviceId : string) (turnOn : bool) (now : Z) (s : AppState) (m : M)
    : AppState * M :=
  let '(s1, request) := handleDeviceToggle_start deviceId turnOn s in
  let '(response, m') := tr_control request m in
  (handleDeviceToggle_finish deviceId turnOn now (Fulfilled response) s1, m').

(** Every listed device is in the table with the same flags. *)
Definition synced (l : list TuyaDevice) (reg : Table) : Prop :=
  Forall (fun d => exists r, reg !! id d = Some r /\ isOn r = isOn d /\ isOnline r = isOnline d) l.

Lemma synced_update l reg reg' k f :
  synced l reg -> (forall d, id (f d) = id d) ->
  (forall j, j <> k -> reg' !! j = reg !! j) ->
  (forall d, In d l -> id d = k ->
     exists r, reg' !! k = Some r /\ isOn r = isOn (f d) /\ isOnline r = isOnline (f d)) ->
  synced (update_device k f l) reg'.
Proof.
  intros Hs Hf Hother Htarget. unfold synced in Hs. rewrite Forall_forall in Hs.
  apply Forall_update_device.
  - intros d Hd Hk. rewrite Hother by done. exact (Hs d (proj2 (list_elem_of_In _ _) Hd)).
  - intros d Hd Hk. rewrite Hf, Hk. by apply Htarget.
Qed.

Lemma toggle_action_turn_on turnOn : is_turn_on (toggle_action turnOn) = turnOn.
Proof. by destruct turnOn. Qed.

(** A failed round leaves the table alone and rolls the list back. *)
Lemma failed_round_synced deviceId turnOn now s reg response :
  synced (devices s) reg -> DeviceControlResponse.success response = false ->
  (forall r, reg !! deviceId = Some r -> isOn r = negb turnOn) ->
  synced (devices (handleDeviceToggle_finish deviceId turnOn now (Fulfilled response)
                     (fst (handleDeviceToggle_start deviceId turnOn s)))) reg.
Proof.
  intros Hs Hfail Hconv. simpl. rewrite Hfail. simpl.
  rewrite update_device_compose by done.
  apply (synced_update _ reg); [done | done | done |].
  intros d Hd Hk. unfold synced in Hs. rewrite Forall_forall in Hs.
  destruct (Hs d (proj2 (list_elem_of_In _ _) Hd)) as (r & Hr & Hon & Honline).
  rewrite Hk in Hr. exists r. split; [done|]. simpl. split; [by apply Hconv | done].
Qed.

(** C25. A scan against any lawful transport synchronises the list:
    afterwards every listed device is in the transport's table with the
    same power and online flags, and the transport is still valid. *)
Theorem scan_round_synced s m :
  tr_valid m ->
  let '(s', m') := scan_round s m in tr_valid m' /\ synced (devices s') (tr_table m').
Proof.
  intros Hv. unfold scan_round.
  destruct (tr_discover_law m Hv) as (Hv' & Htab & now & Hperm).
  pose proof (tr_valid_wf m Hv) as Hwf.
  destruct (tr_discover m) as [result m'] eqn:E. simpl in *. split; [done|]. rewrite Htab.
  apply Forall_forall. intros d Hd%list_elem_of_In.
  apply (discover_spec_in _ now d Hwf), (Permutation_in _ Hperm), Hd.
Qed.

(** C26. A toggle issued as the card issues it keeps the list
    synchronised against any lawful transport: if every listed device
    shows the table's flags and [turnOn] is the negation of the device's
    power in the table, then after the round, whichever outcome the
    transport chose (unknown device, offline, timeout or success), every
    listed device still shows the table's flags. *)
Theorem toggle_round_synced deviceId turnOn now s m :
  tr_valid m -> synced (devices s) (tr_table m) ->
  (forall r, tr_table m !! deviceId = Some r -> isOn r = negb turnOn) ->
  let '(s', m') := toggle_round deviceId turnOn now s m in
  tr_valid m' /\ synced (devices s') (tr_table m').
Proof.
  intros Hv Hs Hconv. unfold toggle_round. simpl.
  set (request := DeviceControlRequest.mk deviceId (toggle_action turnOn)).
  destruct (tr_control_law request m Hv) as (Hv' & timedout & t & Hspec).
  destruct (tr_control request m) as [response m'] eqn:E. simpl in Hspec. split; [done|].
  change (devices _) with (devices (handleDeviceToggle_finish deviceId turnOn now (Fulfilled response)
                                      (fst (handleDeviceToggle_start deviceId turnOn s)))).
  unfold control_spec in Hspec. simpl in Hspec.
  destruct (tr_table m !! deviceId) as [r|] eqn:Hr;
    [destruct (isOnline r) eqn:Hon; [destruct timedout|] |]; simpl in Hspec;
    injection Hspec as -> ->;
    try (apply failed_round_synced; [done | done | by rewrite Hr]).
  (* success: the table records the new power under [deviceId] *)
  simpl. rewrite update_device_compose by done.
  apply (synced_update _ (tr_table m)); [done | done | by intros; apply lookup_insert_ne |].
  intros d Hd Hk. rewrite lookup_insert_eq. eexists. split; [done|]. simpl.
  rewrite toggle_action_turn_on. split; [done|].
  unfold synced in Hs. rewrite Forall_forall in Hs.
  destruct (Hs d (proj2 (list_elem_of_In _ _) Hd)) as (r' & Hr' & _ & Honline).
  rewrite Hk, Hr in Hr'. injection Hr' as <-. done.
Qed.

End Client.

(** ** The mock registry as the transport *)

Lemma demo_valid : tr_valid (demo_machine 0).
Proof. apply demo_machine_ok. Qed.

Lemma scan_round_synced_witness :
  tr_valid (demo_machine 0) /\
  let '(s', m') := scan_round lamp_app (demo_machine 0) in
  tr_valid m' /\ synced (devices s') (tr_table m').
Proof. split; [exact demo_valid | exact (scan_round_synced lamp_app (demo_machine 0) demo_valid)]. Defined.

Lemma toggle_round_synced_witness :
  tr_valid (demo_machine 0) /\ synced (devices lamp_app) (tr_table (demo_machine 0)) /\
  (forall r, tr_table (demo_machine 0) !! "device_002" = Some r -> isOn r = negb false) /\
  let '(s', m') := toggle_round "device_002" false 1700000000500 lamp_app (demo_machine 0) in
  tr_valid m' /\ synced (devices s') (tr_table m').
Proof.
  assert (Hs : synced (devices lamp_app) (tr_table (demo_machine 0))).
  { constructor; [|constructor]. eexists. split; [vm_compute; reflexivity | done]. }
  assert (Hc : forall r, tr_table (demo_machine 0) !! "device_002" = Some r -> isOn r = negb false).
  { intros r Hr. vm_compute in Hr. by injection Hr as <-. }
  split; [exact demo_valid|]. split; [exact Hs|]. split; [exact Hc|].
  exact (toggle_round_synced "device_002" false 1700000000500 lamp_app (demo_machine 0) demo_valid Hs Hc).
Defined.
