(* ===== verification/Card.v ===== *)
(** * The device card ([src/src/components/DeviceCard.tsx])

    The card renders one device. It owns the [isToggling] flag and turns a
    click on its switch into a call of the controller's toggle handler.
    This file holds the icon table, [handleToggle] (its guard and the
    call it makes), the switch's [disabled] state, and [formatLastSeen],
    the "last seen" label computed from the clock. [System] uses the
    guard and the call as the card's click step. *)

From S2P Require Import Prelude IsoDate Types.
Local Open Scope Z_scope.

(** ** The icon table *)

Inductive Icon := Lightbulb | Zap | Fan | ToggleLeft | Power.

Definition deviceIcons (t : DeviceType) : Icon :=
  match t with
  | light => Lightbulb
  | outlet => Zap
  | fan => Fan
  | switch => ToggleLeft
  | other => Power
  end.

(** ** The switch *)

(** [if (isToggling || !device.isOnline) return;], then
    [onToggle(device.id, !device.isOn)]: the arguments of the call, if the
    handler makes one. [isToggling] is set before the call and cleared in
    its [finally]. *)
Definition handleToggle (isToggling : bool) (device : TuyaDevice) : option (string * bool) :=
  if isToggling || negb (isOnline device) then None
  else Some (id device, negb (isOn device)).

(** [disabled={!device.isOnline || isToggling || isLoading}]: a disabled
    switch raises no [onCheckedChange]. *)
Definition switch_disabled (isToggling isLoading : bool) (device : TuyaDevice) : bool :=
  negb (isOnline device) || isToggling || isLoading.

(** ** The "last seen" label *)

(** [`${n}`] for the non-negative numbers the label prints. *)
Definition show_count (n : Z) : string := string_of_nat (Z.to_nat n).

(** [now] is [new Date().getTime()] when the card renders; [Math.floor] of
    an integer division is [Z.div], which rounds toward minus infinity. *)
Definition formatLastSeen (now lastSeen : Z) : string :=
  let diffMs := now - lastSeen in
  let diffMins := diffMs / 60000 in
  if diffMins <? 1 then "Just now"
  else if diffMins <? 60 then show_count diffMins ++ "m ago"
  else if diffMins <? 1440 then show_count (diffMins / 60) ++ "h ago"
  else show_count (diffMins / 1440) ++ "d ago".

(** [formatLastSeen(date: Date | string)]: a persisted device comes back
    from [useKV]'s JSON with [lastSeen] as the string [toISOString]
    wrote, which [new Date(date)] parses. An unparsable string is an
    invalid date: every comparison with NaN is false and the label is
    [`${NaN}d ago`]. *)

Definition lastSeen_time (date : DateOrString) : option Z :=
  match date with DateValue t => Some t | DateText s => parse_iso s end.

Definition formatLastSeen_of (now : Z) (date : DateOrString) : string :=
  match lastSeen_time date with
  | Some t => formatLastSeen now t
  | None => "NaNd ago"
  end.

(** ** Properties *)

(** What a call of the handler carries. *)
Lemma handleToggle_some isToggling device deviceId turnOn :
  handleToggle isToggling device = Some (deviceId, turnOn) ->
  isToggling = false /\ isOnline device = true /\ deviceId = id device /\ turnOn = negb (isOn device).
Proof.
  unfold handleToggle. destruct isToggling, (isOnline device); simpl; try discriminate.
  intros [= <- <-]. done.
Qed.

(** C16. A click on an enabled switch always reaches the controller, as
    [onToggle(device.id, !device.isOn)]: the switch's [disabled] state
    covers [handleToggle]'s own guard. *)
Theorem handleToggle_enabled isToggling isLoading device :
  switch_disabled isToggling isLoading device = false ->
  handleToggle isToggling device = Some (id device, negb (isOn device)).
Proof.
  unfold switch_disabled, handleToggle.
  destruct (isOnline device), isToggling, isLoading; simpl; congruence.
Qed.

(** C17. The label falls in exactly one of four buckets, by whole minutes
    [m] since the device was last seen: "Just now" below one minute (a
    future [lastSeen] included), [m] minutes up to 59, [m / 60] hours
    (1 to 23) below a day, and [m / 1440] days (at least 1) beyond. *)
Theorem formatLastSeen_cases now lastSeen :
  let m := (now - lastSeen) / 60000 in
  (m < 1 /\ formatLastSeen now lastSeen = "Just now") \/
  (1 <= m < 60 /\ formatLastSeen now lastSeen = (show_count m ++ "m ago")%string) \/
  (60 <= m < 1440 /\ 1 <= m / 60 <= 23 /\
     formatLastSeen now lastSeen = (show_count (m / 60) ++ "h ago")%string) \/
  (1440 <= m /\ 1 <= m / 1440 /\
     formatLastSeen now lastSeen = (show_count (m / 1440) ++ "d ago")%string).
Proof.
  intros m. unfold formatLastSeen. fold m.
  destruct (Z.ltb_spec m 1); [left; done|right].
  destruct (Z.ltb_spec m 60); [left; split; [lia|done]|right].
  destruct (Z.ltb_spec m 1440).
  - left. split; [lia|]. split; [split|done].
    + apply Z.div_le_lower_bound; lia.
    + apply Z.lt_succ_r, Z.div_lt_upper_bound; lia.
  - right. split; [lia|]. split; [apply Z.div_le_lower_bound; lia | done].
Qed.

Example formatLastSeen_five_minutes : formatLastSeen 1700000300000 1700000000000 = "5m ago".
Proof. reflexivity. Qed.

Example formatLastSeen_future : formatLastSeen 1700000000000 1700000300000 = "Just now".
Proof. reflexivity. Qed.

Example formatLastSeen_days : formatLastSeen 1700000000000 1600000000000 = "1157d ago".
Proof. vm_compute. reflexivity. Qed.

Lemma handleToggle_enabled_witness :
  let d := mkTuyaDevice "device_001" "Living Room Light" light true false None None (DateValue 0) in
  switch_disabled false false d = false /\
  handleToggle false d = Some (id d, negb (isOn d)).
Proof. split; [reflexivity | apply (handleToggle_enabled false false); reflexivity]. Defined.

Example formatLastSeen_garbled : formatLastSeen_of 1700000000000 (DateText "yesterday") = "NaNd ago".
Proof. reflexivity. Qed.
