(* ===== verification/Generic.v ===== *)
(** * The dashboard over any transport

    The interleaving of [System] with the registry replaced by any
    transport that meets [TransportLaws]: the user's clicks (through the
    scan button's and the card's guards), the firing of a pending
    discovery or control in any order, and the transport's own moves that
    leave its table alone (time passing, random draws). A transport may
    also fail: a discovery or a control request may reject, which the
    mock registry never does, so the controller's [catch] branches are
    reachable here. The delays are not modelled: a pending request may
    complete at any point.

    The consistency invariant of the dashboard is proved here, against
    the laws only: every listed device is in the table with its online
    flag, and with its power flag unless a toggle of it is in flight, and
    a device with a toggle in flight is online in the table with the
    power the toggle is to change. [System] obtains its invariant from
    this one through a simulation of the mock registry's steps. The
    scanning flag's invariant [flag_ok] (one discovery pending exactly
    while [isScanning] holds) is kept by each transition of the page,
    which [System] shares, and every settled request raises one toast.
    Fulfilling the pending requests in order ([gsettle]) settles any
    page that satisfies both invariants. *)

From S2P Require Import Prelude Runtime JsMap Types TuyaApi Transport App Card.
From stdpp Require Import gmap.
Local Open Scope Z_scope.

(** ** Pending timers *)

Inductive Task :=
  | TScan (due : Z)
  | TToggle (deviceId : string) (turnOn : bool) (due : Z).

(** The identifiers with a toggle in flight: the cards whose [isToggling]
    is set. *)
Fixpoint toggle_ids (p : list Task) : list string :=
  match p with
  | [] => []
  | TToggle k _ _ :: p => k :: toggle_ids p
  | TScan _ :: p => toggle_ids p
  end.

(** The [isToggling] flag of a device's card. *)
Definition is_toggling (p : list Task) (deviceId : string) : bool :=
  existsb (String.eqb deviceId) (toggle_ids p).

Lemma toggle_ids_app p1 p2 : toggle_ids (p1 ++ p2) = toggle_ids p1 ++ toggle_ids p2.
Proof. induction p1 as [|[] p1 IH]; simpl; congruence. Qed.

Lemma in_toggle_ids k p : In k (toggle_ids p) <-> exists t due, In (TToggle k t due) p.
Proof.
  induction p as [|[due'|k' t' due'] p IH]; simpl; [firstorder|..].
  - rewrite IH. firstorder congruence.
  - rewrite IH. split.
    + intros [->|(t & due & H)]; eauto.
    + intros (t & due & [[= -> _ _]|H]); eauto.
Qed.

Lemma toggle_ids_remove_scan p1 p2 due :
  toggle_ids (p1 ++ TScan due :: p2) = toggle_ids (p1 ++ p2).
Proof. by rewrite !toggle_ids_app. Qed.

Lemma is_toggling_iff p k : is_toggling p k = true <-> In k (toggle_ids p).
Proof.
  unfold is_toggling. rewrite existsb_exists. split.
  - intros (x & Hx & ->%String.eqb_eq). exact Hx.
  - intros Hk. exists k. split; [exact Hk | apply String.eqb_refl].
Qed.

(** What the card's handler gives the click step. *)
Lemma click_guard p d deviceId turnOn :
  handleToggle (is_toggling p (id d)) d = Some (deviceId, turnOn) ->
  isOnline d = true /\ ~ In (id d) (toggle_ids p) /\ deviceId = id d /\ turnOn = negb (isOn d).
Proof.
  intros (Htog & Hon & -> & ->)%handleToggle_some.
  split; [done|]. split; [|done]. intros Hin%is_toggling_iff. congruence.
Qed.

(** ** Agreement of the list with a table *)

Definition gagrees (p : list Task) (reg : Table) (d : TuyaDevice) : Prop :=
  exists r, reg !! id d = Some r /\ isOnline r = isOnline d /\
            (In (id d) (toggle_ids p) \/ isOn r = isOn d).

Definition gin_flight (reg : Table) (p : list Task) : Prop :=
  forall k t due, In (TToggle k t due) p ->
  exists r, reg !! k = Some r /\ isOnline r = true /\ isOn r = negb t.

(** Agreement survives a change that keeps the device's table record and
    does not end a toggle of it. *)
Lemma gagrees_transfer p p' reg reg' d :
  gagrees p reg d -> reg' !! id d = reg !! id d ->
  (In (id d) (toggle_ids p) -> In (id d) (toggle_ids p')) ->
  gagrees p' reg' d.
Proof. intros (r & Hr & Hon & Hpow) Hget Hin. exists r. rewrite Hget. intuition. Qed.

Section FireToggle.
Variables (p1 p2 : list Task) (k : string) (t : bool) (due : Z).
Let p := p1 ++ TToggle k t due :: p2.

Lemma toggle_ids_remove_toggle x :
  In x (toggle_ids p) -> x <> k -> In x (toggle_ids (p1 ++ p2)).
Proof.
  subst p. rewrite !toggle_ids_app. simpl. intros [?|[->|?]]%in_app_or ?;
    apply in_or_app; tauto.
Qed.

Lemma NoDup_remove_toggle :
  NoDup (toggle_ids p) -> NoDup (toggle_ids (p1 ++ p2)) /\ ~ In k (toggle_ids (p1 ++ p2)).
Proof.
  subst p. rewrite !toggle_ids_app. simpl. intros Hnd.
  apply NoDup_app in Hnd as (Hnd1 & Hdisj & Hnd2). inversion Hnd2 as [|? ? Hk Hnd2']; subst.
  split.
  - apply NoDup_app. repeat split; [done| |done]. intros x Hx1 Hx2. apply (Hdisj x Hx1).
    by right.
  - intros [Hin|Hin]%in_app_or.
    + apply (Hdisj k); [by apply list_elem_of_In | by left].
    + apply Hk. by apply list_elem_of_In.
Qed.

Lemma gin_flight_remove reg reg' :
  gin_flight reg p -> ~ In k (toggle_ids (p1 ++ p2)) ->
  (forall k', k' <> k -> reg' !! k' = reg !! k') ->
  gin_flight reg' (p1 ++ p2).
Proof.
  intros Hflight Hk Hother k' t' due' Hin.
  assert (Hne : k' <> k).
  { intros ->. apply Hk, in_toggle_ids. eauto. }
  rewrite Hother by done. apply (Hflight k' t' due'). subst p.
  apply in_app_or in Hin as [Hin|Hin]; apply in_or_app; [by left | right; by right].
Qed.

(** The list after the continuation agrees with the table after the
    control, once the toggle is no longer in flight. *)
Lemma gagrees_after_toggle reg reg' (f : TuyaDevice -> TuyaDevice) l r r' :
  Forall (gagrees p reg) l ->
  reg !! k = Some r -> reg' !! k = Some r' -> isOnline r' = isOnline r ->
  (forall d0, id (f d0) = id d0) -> (forall d0, isOnline (f d0) = isOnline d0) ->
  (forall d0, isOn (f d0) = isOn r') ->
  (forall k', k' <> k -> reg' !! k' = reg !! k') ->
  Forall (gagrees (p1 ++ p2) reg') (update_device k f l).
Proof.
  intros Hagree Hr Hr' Hon Hid Hfon Hfpow Hother.
  rewrite Forall_forall in Hagree.
  apply Forall_update_device.
  - intros d0 Hd0 Hne. eapply gagrees_transfer;
      [apply Hagree, list_elem_of_In, Hd0 | by apply Hother | intros Hin;
       by apply toggle_ids_remove_toggle].
  - intros d0 Hd0 Hk. destruct (Hagree d0 (proj2 (list_elem_of_In _ _) Hd0)) as (r0 & Hr0 & Hon0 & _).
    rewrite Hk, Hr in Hr0. injection Hr0 as <-.
    exists r'. rewrite Hid, Hk, Hfon, Hfpow. split; [done|]. split; [congruence|]. by right.
Qed.
End FireToggle.

(** ** The scanning flag

    [isScanning] is raised exactly while one discovery is in flight:
    [flag_ok] relates the flag to the pending tasks, and each transition
    of the page keeps it, whatever completes the tasks. *)

Definition is_scan (t : Task) : bool := match t with TScan _ => true | TToggle _ _ _ => false end.

(** The number of discoveries in flight. *)
Definition scan_count (p : list Task) : nat := length (List.filter is_scan p).

Definition flag_ok (a : AppState) (p : list Task) : Prop :=
  scan_count p = if isScanning a then 1%nat else 0%nat.

Lemma scan_count_app p1 p2 : scan_count (p1 ++ p2) = (scan_count p1 + scan_count p2)%nat.
Proof. unfold scan_count. induction p1 as [|t p1 IH]; [done|]. simpl. destruct (is_scan t); simpl; lia. Qed.

Lemma scanForDevices_finish_isScanning o s : isScanning (scanForDevices_finish o s) = false.
Proof. by destruct o. Qed.

Lemma handleDeviceToggle_finish_isScanning k t now o s :
  isScanning (handleDeviceToggle_finish k t now o s) = isScanning s.
Proof. destruct o as [r|]; simpl; [by destruct (negb (DeviceControlResponse.success r))|done]. Qed.

Lemma flag_ok_click_scan a p due :
  isScanning a = false -> flag_ok a p -> flag_ok (scanForDevices_start a) (p ++ [TScan due]).
Proof. unfold flag_ok. intros Hidle Hinv. rewrite Hidle in Hinv. by rewrite scan_count_app, Hinv. Qed.

Lemma flag_ok_click_toggle a p k t due :
  flag_ok a p -> flag_ok (fst (handleDeviceToggle_start k t a)) (p ++ [TToggle k t due]).
Proof. unfold flag_ok. intros Hinv. rewrite scan_count_app, Hinv. cbn. lia. Qed.

Lemma flag_ok_finish_scan a p1 p2 due o :
  flag_ok a (p1 ++ TScan due :: p2) -> flag_ok (scanForDevices_finish o a) (p1 ++ p2).
Proof.
  unfold flag_ok. rewrite !scan_count_app, scanForDevices_finish_isScanning.
  change (scan_count (TScan due :: p2)) with (S (scan_count p2)). destruct (isScanning a); lia.
Qed.

Lemma flag_ok_finish_toggle a p1 p2 k t due now o :
  flag_ok a (p1 ++ TToggle k t due :: p2) -> flag_ok (handleDeviceToggle_finish k t now o a) (p1 ++ p2).
Proof. unfold flag_ok. by rewrite !scan_count_app, handleDeviceToggle_finish_isScanning. Qed.

(** Each handler's continuation raises exactly one toast. *)
Lemma scanForDevices_finish_toasts o a :
  exists t, toasts (scanForDevices_finish o a) = toasts a ++ [t].
Proof. destruct o; eexists; reflexivity. Qed.

Lemma handleDeviceToggle_finish_toasts k t now o a :
  exists x, toasts (handleDeviceToggle_finish k t now o a) = toasts a ++ [x].
Proof.
  destruct o as [r|]; simpl; [destruct (negb (DeviceControlResponse.success r))|]; eexists; reflexivity.
Qed.

Lemma length_remove (p1 p2 : list Task) x : length (p1 ++ x :: p2) = S (length (p1 ++ p2)).
Proof. rewrite !length_app. simpl. lia. Qed.

(** While the flag is raised, a discovery is pending. *)
Lemma flag_ok_scan_pending a p :
  flag_ok a p -> isScanning a = true -> exists p1 p2 due, p = p1 ++ TScan due :: p2.
Proof.
  unfold flag_ok, scan_count. intros Hinv Hscan. rewrite Hscan in Hinv.
  destruct (List.filter is_scan p) as [|x l] eqn:Hf; [discriminate|].
  assert (Hx : In x (List.filter is_scan p)) by (rewrite Hf; by left).
  apply filter_In in Hx as [Hx Hsc]. destruct x as [due|]; [|discriminate].
  apply in_split in Hx as (p1 & p2 & Hp). by exists p1, p2, due.
Qed.

(** ** The steps *)

Section GenericSystem.
Context {M : Type} `{TransportLaws M}.

Record GSys := mkGSys { gapp : AppState; gtr : M; gpending : list Task }.

Inductive gstep : GSys -> GSys -> Prop :=
  | gstep_click_scan g due :
      isScanning (gapp g) = false ->
      gstep g (mkGSys (scanForDevices_start (gapp g)) (gtr g) (gpending g ++ [TScan due]))
  | gstep_click_toggle g d deviceId turnOn due :
      In d (App.devices (gapp g)) ->
      switch_disabled (is_toggling (gpending g) (id d)) (isScanning (gapp g)) d = false ->
      handleToggle (is_toggling (gpending g) (id d)) d = Some (deviceId, turnOn) ->
      gstep g (mkGSys (fst (handleDeviceToggle_start deviceId turnOn (gapp g))) (gtr g)
                      (gpending g ++ [TToggle deviceId turnOn due]))
  | gstep_fire_scan g p1 p2 due result m' :
      gpending g = p1 ++ TScan due :: p2 ->
      tr_discover (gtr g) = (result, m') ->
      gstep g (mkGSys (scanForDevices_finish (Fulfilled result) (gapp g)) m' (p1 ++ p2))
  | gstep_fire_toggle g p1 p2 k t due response m' now :
      gpending g = p1 ++ TToggle k t due :: p2 ->
      tr_control (snd (handleDeviceToggle_start k t (gapp g))) (gtr g) = (response, m') ->
      gstep g (mkGSys (handleDeviceToggle_finish k t now (Fulfilled response) (gapp g)) m' (p1 ++ p2))
  (** A transport fault: the discovery's promise rejects; the [catch]
      branch of [scanForDevices] runs. *)
  | gstep_reject_scan g p1 p2 due :
      gpending g = p1 ++ TScan due :: p2 ->
      gstep g (mkGSys (scanForDevices_finish Rejected (gapp g)) (gtr g) (p1 ++ p2))
  (** A transport fault on a control request that was not applied: the
      [catch] branch of [handleDeviceToggle] rolls back. *)
  | gstep_reject_toggle g p1 p2 k t due now :
      gpending g = p1 ++ TToggle k t due :: p2 ->
      gstep g (mkGSys (handleDeviceToggle_finish k t now Rejected (gapp g)) (gtr g) (p1 ++ p2))
  (** The transport moves on its own (time passes, draws are made) without
      changing its table. *)
  | gstep_internal g m' :
      tr_valid m' -> tr_table m' = tr_table (gtr g) ->
      gstep g (mkGSys (gapp g) m' (gpending g)).

Definition ginv (g : GSys) : Prop :=
  tr_valid (gtr g) /\ NoDup (toggle_ids (gpending g)) /\
  Forall (gagrees (gpending g) (tr_table (gtr g))) (App.devices (gapp g)) /\
  gin_flight (tr_table (gtr g)) (gpending g).

(** ** Each step keeps the invariant *)

Lemma ginv_click_scan g due :
  ginv g -> ginv (mkGSys (scanForDevices_start (gapp g)) (gtr g) (gpending g ++ [TScan due])).
Proof.
  intros (Hv & Hnd & Hagree & Hflight).
  assert (Hids : toggle_ids (gpending g ++ [TScan due]) = toggle_ids (gpending g))
    by (rewrite toggle_ids_app; simpl; apply app_nil_r).
  split; [done|]. simpl. rewrite Hids. split; [done|]. split.
  - eapply Forall_impl; [exact Hagree|]. intros d Hd.
    eapply gagrees_transfer; [exact Hd | reflexivity | by rewrite Hids].
  - intros k t d' Hin%in_app_or. destruct Hin as [Hin|[Hin|[]]]; [by eapply Hflight|done].
Qed.

Lemma ginv_click_toggle g d due :
  ginv g -> In d (App.devices (gapp g)) -> isOnline d = true ->
  ~ In (id d) (toggle_ids (gpending g)) ->
  ginv (mkGSys (fst (handleDeviceToggle_start (id d) (negb (isOn d)) (gapp g))) (gtr g)
               (gpending g ++ [TToggle (id d) (negb (isOn d)) due])).
Proof.
  intros (Hv & Hnd & Hagree & Hflight) Hin Hon Hfree.
  set (p' := gpending g ++ [TToggle (id d) (negb (isOn d)) due]).
  assert (Hids : toggle_ids p' = toggle_ids (gpending g) ++ [id d])
    by (unfold p'; rewrite toggle_ids_app; reflexivity).
  assert (Hsub : forall k, In k (toggle_ids (gpending g)) -> In k (toggle_ids p'))
    by (intros k Hk; rewrite Hids; apply in_or_app; by left).
  rewrite Forall_forall in Hagree.
  destruct (Hagree d (proj2 (list_elem_of_In _ _) Hin)) as (r & Hr & Hron & [Hbusy|Hpow]);
    [contradiction|].
  split; [done|]. simpl. split; [|split].
  - rewrite Hids. apply NoDup_app. split; [done|]. split; [|apply NoDup_singleton].
    intros x Hx ->%list_elem_of_singleton. apply Hfree, list_elem_of_In, Hx.
  - apply Forall_update_device.
    + intros d0 Hd0 _. eapply gagrees_transfer; [apply Hagree, list_elem_of_In, Hd0 | done | apply Hsub].
    + intros d0 Hd0 Hk. destruct (Hagree d0 (proj2 (list_elem_of_In _ _) Hd0)) as (r0 & Hr0 & Hon0 & _).
      exists r0. simpl. rewrite Hk in *. split; [done|]. split; [done|]. left.
      rewrite Hids. apply in_or_app. right. by left.
  - intros k t d' [Hk|[[= <- <- _]|[]]]%in_app_or; [by eapply Hflight|].
    exists r. split; [done|]. split; [congruence|]. rewrite Hpow. by destruct (isOn d).
Qed.

Lemma ginv_fire_scan g p1 p2 due result m' :
  ginv g -> gpending g = p1 ++ TScan due :: p2 -> tr_discover (gtr g) = (result, m') ->
  ginv (mkGSys (scanForDevices_finish (Fulfilled result) (gapp g)) m' (p1 ++ p2)).
Proof.
  intros (Hv & Hnd & Hagree & Hflight) Hp Hrun.
  destruct (tr_discover_law (gtr g) Hv) as (Hv' & Htab & now & Hperm).
  pose proof (tr_valid_wf _ Hv) as Hwf. rewrite Hrun in Hv', Htab, Hperm. simpl in *.
  split; [done|]. rewrite Hp, toggle_ids_remove_scan in Hnd. split; [done|]. simpl. rewrite Htab. split.
  - apply Forall_forall. intros d Hd%list_elem_of_In.
    apply (Permutation_in _ Hperm), (discover_spec_in _ now d Hwf) in Hd as (r & Hr & Hpow & Hon).
    exists r. auto.
  - intros k t d' Hin. eapply Hflight. rewrite Hp.
    apply in_app_or in Hin as [Hin|Hin]; apply in_or_app; [by left | right; by right].
Qed.

Lemma ginv_fire_toggle g p1 p2 k t due response m' now :
  ginv g -> gpending g = p1 ++ TToggle k t due :: p2 ->
  tr_control (snd (handleDeviceToggle_start k t (gapp g))) (gtr g) = (response, m') ->
  ginv (mkGSys (handleDeviceToggle_finish k t now (Fulfilled response) (gapp g)) m' (p1 ++ p2)).
Proof.
  intros (Hv & Hnd & Hagree & Hflight) Hp Hrun.
  rewrite Hp in Hnd, Hagree, Hflight.
  destruct (NoDup_remove_toggle _ _ _ _ _ Hnd) as [Hnd' Hk].
  destruct (Hflight k t due) as (r & Hr & Hron & Hrpow); [apply in_or_app; right; by left|].
  destruct (tr_control_law (snd (handleDeviceToggle_start k t (gapp g))) _ Hv)
    as (Hv' & timedout & now' & Hspec).
  rewrite Hrun in Hv', Hspec. simpl in Hspec. unfold control_spec in Hspec. simpl in Hspec.
  rewrite Hr, Hron in Hspec. simpl in Hspec.
  destruct timedout; injection Hspec as -> Htab; unfold ginv; simpl; rewrite Htab;
    (split; [done|]); (split; [done|]); split.
  - (* timeout: the table is unchanged, the list reverts *)
    eapply gagrees_after_toggle; eauto; intros d0; simpl; by rewrite Hrpow.
  - by eapply gin_flight_remove.
  - (* success: both sides take the requested state *)
    eapply gagrees_after_toggle; [exact Hagree | exact Hr | apply lookup_insert_eq | reflexivity
      | reflexivity | reflexivity | | intros; by apply lookup_insert_ne].
    intros d0. simpl. by destruct t.
  - eapply gin_flight_remove; [exact Hflight | exact Hk |]. intros; by apply lookup_insert_ne.
Qed.

Lemma ginv_reject_scan g p1 p2 due :
  ginv g -> gpending g = p1 ++ TScan due :: p2 ->
  ginv (mkGSys (scanForDevices_finish Rejected (gapp g)) (gtr g) (p1 ++ p2)).
Proof.
  intros (Hv & Hnd & Hagree & Hflight) Hp.
  rewrite Hp, toggle_ids_remove_scan in Hnd. rewrite Hp in Hagree.
  split; [done|]. split; [done|]. simpl. split.
  - eapply Forall_impl; [exact Hagree|]. intros d Hd.
    eapply gagrees_transfer; [exact Hd | reflexivity | by rewrite toggle_ids_remove_scan].
  - intros k t d' Hin. eapply Hflight. rewrite Hp.
    apply in_app_or in Hin as [Hin|Hin]; apply in_or_app; [by left | right; by right].
Qed.

Lemma ginv_reject_toggle g p1 p2 k t due now :
  ginv g -> gpending g = p1 ++ TToggle k t due :: p2 ->
  ginv (mkGSys (handleDeviceToggle_finish k t now Rejected (gapp g)) (gtr g) (p1 ++ p2)).
Proof.
  intros (Hv & Hnd & Hagree & Hflight) Hp.
  rewrite Hp in Hnd, Hagree, Hflight.
  destruct (NoDup_remove_toggle _ _ _ _ _ Hnd) as [Hnd' Hk].
  destruct (Hflight k t due) as (r & Hr & Hron & Hrpow); [apply in_or_app; right; by left|].
  split; [done|]. split; [done|]. simpl. split.
  - eapply gagrees_after_toggle; eauto; intros d0; simpl; by rewrite Hrpow.
  - by eapply gin_flight_remove.
Qed.

Lemma gstep_inv g g' : ginv g -> gstep g g' -> ginv g'.
Proof.
  intros Hinv Hstep.
  destruct Hstep as [g due Hidle | g d k t due Hin Hdis Hcall
                    | g p1 p2 due result m' Hp Hrun | g p1 p2 k t due response m' now Hp Hrun
                    | g p1 p2 due Hp | g p1 p2 k t due now Hp
                    | g m' Hv' Htab].
  - by apply ginv_click_scan.
  - destruct (click_guard _ _ _ _ Hcall) as (Hon & Hfree & -> & ->).
    by apply ginv_click_toggle.
  - by eapply ginv_fire_scan.
  - by eapply ginv_fire_toggle.
  - by eapply ginv_reject_scan.
  - by eapply ginv_reject_toggle.
  - destruct Hinv as (_ & Hnd & Hagree & Hflight). split; [done|]. simpl. by rewrite Htab.
Qed.

(** A page with an empty list and nothing pending, over a valid transport. *)
Lemma ginv_init m app0 :
  tr_valid m -> App.devices app0 = [] -> ginv (mkGSys app0 m []).
Proof.
  intros Hv Hnil. split; [done|]. simpl. rewrite Hnil.
  split; [constructor|]. split; [constructor|]. intros ? ? ? [].
Qed.

(** Under the invariant, a listed device with no toggle in flight shows
    the table's flags. *)
Lemma ginv_settled g :
  ginv g ->
  forall d, In d (App.devices (gapp g)) -> ~ In (id d) (toggle_ids (gpending g)) ->
  exists r, tr_table (gtr g) !! id d = Some r /\ isOn r = isOn d /\ isOnline r = isOnline d.
Proof.
  intros (_ & _ & Hagree & _) d Hin Hfree.
  rewrite Forall_forall in Hagree.
  destruct (Hagree d (proj2 (list_elem_of_In _ _) Hin)) as (r & Hr & Hon & [Hbusy|Hpow]);
    [contradiction|].
  eauto.
Qed.

(** C29. Consistency holds for any transport that meets the interface:
    in every state the dashboard reaches from one satisfying the
    invariant (a page with an empty list over a valid transport, say),
    through clicks, completions in any order, transport faults on
    requests that were not applied (the controller's [catch] branches)
    and the transport's own moves, each listed device with no toggle in
    flight shows exactly the power and online flags of the transport's
    table. *)
Theorem gview_consistent g g' :
  ginv g -> star gstep g g' ->
  forall d, In d (App.devices (gapp g')) -> ~ In (id d) (toggle_ids (gpending g')) ->
  exists r, tr_table (gtr g') !! id d = Some r /\ isOn r = isOn d /\ isOnline r = isOnline d.
Proof.
  intros Hinv Hstar. apply ginv_settled.
  exact (star_invariant gstep ginv gstep_inv g g' Hstar Hinv).
Qed.

(** ** The scanning flag under faults *)

Lemma gstep_flag g g' : flag_ok (gapp g) (gpending g) -> gstep g g' -> flag_ok (gapp g') (gpending g').
Proof.
  intros Hinv Hstep.
  destruct Hstep as [g due Hidle | g d k t due Hin Hdis Hcall
                    | g p1 p2 due result m' Hp Hrun | g p1 p2 k t due response m' now Hp Hrun
                    | g p1 p2 due Hp | g p1 p2 k t due now Hp
                    | g m' Hv' Htab];
    cbn [gapp gpending] in *; rewrite ?Hp in Hinv;
    first [ by apply flag_ok_click_scan | by apply flag_ok_click_toggle
          | by eapply flag_ok_finish_scan | by eapply flag_ok_finish_toggle | exact Hinv ].
Qed.

(** C32. The [finally] of [scanForDevices] holds the scanning flag to
    the one discovery in flight over any lawful transport, faults
    included: from a state where the flag matches the pending tasks,
    every state reached still has one discovery pending exactly while
    [isScanning] holds, and while it holds the discovery can settle
    either way, both clearing the flag: fulfilled, the page lists what
    the transport discovers; rejected, it keeps its list and shows the
    scan error. *)
Theorem gscan_settles g g' :
  flag_ok (gapp g) (gpending g) -> star gstep g g' ->
  flag_ok (gapp g') (gpending g') /\
  (isScanning (gapp g') = true ->
    (exists g1, gstep g' g1 /\ isScanning (gapp g1) = false /\
       App.devices (gapp g1) = DeviceDiscoveryResult.devices (fst (tr_discover (gtr g')))) /\
    (exists g2, gstep g' g2 /\ isScanning (gapp g2) = false /\
       App.devices (gapp g2) = App.devices (gapp g') /\ error (gapp g2) = Some scan_error_message)).
Proof.
  intros Hg Hstar.
  pose proof (star_invariant gstep (fun g => flag_ok (gapp g) (gpending g)) gstep_flag _ _ Hstar Hg) as Hf.
  split; [exact Hf|]. intros Hscan.
  destruct (flag_ok_scan_pending _ _ Hf Hscan) as (p1 & p2 & due & Hp). split.
  - destruct (tr_discover (gtr g')) as [result m'] eqn:Hd.
    eexists. split; [eapply gstep_fire_scan; [exact Hp | exact Hd]|].
    split; [apply scanForDevices_finish_isScanning | reflexivity].
  - eexists. split; [eapply gstep_reject_scan; exact Hp|].
    split; [apply scanForDevices_finish_isScanning | split; reflexivity].
Qed.

(** ** An idle page settles

    [gdrain] resolves the pending requests in the order they were issued
    (the timers' order when the delays are equal), each fulfilled by the
    transport, the continuations running at clock [now]. It is
    structural in the list of pending requests. *)
Fixpoint gdrain (now : Z) (p : list Task) (a : AppState) (m : M) : AppState * M :=
  match p with
  | [] => (a, m)
  | TScan _ :: p =>
      gdrain now p (scanForDevices_finish (Fulfilled (fst (tr_discover m))) a) (snd (tr_discover m))
  | TToggle k t _ :: p =>
      let '(response, m') := tr_control (snd (handleDeviceToggle_start k t a)) m in
      gdrain now p (handleDeviceToggle_finish k t now (Fulfilled response) a) m'
  end.

Definition gsettle (now : Z) (g : GSys) : GSys :=
  let '(a, m) := gdrain now (gpending g) (gapp g) (gtr g) in mkGSys a m [].

Lemma gdrain_run now p a m :
  star gstep (mkGSys a m p) (let '(a', m') := gdrain now p a m in mkGSys a' m' []).
Proof.
  revert a m. induction p as [|[due|k t due] p IH]; intros a m; simpl; [apply star_refl| |].
  - eapply star_step; [|apply IH].
    exact (gstep_fire_scan (mkGSys a m (TScan due :: p)) [] p due _ _ eq_refl (surjective_pairing _)).
  - destruct (tr_control _ m) as [response m'] eqn:Hc.
    eapply star_step; [|apply IH].
    exact (gstep_fire_toggle (mkGSys a m (TToggle k t due :: p)) [] p k t due response m' now eq_refl Hc).
Qed.

Lemma gsettle_run now g : star gstep g (gsettle now g).
Proof.
  destruct g as [a m p]. unfold gsettle. simpl.
  pose proof (gdrain_run now p a m) as Hrun. by destruct (gdrain now p a m).
Qed.

(** C34. Every page the dashboard can be in settles once the user stops
    clicking, over any lawful transport: from a state satisfying the
    consistency and scanning-flag invariants, fulfilling the pending
    requests one after the other is a run of the dashboard; it leaves no
    request pending, no scan running, and every listed device showing
    the power and online flags of the transport's table. *)
Theorem gpage_settles g now :
  ginv g -> flag_ok (gapp g) (gpending g) ->
  star gstep g (gsettle now g) /\ gpending (gsettle now g) = [] /\
  isScanning (gapp (gsettle now g)) = false /\
  forall d, In d (App.devices (gapp (gsettle now g))) ->
    exists r, tr_table (gtr (gsettle now g)) !! id d = Some r /\ isOn r = isOn d /\ isOnline r = isOnline d.
Proof.
  intros Hinv Hflag.
  pose proof (gsettle_run now g) as Hrun.
  assert (Hnil : gpending (gsettle now g) = []).
  { destruct g as [a m p]. unfold gsettle. simpl. by destruct (gdrain now p a m). }
  pose proof (star_invariant gstep (fun g => flag_ok (gapp g) (gpending g)) gstep_flag _ _ Hrun Hflag) as Hf.
  pose proof (star_invariant gstep ginv gstep_inv _ _ Hrun Hinv) as Hi.
  split; [exact Hrun|]. split; [exact Hnil|]. split.
  - unfold flag_ok in Hf. rewrite Hnil in Hf. by destruct (isScanning (gapp (gsettle now g))).
  - intros d Hd. apply (ginv_settled _ Hi d Hd). rewrite Hnil. simpl. tauto.
Qed.

(** C33. No request ends silently and none is announced twice: a step
    that settles a pending request (a discovery or a control, fulfilled,
    failed or faulted) removes it and appends exactly one toast to those
    already raised; a click adds one request and no toast; the
    transport's own moves change neither the page nor the requests. *)
Theorem gstep_toasts g g' :
  gstep g g' ->
  (length (gpending g') = S (length (gpending g)) /\ toasts (gapp g') = toasts (gapp g)) \/
  (S (length (gpending g')) = length (gpending g) /\ exists x, toasts (gapp g') = toasts (gapp g) ++ [x]) \/
  (gpending g' = gpending g /\ gapp g' = gapp g).
Proof.
  destruct 1 as [g due Hidle | g d k t due Hin Hdis Hcall
                | g p1 p2 due result m' Hp Hrun | g p1 p2 k t due response m' now Hp Hrun
                | g p1 p2 due Hp | g p1 p2 k t due now Hp
                | g m' Hv' Htab]; cbn [gapp gpending]; rewrite ?Hp, ?length_remove.
  1,2: left; rewrite length_app; simpl; split; [lia | reflexivity].
  1,3: right; left; split; [reflexivity | apply scanForDevices_finish_toasts].
  1,2: right; left; split; [reflexivity | apply handleDeviceToggle_finish_toasts].
  right; right; split; reflexivity.
Qed.

End GenericSystem.

Arguments GSys M : clear implicits.

(** ** The registry as the transport: a page scans *)

Definition gdemo0 : GSys Machine := mkGSys (mkApp [] false "" None []) (demo_machine 0) [].

Definition gdemo_result : DeviceDiscoveryResult.t * Machine := discoverDevices_resume (demo_machine 0).

Definition gdemo1 : GSys Machine := mkGSys (scanForDevices_start (gapp gdemo0)) (demo_machine 0) [TScan 0].

Definition gdemo2 : GSys Machine :=
  mkGSys (scanForDevices_finish (Fulfilled (fst gdemo_result)) (scanForDevices_start (gapp gdemo0)))
         (snd gdemo_result) [].

Lemma gdemo_run : star gstep gdemo0 gdemo2.
Proof.
  eapply star_step; [apply (gstep_click_scan gdemo0 0); reflexivity|].
  apply star_one.
  exact (gstep_fire_scan gdemo1 [] [] 0 (fst gdemo_result) (snd gdemo_result) eq_refl (surjective_pairing _)).
Qed.

Lemma gview_consistent_witness :
  ginv gdemo0 /\ star gstep gdemo0 gdemo2 /\
  forall d, In d (App.devices (gapp gdemo2)) -> ~ In (id d) (toggle_ids (gpending gdemo2)) ->
  exists r, tr_table (gtr gdemo2) !! id d = Some r /\ isOn r = isOn d /\ isOnline r = isOnline d.
Proof.
  assert (H : ginv gdemo0) by (apply ginv_init; [apply demo_machine_ok | reflexivity]).
  split; [exact H|]. split; [exact gdemo_run|].
  exact (gview_consistent gdemo0 gdemo2 H gdemo_run).
Defined.

Lemma gscan_settles_witness :
  flag_ok (gapp gdemo0) (gpending gdemo0) /\ star gstep gdemo0 gdemo1 /\
  flag_ok (gapp gdemo1) (gpending gdemo1) /\
  (isScanning (gapp gdemo1) = true ->
    (exists g1, gstep gdemo1 g1 /\ isScanning (gapp g1) = false /\
       App.devices (gapp g1) = DeviceDiscoveryResult.devices (fst (tr_discover (gtr gdemo1)))) /\
    (exists g2, gstep gdemo1 g2 /\ isScanning (gapp g2) = false /\
       App.devices (gapp g2) = App.devices (gapp gdemo1) /\ error (gapp g2) = Some scan_error_message)).
Proof.
  assert (H0 : flag_ok (gapp gdemo0) (gpending gdemo0)) by reflexivity.
  assert (H1 : star gstep gdemo0 gdemo1) by (apply star_one; apply (gstep_click_scan gdemo0 0); reflexivity).
  split; [exact H0|]. split; [exact H1|].
  exact (gscan_settles gdemo0 gdemo1 H0 H1).
Defined.

Lemma gstep_toasts_witness :
  gstep gdemo1 gdemo2 /\
  ((length (gpending gdemo2) = S (length (gpending gdemo1)) /\ toasts (gapp gdemo2) = toasts (gapp gdemo1)) \/
   (S (length (gpending gdemo2)) = length (gpending gdemo1) /\
      exists x, toasts (gapp gdemo2) = toasts (gapp gdemo1) ++ [x]) \/
   (gpending gdemo2 = gpending gdemo1 /\ gapp gdemo2 = gapp gdemo1)).
Proof.
  assert (H : gstep gdemo1 gdemo2)
    by exact (gstep_fire_scan gdemo1 [] [] 0 (fst gdemo_result) (snd gdemo_result) eq_refl (surjective_pairing _)).
  split; [exact H | exact (gstep_toasts _ _ H)].
Defined.

Lemma gpage_settles_witness :
  ginv gdemo1 /\ flag_ok (gapp gdemo1) (gpending gdemo1) /\
  star gstep gdemo1 (gsettle 0 gdemo1) /\ gpending (gsettle 0 gdemo1) = [] /\
  isScanning (gapp (gsettle 0 gdemo1)) = false /\
  forall d, In d (App.devices (gapp (gsettle 0 gdemo1))) ->
    exists r, tr_table (gtr (gsettle 0 gdemo1)) !! id d = Some r /\ isOn r = isOn d /\ isOnline r = isOnline d.
Proof.
  assert (H0 : ginv gdemo0) by (apply ginv_init; [apply demo_machine_ok | reflexivity]).
  assert (H1 : ginv gdemo1) by (apply (gstep_inv gdemo0); [exact H0 | apply (gstep_click_scan gdemo0 0); reflexivity]).
  assert (Hf : flag_ok (gapp gdemo1) (gpending gdemo1)) by reflexivity.
  split; [exact H1|]. split; [exact Hf|].
  exact (gpage_settles gdemo1 0 H1 Hf).
Defined.
