(* ===== verification/Faults.v ===== *)
(** * Faults after the request took effect

    [Generic] lets a control request fail only before the transport
    applied it: its table is unchanged when the promise rejects. A real
    network can also lose the response of a request the device carried
    out (the connection drops on the way back). The controller's
    [catch] in [handleDeviceToggle] cannot tell the two apart and rolls
    the card back to [!turnOn] in both. [lstep] adds that lost response
    to the steps of [Generic]. The theorem of the file: over any lawful
    transport, from any state satisfying [Generic]'s invariant, losing
    the response of a control request the transport carried out leaves
    the device settled (no toggle of it in flight) and showing the
    opposite of the transport's power state, which breaks the
    consistency [Generic.gview_consistent] proves for the other steps. *)

From S2P Require Import Prelude Runtime JsMap Types TuyaApi Transport App Client Card Generic.
From stdpp Require Import gmap.
Local Open Scope Z_scope.

Section Lossy.
Context {M : Type} `{TransportLaws M}.

Inductive lstep : GSys M -> GSys M -> Prop :=
  | lstep_step g g' : gstep g g' -> lstep g g'
  (** The transport applies the control request, then its response is
      lost: the promise rejects. *)
  | lstep_lost g p1 p2 k t due response m' now :
      gpending g = p1 ++ TToggle k t due :: p2 ->
      tr_control (snd (handleDeviceToggle_start k t (gapp g))) (gtr g) = (response, m') ->
      lstep g (mkGSys (handleDeviceToggle_finish k t now Rejected (gapp g)) m' (p1 ++ p2)).

(** A successful control request leaves the requested power state in
    the table. *)
Lemma control_success_table request m response m' :
  tr_valid m -> tr_control request m = (response, m') -> DeviceControlResponse.success response = true ->
  exists r, tr_table m' !! DeviceControlRequest.deviceId request = Some r /\
            isOn r = is_turn_on (DeviceControlRequest.action request).
Proof.
  intros Hv Hrun Hs. destruct (tr_control_law request m Hv) as (_ & timedout & now & Hspec).
  rewrite Hrun in Hspec. simpl in Hspec. unfold control_spec in Hspec.
  destruct (tr_table m !! _) as [d|]; [|injection Hspec as -> _; discriminate].
  destruct (isOnline d); simpl in Hspec; [|injection Hspec as -> _; discriminate].
  destruct timedout; [injection Hspec as -> _; discriminate|].
  injection Hspec as _ ->. rewrite lookup_insert_eq. by eexists.
Qed.

(** C31. The [catch] of [handleDeviceToggle] assumes that a rejected
    request was not carried out. Over any lawful transport, from any
    state satisfying [Generic]'s invariant, when the transport carries
    out a pending control request of a listed device and its response
    is lost, the step leaves no toggle of that device in flight, yet the
    page shows it with the power state opposite to the one the
    transport's table now holds. *)
Theorem lost_response_desync g p1 p2 k t due response m' now d :
  ginv g -> gpending g = p1 ++ TToggle k t due :: p2 ->
  tr_control (snd (handleDeviceToggle_start k t (gapp g))) (gtr g) = (response, m') ->
  DeviceControlResponse.success response = true ->
  In d (App.devices (gapp g)) -> id d = k ->
  lstep g (mkGSys (handleDeviceToggle_finish k t now Rejected (gapp g)) m' (p1 ++ p2)) /\
  ~ In k (toggle_ids (p1 ++ p2)) /\
  exists d' r, In d' (App.devices (handleDeviceToggle_finish k t now Rejected (gapp g))) /\ id d' = k /\
    tr_table m' !! k = Some r /\ isOn r = t /\ isOn d' = negb t.
Proof.
  intros (Hv & Hnd & _ & _) Hp Hrun Hs Hd Hid.
  split; [exact (lstep_lost g p1 p2 k t due response m' now Hp Hrun)|].
  rewrite Hp in Hnd. split; [exact (proj2 (NoDup_remove_toggle _ _ _ _ _ Hnd))|].
  destruct (control_success_table _ _ _ _ Hv Hrun Hs) as (r & Hr & Hon).
  simpl in Hr, Hon. rewrite toggle_action_turn_on in Hon.
  exists (with_isOn (negb t) d), r. split.
  - simpl. apply in_map_iff. exists d. split; [|exact Hd]. by rewrite Hid, String.eqb_refl.
  - done.
Qed.

End Lossy.

(** ** At the demonstration state

    After the demonstration scan of [Generic], the user switches the
    living-room light on; the registry carries the request out. *)

Definition lossy1 : GSys Machine :=
  mkGSys (fst (handleDeviceToggle_start "device_001" true (gapp gdemo2))) (gtr gdemo2)
         [TToggle "device_001" true 0].

Definition lossy_control : DeviceControlResponse.t * Machine :=
  tr_control (snd (handleDeviceToggle_start "device_001" true (gapp lossy1))) (gtr lossy1).

Lemma lossy1_ginv : ginv lossy1.
Proof.
  assert (H0 : ginv gdemo2).
  { refine (star_invariant gstep ginv gstep_inv _ _ gdemo_run _).
    apply ginv_init; [apply demo_machine_ok | reflexivity]. }
  apply (gstep_inv gdemo2); [exact H0|].
  apply (gstep_click_toggle gdemo2 (nth 0 (App.devices (gapp gdemo2)) lamp));
    [apply nth_In; vm_compute; lia | vm_compute; reflexivity | vm_compute; reflexivity].
Qed.

Lemma lost_response_desync_witness :
  let d := nth 0 (App.devices (gapp lossy1)) lamp in
  ginv lossy1 /\ DeviceControlResponse.success (fst lossy_control) = true /\
  In d (App.devices (gapp lossy1)) /\ id d = "device_001" /\
  lstep lossy1 (mkGSys (handleDeviceToggle_finish "device_001" true 0 Rejected (gapp lossy1))
                       (snd lossy_control) ([] ++ [])) /\
  ~ In "device_001" (toggle_ids ([] ++ [])) /\
  exists d' r, In d' (App.devices (handleDeviceToggle_finish "device_001" true 0 Rejected (gapp lossy1))) /\
    id d' = "device_001" /\ tr_table (snd lossy_control) !! "device_001" = Some r /\ isOn r = true /\
    isOn d' = negb true.
Proof.
  intros d.
  assert (Hs : DeviceControlResponse.success (fst lossy_control) = true) by (vm_compute; reflexivity).
  assert (Hd : In d (App.devices (gapp lossy1))) by (apply nth_In; vm_compute; lia).
  assert (Hid : id d = "device_001") by (vm_compute; reflexivity).
  split; [exact lossy1_ginv|]. split; [exact Hs|]. split; [exact Hd|]. split; [exact Hid|].
  exact (lost_response_desync lossy1 [] [] "device_001" true 0 (fst lossy_control) (snd lossy_control) 0 d
           lossy1_ginv eq_refl (surjective_pairing _) Hs Hd Hid).
Defined.
