(* ===== verification/System.v ===== *)
(** * The running dashboard: controller, cards and registry interleaved

    The controller ([App.tsx]) calls the registry ([tuya-api.ts]) through
    [async] handlers. Each call runs synchronously up to the registry's
    [await]: the controller's optimistic update, and the draw of the
    network delay that schedules a timer. When the timer fires, the
    registry's body runs, and the controller's continuation runs in the
    same task (both are promise reactions, drained before the next timer).
    A [Sys] holds the component state, the registry machine and the
    pending timers. A toggle is in flight on a card ([isToggling] in
    [DeviceCard.tsx]) exactly while its timer is pending. The user's
    clicks are allowed only where the rendered controls are enabled. The
    scan button is disabled while scanning. A card's switch is disabled
    for an offline device, while it is toggling and while a scan runs,
    and its [handleToggle] passes [!device.isOn]. Pending timers may fire
    in any order, which covers the "any order" of the concurrency model
    and every real timer order. The task bookkeeping and the consistency
    invariant come from [Generic]: every step here is a run of its
    generic steps over the registry as transport ([step_sim]). *)

From S2P Require Import Prelude Runtime JsMap Types TuyaApi Transport App Card Generic.
Local Open Scope Z_scope.

Record Sys := mkSys { app : AppState; mach : Machine; pending : list Task }.

(** The synchronous part of [simulateNetworkDelay]: the draw, and the
    time at which its timer fires. *)
Definition schedule (minMs maxMs : Z) (m : Machine) : Z * Machine :=
  let '(delay, m') := networkDelay minMs maxMs m in
  (clock (world m') + timeout_ms delay, m').

(** The clock when a timer due at [due] fires. *)
Definition advance_to (due : Z) (m : Machine) : Machine :=
  mkMachine (svc m) (mkWorld (Z.max (clock (world m)) due) (rng (world m)) (cursor (world m))).

(** The steps, given where a card reads its [isToggling] flag from: in
    the dashboard, [is_toggling]; [step_with (fun _ _ => false)] is the
    dashboard without the flag. *)
Inductive step_with (toggling : list Task -> string -> bool) : Sys -> Sys -> Prop :=
  (** The scan button: [onClick={scanForDevices} disabled={isScanning}]. *)
  | step_click_scan s due m' :
      isScanning (app s) = false ->
      schedule 1500 3000 (mach s) = (due, m') ->
      step_with toggling s (mkSys (scanForDevices_start (app s)) m' (pending s ++ [TScan due]))
  (** A device card's switch, enabled, calls [handleToggle], which calls
      the controller's [handleDeviceToggle]; [isLoading] is [isScanning]. *)
  | step_click_toggle s d deviceId turnOn due m' :
      In d (App.devices (app s)) ->
      switch_disabled (toggling (pending s) (id d)) (isScanning (app s)) d = false ->
      handleToggle (toggling (pending s) (id d)) d = Some (deviceId, turnOn) ->
      schedule 200 800 (mach s) = (due, m') ->
      step_with toggling s (mkSys (fst (handleDeviceToggle_start deviceId turnOn (app s))) m'
                    (pending s ++ [TToggle deviceId turnOn due]))
  (** The discovery timer fires: the registry's body, then the
      controller's continuation with the fulfilled result. *)
  | step_fire_scan s p1 p2 due result m' :
      pending s = p1 ++ TScan due :: p2 ->
      discoverDevices_resume (advance_to due (mach s)) = (result, m') ->
      step_with toggling s (mkSys (scanForDevices_finish (Fulfilled result) (app s)) m' (p1 ++ p2))
  (** A control timer fires. *)
  | step_fire_toggle s p1 p2 k t due response m' :
      pending s = p1 ++ TToggle k t due :: p2 ->
      controlDevice_resume (snd (handleDeviceToggle_start k t (app s)))
        (advance_to due (mach s)) = (response, m') ->
      step_with toggling s (mkSys (handleDeviceToggle_finish k t (clock (world m')) (Fulfilled response) (app s))
                    m' (p1 ++ p2))
  (** Time passes. *)
  | step_tick s n :
      0 <= n ->
      step_with toggling s (mkSys (app s) (advance_to (clock (world (mach s)) + n) (mach s)) (pending s)).

Definition step : Sys -> Sys -> Prop := step_with is_toggling.

(** ** The consistency invariant

    The registry is a transport of [Generic] ([mock_transport]), and a
    state of the dashboard is a state of the generic system whose
    transport is the registry machine ([abs]). The invariant is the
    generic one ([ginv]: every listed device is registered with the same
    online flag, and with the same power flag unless a toggle of it is in
    flight; a device with a toggle in flight is online in the registry
    with the power the toggle is to change; no two toggles of a device
    are in flight), with the random source valid. *)

Definition abs (s : Sys) : GSys Machine := mkGSys (app s) (mach s) (pending s).

Definition sys_inv (s : Sys) : Prop := machine_ok (mach s) /\ ginv (abs s).

Lemma abs_lookup s k : tr_table (gtr (abs s)) !! k = map_get k (TuyaApi.devices (svc (mach s))).
Proof. apply to_gmap_lookup. Qed.

Lemma schedule_run a b m :
  schedule a b m = (clock (world m) + timeout_ms (fst (networkDelay a b m)),
                    mkMachine (svc m) (mkWorld (clock (world m)) (rng (world m)) (S (cursor (world m))))).
Proof. reflexivity. Qed.

Lemma schedule_ok a b m due m' :
  schedule a b m = (due, m') -> machine_ok m -> machine_ok m' /\ svc m' = svc m.
Proof. rewrite schedule_run. intros [= _ <-] [Hwf Hrng]. split; [split|]; done. Qed.

Lemma advance_to_ok due m : machine_ok m -> machine_ok (advance_to due m).
Proof. intros [Hwf Hrng]. split; done. Qed.

Lemma controlDevice_resume_ok request m : machine_ok m -> machine_ok (snd (controlDevice_resume request m)).
Proof.
  intros [Hwf Hrng]. split; [by apply controlDevice_resume_wf|].
  unfold controlDevice_resume. api_cases; intros n; apply Hrng.
Qed.

(** ** Every step is a run of the generic system

    A click is the generic click followed by the delay draw, a move of
    the registry that keeps its table; a timer firing is the clock
    reaching its due time, then the generic completion. *)

Lemma internal_move a m m' p :
  machine_ok m' -> svc m' = svc m -> gstep (mkGSys a m p) (mkGSys a m' p).
Proof.
  intros [Hwf _] Hsvc. apply (gstep_internal (mkGSys a m p) m'); [exact Hwf|].
  simpl. unfold table. by rewrite Hsvc.
Qed.

Lemma step_sim s s' :
  machine_ok (mach s) -> step_with is_toggling s s' -> machine_ok (mach s') /\ star gstep (abs s) (abs s').
Proof.
  intros Hm Hstep.
  destruct Hstep as [s due m' Hidle Hsch | s d k t due m' Hin Hdis Hcall Hsch
                    | s p1 p2 due result m' Hp Hrun | s p1 p2 k t due response m' Hp Hrun | s n Hn].
  - destruct (schedule_ok _ _ _ _ _ Hsch Hm) as [Hm' Hsvc]. split; [done|].
    eapply star_step; [exact (gstep_click_scan (abs s) due Hidle)|].
    apply star_one, internal_move; done.
  - destruct (schedule_ok _ _ _ _ _ Hsch Hm) as [Hm' Hsvc]. split; [done|].
    eapply star_step; [exact (gstep_click_toggle (abs s) d k t due Hin Hdis Hcall)|].
    apply star_one, internal_move; done.
  - pose proof (advance_to_ok due _ Hm) as Hm1.
    assert (Hm' : m' = advance_to due (mach s))
      by (rewrite discoverDevices_resume_run in Hrun; congruence).
    split; [by rewrite Hm'|].
    eapply star_step; [apply (internal_move (app s) (mach s) (advance_to due (mach s))); done|].
    apply star_one. exact (gstep_fire_scan (mkGSys (app s) (advance_to due (mach s)) (pending s))
                             p1 p2 due result m' Hp Hrun).
  - pose proof (advance_to_ok due _ Hm) as Hm1.
    split.
    { simpl. replace m' with (snd (controlDevice_resume (snd (handleDeviceToggle_start k t (app s)))
                                     (advance_to due (mach s)))) by (by rewrite Hrun).
      by apply controlDevice_resume_ok. }
    eapply star_step; [apply (internal_move (app s) (mach s) (advance_to due (mach s))); done|].
    apply star_one. exact (gstep_fire_toggle (mkGSys (app s) (advance_to due (mach s)) (pending s))
                             p1 p2 k t due response m' (clock (world m')) Hp Hrun).
  - split; [by apply advance_to_ok|]. apply star_one, internal_move; [by apply advance_to_ok | done].
Qed.

(** ** The consistency theorem *)

Lemma step_inv s s' : sys_inv s -> step_with is_toggling s s' -> sys_inv s'.
Proof.
  intros [Hm Hg] Hstep. destruct (step_sim s s' Hm Hstep) as [Hm' Hrun].
  split; [done|]. exact (star_invariant gstep ginv gstep_inv _ _ Hrun Hg).
Qed.

(** The page as loaded: the registry seeded at [t0], an empty persisted
    list, nothing pending. *)
Definition sys_init (t0 : Z) (w : World) : Sys :=
  mkSys (mkApp [] false "" None []) (mkMachine (new_TuyaAPIService (mockDevices t0)) w) [].

Lemma mock_registry_wf t0 : registry_wf (new_TuyaAPIService (mockDevices t0)).
Proof.
  split.
  - apply (bool_decide_unpack _). vm_compute. reflexivity.
  - repeat constructor.
Qed.

(** A freshly loaded page satisfies the invariant. *)
Lemma sys_init_inv t0 w : rng_ok w -> sys_inv (sys_init t0 w).
Proof.
  intros Hrng. split; [split; [apply mock_registry_wf | done]|].
  apply ginv_init; [apply mock_registry_wf | reflexivity].
Qed.

(** Under the invariant, a listed device with no toggle in flight shows
    the registry's flags. *)
Lemma sys_inv_settled s :
  sys_inv s ->
  forall d, In d (App.devices (app s)) -> ~ In (id d) (toggle_ids (pending s)) ->
  exists r, map_get (id d) (TuyaApi.devices (svc (mach s))) = Some r /\
            isOn r = isOn d /\ isOnline r = isOnline d.
Proof.
  intros [_ Hg] d Hin Hfree. rewrite <- abs_lookup. exact (ginv_settled _ Hg d Hin Hfree).
Qed.

(** C1. In every state the dashboard can reach from a consistent one
    (in particular from a fresh page load), each listed device with no
    toggle in flight shows exactly the registry's power and online
    flags. Optimistic updates and their rollbacks never leave the view
    out of step with the registry once the toggle has settled, however
    scans, toggles of other devices and timers interleave. *)
Theorem view_consistent s s' :
  sys_inv s -> star step s s' ->
  forall d, In d (App.devices (app s')) -> ~ In (id d) (toggle_ids (pending s')) ->
  exists r, map_get (id d) (TuyaApi.devices (svc (mach s'))) = Some r /\
            isOn r = isOn d /\ isOnline r = isOnline d.
Proof.
  intros Hinv Hstar. apply sys_inv_settled.
  exact (star_invariant step sys_inv step_inv s s' Hstar Hinv).
Qed.

(** ** A concrete run: the page loads, the user scans, discovery returns *)

Definition demo_sys : Sys := sys_init 1700000000000 (world (demo_machine 0)).

Definition demo_scan_due : Z := fst (schedule 1500 3000 (mach demo_sys)).
Definition demo_scan_mach : Machine := snd (schedule 1500 3000 (mach demo_sys)).
Definition demo_result := discoverDevices_resume (advance_to demo_scan_due demo_scan_mach).

Definition demo_scanning : Sys :=
  mkSys (scanForDevices_start (app demo_sys)) demo_scan_mach (pending demo_sys ++ [TScan demo_scan_due]).
Definition demo_scanned : Sys :=
  mkSys (scanForDevices_finish (Fulfilled (fst demo_result)) (app demo_scanning))
        (snd demo_result) ([] ++ []).

Lemma demo_trace : star step demo_sys demo_scanned.
Proof.
  apply star_step with demo_scanning.
  { apply step_click_scan; reflexivity. }
  apply star_one. eapply (step_fire_scan is_toggling demo_scanning [] [] demo_scan_due); reflexivity.
Qed.

Lemma view_consistent_witness :
  sys_inv demo_sys /\ star step demo_sys demo_scanned /\
  length (App.devices (app demo_scanned)) = 4%nat /\
  forall d, In d (App.devices (app demo_scanned)) -> ~ In (id d) (toggle_ids (pending demo_scanned)) ->
  exists r, map_get (id d) (TuyaApi.devices (svc (mach demo_scanned))) = Some r /\
            isOn r = isOn d /\ isOnline r = isOnline d.
Proof.
  assert (Hinv : sys_inv demo_sys) by (apply sys_init_inv, demo_rng_ok).
  split; [exact Hinv|]. split; [exact demo_trace|]. split; [vm_compute; reflexivity|].
  apply (view_consistent demo_sys demo_scanned Hinv demo_trace).
Defined.


(** ** An executable semantics

    [exec] runs one user or timer action; it computes, so concrete traces
    evaluate, and every run it accepts is a sequence of [step_with]. *)

Inductive Act :=
  | ActScan                          (** click "Scan for Devices" *)
  | ActToggle (deviceId : string)    (** click the switch of that card *)
  | ActFire (i : nat)                (** the [i]-th pending timer fires *)
  | ActTick (n : Z).                 (** [n] ms pass *)

Definition fire_task (i : nat) (s : Sys) : option Sys :=
  let rest := firstn i (pending s) ++ skipn (S i) (pending s) in
  match nth_error (pending s) i with
  | Some (TScan due) =>
      let '(result, m') := discoverDevices_resume (advance_to due (mach s)) in
      Some (mkSys (scanForDevices_finish (Fulfilled result) (app s)) m' rest)
  | Some (TToggle k t due) =>
      let '(response, m') := controlDevice_resume (snd (handleDeviceToggle_start k t (app s)))
                               (advance_to due (mach s)) in
      Some (mkSys (handleDeviceToggle_finish k t (clock (world m')) (Fulfilled response) (app s))
                  m' rest)
  | None => None
  end.

Definition click_toggle (toggling : list Task -> string -> bool) (deviceId : string) (s : Sys)
    : option Sys :=
  match find (fun d => String.eqb (id d) deviceId) (App.devices (app s)) with
  | None => None
  | Some d =>
      if switch_disabled (toggling (pending s) (id d)) (isScanning (app s)) d then None
      else match handleToggle (toggling (pending s) (id d)) d with
           | None => None
           | Some (k, turnOn) =>
               let '(due, m') := schedule 200 800 (mach s) in
               Some (mkSys (fst (handleDeviceToggle_start k turnOn (app s))) m'
                           (pending s ++ [TToggle k turnOn due]))
           end
  end.

Definition exec (toggling : list Task -> string -> bool) (a : Act) (s : Sys) : option Sys :=
  match a with
  | ActScan =>
      if isScanning (app s) then None
      else let '(due, m') := schedule 1500 3000 (mach s) in
           Some (mkSys (scanForDevices_start (app s)) m' (pending s ++ [TScan due]))
  | ActToggle deviceId => click_toggle toggling deviceId s
  | ActFire i => fire_task i s
  | ActTick n =>
      if 0 <=? n then Some (mkSys (app s) (advance_to (clock (world (mach s)) + n) (mach s)) (pending s))
      else None
  end.

Fixpoint exec_trace (toggling : list Task -> string -> bool) (acts : list Act) (s : Sys)
    : option Sys :=
  match acts with
  | [] => Some s
  | a :: acts => match exec toggling a s with
                 | Some s' => exec_trace toggling acts s'
                 | None => None
                 end
  end.

Lemma pending_split (p : list Task) i x :
  nth_error p i = Some x -> p = firstn i p ++ x :: skipn (S i) p.
Proof.
  revert p. induction i as [|i IH]; intros [|y p] H; simpl in *; try discriminate.
  - by injection H as ->.
  - f_equal. by apply IH.
Qed.

Lemma exec_sound toggling a s s' : exec toggling a s = Some s' -> step_with toggling s s'.
Proof.
  destruct a as [|deviceId|i|n]; simpl.
  - destruct (isScanning (app s)) eqn:Hidle; [discriminate|].
    destruct (schedule 1500 3000 (mach s)) as [due m'] eqn:Hsch. intros [= <-].
    by apply step_click_scan.
  - unfold click_toggle. destruct (find _ _) as [d|] eqn:Hfind; [|discriminate].
    apply find_some in Hfind as [Hin _].
    destruct (switch_disabled _ _ _) eqn:Hdis; [discriminate|].
    destruct (handleToggle _ _) as [[k t]|] eqn:Hcall; [|discriminate].
    destruct (schedule 200 800 (mach s)) as [due m'] eqn:Hsch. intros [= <-].
    by eapply step_click_toggle.
  - unfold fire_task. destruct (nth_error (pending s) i) as [[due|k t due]|] eqn:Hnth; [..|discriminate].
    + destruct (discoverDevices_resume _) as [result m'] eqn:Hrun. intros [= <-].
      eapply step_fire_scan; [exact (pending_split _ _ _ Hnth) | exact Hrun].
    + destruct (controlDevice_resume _ _) as [response m'] eqn:Hrun. intros [= <-].
      eapply step_fire_toggle; [exact (pending_split _ _ _ Hnth) | exact Hrun].
  - destruct (Z.leb_spec 0 n); [intros [= <-]; by apply step_tick | discriminate].
Qed.

Lemma exec_trace_sound toggling acts s s' :
  exec_trace toggling acts s = Some s' -> star (step_with toggling) s s'.
Proof.
  revert s. induction acts as [|a acts IH]; intros s; simpl.
  - intros [= <-]. apply star_refl.
  - destruct (exec toggling a s) as [s1|] eqn:Hexec; [|discriminate].
    intros Hrun. exact (star_step _ _ _ _ (exec_sound _ _ _ _ Hexec) (IH _ Hrun)).
Qed.

(** ** The scanning flag *)

Definition scan_inv (s : Sys) : Prop := flag_ok (app s) (pending s).

Lemma scan_inv_step toggling s s' : scan_inv s -> step_with toggling s s' -> scan_inv s'.
Proof.
  unfold scan_inv. intros Hinv Hstep.
  destruct Hstep as [s due m' Hidle Hsch | s d k t due m' Hin Hdis Hcall Hsch
                    | s p1 p2 due result m' Hp Hrun | s p1 p2 k t due response m' Hp Hrun | s n Hn];
    cbn [app pending] in *; rewrite ?Hp in Hinv;
    first [ by apply flag_ok_click_scan | by apply flag_ok_click_toggle
          | by eapply flag_ok_finish_scan | by eapply flag_ok_finish_toggle | exact Hinv ].
Qed.

Lemma sys_init_scan_inv t0 w : scan_inv (sys_init t0 w).
Proof. reflexivity. Qed.

Lemma reachable_scan_inv toggling t0 w s :
  star (step_with toggling) (sys_init t0 w) s -> scan_inv s.
Proof. intros H. exact (star_invariant _ _ (scan_inv_step toggling) _ _ H (sys_init_scan_inv t0 w)). Qed.

(** C18. The scanning flag is raised exactly while one discovery is in
    flight, never more than one: in every state reachable from the page
    load, one discovery timer is pending if [isScanning] holds and none
    otherwise. *)
Theorem scanning_flag toggling t0 w s :
  star (step_with toggling) (sys_init t0 w) s ->
  scan_count (pending s) = if isScanning (app s) then 1%nat else 0%nat.
Proof. apply reachable_scan_inv. Qed.

(** C19. A running scan can always complete: in every state reachable
    from the page load where [isScanning] holds, the discovery timer can
    fire, and its continuation clears the flag (the [finally] of
    [scanForDevices]). *)
Theorem scan_completes toggling t0 w s :
  star (step_with toggling) (sys_init t0 w) s -> isScanning (app s) = true ->
  exists s', step_with toggling s s' /\ isScanning (app s') = false.
Proof.
  intros Hr Hscan.
  destruct (flag_ok_scan_pending _ _ (reachable_scan_inv _ _ _ _ Hr) Hscan) as (p1 & p2 & due & Hp).
  destruct (discoverDevices_resume (advance_to due (mach s))) as [result m'] eqn:Hrun.
  eexists. split; [eapply step_fire_scan; [exact Hp | exact Hrun] |].
  apply scanForDevices_finish_isScanning.
Qed.

Lemma scanning_flag_witness :
  star step demo_sys demo_scanned /\
  scan_count (pending demo_scanned) = (if isScanning (app demo_scanned) then 1%nat else 0%nat).
Proof. split; [exact demo_trace | exact (scanning_flag is_toggling _ _ demo_scanned demo_trace)]. Defined.

Lemma scan_completes_witness :
  star step demo_sys demo_scanning /\ isScanning (app demo_scanning) = true /\
  exists s', step demo_scanning s' /\ isScanning (app s') = false.
Proof.
  assert (H : star step demo_sys demo_scanning) by (apply star_one; apply step_click_scan; reflexivity).
  split; [exact H|]. split; [reflexivity|].
  exact (scan_completes is_toggling _ _ demo_scanning H eq_refl).
Defined.

