(* ===== verification/View.v ===== *)
(** * What the page shows ([App.tsx] and [DeviceCard.tsx], their JSX)

    The rendered output as data: [render_app] is the [return] of [App]
    (the scan button, the four summary cards, the error alert, the
    last-scan line and badge, and one of the skeleton grid, the empty
    state or the grid of device cards), [render_card] the [return] of
    [DeviceCard]. Styling classes are kept only where they carry state
    (the dimmed card, the highlighted icon). A JSX [{x && <... />}] on a
    string renders nothing for [null] and for [""], which [truthy] writes
    out.

    The theorems lift the system's invariants to the screen: in every
    reachable state the grid's React keys are distinct, and a card whose
    device has no toggle in flight shows the registry's power and online
    state. *)

From S2P Require Import Prelude Runtime JsMap Types TuyaApi App Card Generic System.
Local Open Scope Z_scope.

(** ** The device card *)

(** [{s && ...}] on an optional string. *)
Definition truthy (o : option string) : option string :=
  match o with
  | Some s => if String.eqb s "" then None else Some s
  | None => None
  end.

Record CardView := mkCardView {
  dimmed : bool;              (** [!device.isOnline && "opacity-60"] *)
  ringed : bool;              (** [device.isOn && device.isOnline && "ring-2 ..."] *)
  icon : Icon;                (** [deviceIcons[device.type]] *)
  icon_accent : bool;         (** [bg-accent] rather than [bg-muted] *)
  icon_filled : bool;         (** [weight={device.isOn ? "fill" : "regular"}] *)
  title : string;             (** [device.name] *)
  subtitle : DeviceType;      (** [device.type], capitalised *)
  wifi : bool;                (** [Wifi] rather than [WifiOff] *)
  status_badge : string;      (** "Online" or "Offline" *)
  power_text : string;        (** "On" or "Off" *)
  last_seen_text : string;    (** [Last seen: {formatLastSeen(device.lastSeen)}] *)
  model_text : option string; (** [{device.model && ...}] *)
  switch_checked : bool;      (** [checked={device.isOn}] *)
  switch_off : bool;          (** [disabled={...}] *)
  retry_button : bool;        (** [{(!device.isOnline) && <Button>Retry</Button>}] *)
  ip_text : option string     (** [{device.ip && ...}] *)
}.

(** [now] is the clock when the card renders, [isToggling] the card's
    own state and [isLoading] its prop. *)
Definition render_card (now : Z) (isToggling isLoading : bool) (device : TuyaDevice) : CardView :=
  mkCardView
    (negb (isOnline device))
    (isOn device && isOnline device)
    (deviceIcons (type device))
    (isOn device && isOnline device)
    (isOn device)
    (name device)
    (type device)
    (isOnline device)
    (if isOnline device then "Online" else "Offline")
    (if isOn device then "On" else "Off")
    (formatLastSeen_of now (lastSeen device))
    (truthy (model device))
    (isOn device)
    (switch_disabled isToggling isLoading device)
    (negb (isOnline device))
    (truthy (ip device)).

(** ** The page *)

(** The props of one [<DeviceCard key=... device=... isLoading=... />]. *)
Record CardProps := mkCardProps {
  card_key : string;
  card_device : TuyaDevice;
  card_isLoading : bool
}.

Inductive Body :=
  | Skeletons (n : nat)                 (** [Array.from({ length: 6 })] placeholders *)
  | NoDevices (try_again_disabled : bool) (** "No Devices Found" with its button *)
  | Grid (cards : list CardProps).

Record AppView := mkAppView {
  scan_label : string;
  scan_disabled : bool;
  total_count : nat;
  online_count : nat;
  offline_count : nat;
  active_count : nat;
  alert : option string;
  last_scan_label : LastScanLabel;
  online_badge : option string;
  body : Body
}.

Definition render_body (s : AppState) : Body :=
  if isScanning s && Nat.eqb (length (devices s)) 0 then Skeletons 6
  else if Nat.eqb (length (devices s)) 0 then NoDevices (isScanning s)
  else Grid (map (fun device => mkCardProps (id device) device (isScanning s)) (devices s)).

Definition render_app (s : AppState) : AppView :=
  mkAppView
    (if isScanning s then "Scanning..." else "Scan for Devices")
    (isScanning s)
    (length (devices s))
    (length (onlineDevices s))
    (length (offlineDevices s))
    (length (activeDevices s))
    (truthy (error s))
    (formatLastScan (lastScan s))
    (if Nat.ltb 0 (length (devices s))
     then Some (string_of_nat (length (onlineDevices s)) +:+ " of " +:+
                string_of_nat (length (devices s)) +:+ " online")
     else None)
    (render_body s).

(** ** Distinct keys *)

(** React identifies the cards of the grid by [key={device.id}]. *)
Definition keys_distinct (s : Sys) : Prop := NoDup (map id (App.devices (app s))).

Lemma keys_distinct_step s s' : sys_inv s -> keys_distinct s -> step s s' -> keys_distinct s'.
Proof.
  unfold keys_distinct. intros ((Hwf & _) & _) Hkeys Hstep.
  destruct Hstep as [s due m' Hidle Hsch | s d k t due m' Hin Hdis Hcall Hsch
                    | s p1 p2 due result m' Hp Hrun | s p1 p2 k t due response m' Hp Hrun | s n Hn];
    cbn [app].
  - exact Hkeys.
  - simpl. by rewrite update_device_ids.
  - rewrite discoverDevices_resume_run in Hrun. injection Hrun as <- _. simpl.
    rewrite map_map. erewrite map_ext; [|intros; apply with_lastSeen_id].
    rewrite map_id_values by exact Hwf. apply Hwf.
  - by rewrite handleDeviceToggle_finish_ids.
  - exact Hkeys.
Qed.

Lemma reachable_inv t0 w s :
  rng_ok w -> star step (sys_init t0 w) s -> sys_inv s /\ keys_distinct s.
Proof.
  intros Hrng Hstar.
  refine (star_invariant step (fun s => sys_inv s /\ keys_distinct s) _ _ _ Hstar _).
  - intros a b [Ha Hk] Hab. split; [exact (step_inv a b Ha Hab) | exact (keys_distinct_step a b Ha Hk Hab)].
  - split; [by apply sys_init_inv | constructor].
Qed.

Lemma render_body_grid s cards :
  render_body s = Grid cards ->
  cards = map (fun device => mkCardProps (id device) device (isScanning s)) (devices s).
Proof.
  unfold render_body.
  destruct (isScanning s && Nat.eqb _ 0); [discriminate|].
  destruct (Nat.eqb _ 0); [discriminate|]. by intros [= <-].
Qed.

(** C21. React's keys are distinct: in every state reachable from the
    page load, the grid renders one card per device with
    [key={device.id}], and no two cards share a key, however scans,
    toggles and timers interleave. *)
Theorem render_keys_distinct t0 w s cards :
  rng_ok w -> star step (sys_init t0 w) s ->
  body (render_app (app s)) = Grid cards -> NoDup (map card_key cards).
Proof.
  intros Hrng Hstar Hgrid. apply render_body_grid in Hgrid as ->.
  rewrite map_map. apply (reachable_inv t0 w s Hrng Hstar).
Qed.

(** C22. What a settled card shows is the registry's state: in every
    state reachable from the page load, a card of the grid whose device
    has no toggle in flight shows "On" or "Off", a checked or unchecked
    switch and "Online" or "Offline" as the registry's record of that
    device says, whatever the card's own [isToggling] and the clock. *)
Theorem render_settled_card t0 w s cards c now isToggling :
  rng_ok w -> star step (sys_init t0 w) s ->
  body (render_app (app s)) = Grid cards -> In c cards ->
  ~ In (card_key c) (toggle_ids (pending s)) ->
  exists r, map_get (card_key c) (TuyaApi.devices (svc (mach s))) = Some r /\
    let v := render_card now isToggling (card_isLoading c) (card_device c) in
    power_text v = (if isOn r then "On" else "Off") /\ switch_checked v = isOn r /\
    status_badge v = (if isOnline r then "Online" else "Offline").
Proof.
  intros Hrng Hstar Hgrid Hc Hfree. apply render_body_grid in Hgrid as ->.
  apply in_map_iff in Hc as (d & <- & Hd). simpl in *.
  destruct (sys_inv_settled s (proj1 (reachable_inv t0 w s Hrng Hstar)) d Hd Hfree)
    as (r & Hr & Hon & Honline).
  exists r. split; [exact Hr|]. simpl. by rewrite Hon, Honline.
Qed.

(** ** The grid after the demonstration scan of [System] *)

Definition demo_cards : list CardProps :=
  map (fun device => mkCardProps (id device) device false) (App.devices (app demo_scanned)).

Definition demo_card : CardProps := nth 0 demo_cards (mkCardProps "" lamp false).

Lemma demo_grid : body (render_app (app demo_scanned)) = Grid demo_cards.
Proof. vm_compute. reflexivity. Qed.

Lemma render_keys_distinct_witness :
  rng_ok (world (demo_machine 0)) /\ star step demo_sys demo_scanned /\
  body (render_app (app demo_scanned)) = Grid demo_cards /\ NoDup (map card_key demo_cards).
Proof.
  split; [apply demo_rng_ok|]. split; [exact demo_trace|]. split; [exact demo_grid|].
  exact (render_keys_distinct _ _ demo_scanned demo_cards (demo_rng_ok 0) demo_trace demo_grid).
Defined.

Lemma render_settled_card_witness :
  In demo_card demo_cards /\ ~ In (card_key demo_card) (toggle_ids (pending demo_scanned)) /\
  exists r, map_get (card_key demo_card) (TuyaApi.devices (svc (mach demo_scanned))) = Some r /\
    let v := render_card 1700000060000 false (card_isLoading demo_card) (card_device demo_card) in
    power_text v = (if isOn r then "On" else "Off") /\ switch_checked v = isOn r /\
    status_badge v = (if isOnline r then "Online" else "Offline").
Proof.
  assert (Hin : In demo_card demo_cards) by (apply nth_In; vm_compute; lia).
  assert (Hfree : ~ In (card_key demo_card) (toggle_ids (pending demo_scanned))) by (vm_compute; tauto).
  split; [exact Hin|]. split; [exact Hfree|].
  exact (render_settled_card _ _ demo_scanned demo_cards demo_card 1700000060000 false
           (demo_rng_ok 0) demo_trace demo_grid Hin Hfree).
Defined.
