(* ===== verification/Persist.v ===== *)
(** * The key-value store behind [useKV]

    [App] keeps its device list and last-scan string in [useKV] hooks
    ([useKV<TuyaDevice[]>('tuya-devices', [])] and
    [useKV<string>('last-scan-time', '')]): every call of a setter writes
    the new value to the store as JSON, and the hook reads the stored
    value back when the page loads, or its default when the key is
    absent. The store holds JSON values ([Json]); [to_json] is what
    [JSON.stringify] makes of a value and [from_json] reads back the
    value [JSON.parse] gives. A [Date] becomes its [toISOString] text
    ([Date.prototype.toJSON]) and stays a string after the parse: the
    types of [types.ts] are not checked at run time. An optional
    property holding [undefined] is left out. [from_json] fails only on
    shapes this program never writes.

    The theorem of the file is the round trip of a reload: what the
    store gives back is the list with each [Date] replaced by its text,
    and every device card renders from it exactly as before. *)

From stdpp Require Import gmap strings.
From S2P Require Import Prelude Runtime IsoDate JsMap Types TuyaApi App Card Generic System View.
Local Open Scope Z_scope.
Local Open Scope string_scope.
#[local] Set Warnings "-register-all".

(** ** JSON values *)

Inductive Json : Type :=
  | JNull
  | JBool (b : bool)
  | JNumber (n : Z)
  | JString (s : string)
  | JArray (items : list Json)
  | JObject (fields : list (string * Json)).

(** Property access on a parsed object: [JSON.parse] keeps the last of
    duplicated keys. *)
Definition json_get (k : string) (fields : list (string * Json)) : option Json :=
  fold_left (fun acc kv => if String.eqb k (fst kv) then Some (snd kv) else acc) fields None.

Class ToJSON (A : Type) := to_json : A -> Json.
Class FromJSON (A : Type) := from_json : Json -> option A.

#[export] Instance string_to_json : ToJSON string := JString.
#[export] Instance string_from_json : FromJSON string :=
  fun j => match j with JString s => Some s | _ => None end.

#[export] Instance bool_to_json : ToJSON bool := JBool.
#[export] Instance bool_from_json : FromJSON bool :=
  fun j => match j with JBool b => Some b | _ => None end.

(** [type: 'switch' | 'light' | 'outlet' | 'fan' | 'other'] *)
Definition DeviceType_text (t : DeviceType) : string :=
  match t with
  | switch => "switch" | light => "light" | outlet => "outlet" | fan => "fan" | other => "other"
  end.

#[export] Instance DeviceType_to_json : ToJSON DeviceType := fun t => JString (DeviceType_text t).
#[export] Instance DeviceType_from_json : FromJSON DeviceType :=
  fun j => match j with
           | JString "switch" => Some switch
           | JString "light" => Some light
           | JString "outlet" => Some outlet
           | JString "fan" => Some fan
           | JString "other" => Some other
           | _ => None
           end.

(** A [Date] is written through its [toJSON], which is [toISOString]; a
    string is written as it is. Either way it is read back as text. *)
Definition date_text (x : DateOrString) : string :=
  match x with DateValue t => toISOString t | DateText s => s end.

#[export] Instance DateOrString_to_json : ToJSON DateOrString := fun x => JString (date_text x).
#[export] Instance DateOrString_from_json : FromJSON DateOrString :=
  fun j => match j with JString s => Some (DateText s) | _ => None end.

#[export] Instance list_to_json `{ToJSON A} : ToJSON (list A) := fun l => JArray (map to_json l).

Fixpoint from_json_list `{FromJSON A} (items : list Json) : option (list A) :=
  match items with
  | [] => Some []
  | j :: items => x ← from_json j; l ← from_json_list items; Some (x :: l)
  end.

#[export] Instance list_from_json `{FromJSON A} : FromJSON (list A) :=
  fun j => match j with JArray items => from_json_list items | _ => None end.

(** ** A device record *)

(** [ip?] and [model?]: a property holding [undefined] is not written. *)
Definition opt_field (k : string) (o : option string) : list (string * Json) :=
  match o with Some s => [(k, JString s)] | None => [] end.

(** The properties in the order the records are built in
    [tuya-api.ts]; the spreads of [App] keep that order. *)
#[export] Instance TuyaDevice_to_json : ToJSON TuyaDevice := fun d =>
  JObject ([("id", to_json (id d)); ("name", to_json (name d)); ("type", to_json (type d));
            ("isOnline", to_json (isOnline d)); ("isOn", to_json (isOn d))] ++
           opt_field "ip" (ip d) ++ opt_field "model" (model d) ++
           [("lastSeen", to_json (lastSeen d))])%list.

(** An absent optional property reads as [undefined]. *)
Definition opt_from_json (o : option Json) : option (option string) :=
  match o with
  | None => Some None
  | Some (JString s) => Some (Some s)
  | Some _ => None
  end.

Definition field `{FromJSON A} (k : string) (fields : list (string * Json)) : option A :=
  json_get k fields ≫= from_json.

#[export] Instance TuyaDevice_from_json : FromJSON TuyaDevice := fun j =>
  match j with
  | JObject fs =>
      i ← field "id" fs; n ← field "name" fs; t ← field "type" fs;
      online ← field "isOnline" fs; on ← field "isOn" fs;
      ip ← opt_from_json (json_get "ip" fs); m ← opt_from_json (json_get "model" fs);
      ls ← field "lastSeen" fs;
      Some (mkTuyaDevice i n t online on ip m ls)
  | _ => None
  end.

(** ** The store *)

Abbreviation Store := (gmap string Json).

(** [useKV(key, default)] at a page load. *)
Definition useKV_get `{FromJSON A} (st : Store) (key : string) (default : A) : option A :=
  match st !! key with None => Some default | Some j => from_json j end.

(** A setter of [useKV(key, ...)]. *)
Definition useKV_set `{ToJSON A} (key : string) (v : A) (st : Store) : Store := <[key := to_json v]> st.

(** The store as [App] leaves it: each setter writes through, so the
    store holds the hooks' current values (a key never set reads as its
    default, which is the hook's value then). *)
Definition kv_of (a : AppState) : Store :=
  useKV_set "tuya-devices" (devices a) (useKV_set "last-scan-time" (lastScan a) ∅).

(** What a record is after a round trip through the store. *)
Definition persisted (d : TuyaDevice) : TuyaDevice := with_lastSeen (DateText (date_text (lastSeen d))) d.

(** Whether the card's [new Date(text)] reads back the time of a [Date]
    written as text: years 1970 to 9999, where [toISOString] writes four
    digits. A string is already text. *)
Definition date_in_range (x : DateOrString) : bool :=
  match x with DateValue t => ((0 <=? t) && (t <? 253402300800000))%Z | DateText _ => true end.

(** ** Round trips *)

Lemma device_json_roundtrip d : from_json (to_json d) = Some (persisted d).
Proof. destruct d as [i n [] online on [ip|] [m|] ls]; reflexivity. Qed.

Lemma devices_json_roundtrip (l : list TuyaDevice) : from_json (to_json l) = Some (map persisted l).
Proof.
  change (from_json_list (map to_json l) = Some (map persisted l)).
  induction l as [|d l IH]; [reflexivity|].
  cbn [map from_json_list]. by rewrite device_json_roundtrip, IH.
Qed.

Lemma persisted_restore d : with_lastSeen (lastSeen d) (persisted d) = d.
Proof. by destruct d. Qed.

Lemma render_card_persisted now isToggling isLoading d :
  date_in_range (lastSeen d) = true ->
  render_card now isToggling isLoading (persisted d) = render_card now isToggling isLoading d.
Proof.
  destruct d as [i n t online on ip m [ls|s]]; simpl; [|done].
  intros Hr. apply andb_true_iff in Hr as [H1 H2]. apply Z.leb_le in H1. apply Z.ltb_lt in H2.
  unfold render_card, formatLastSeen_of. simpl. by rewrite parse_iso_toISOString by lia.
Qed.

Lemma kv_of_devices a : useKV_get (kv_of a) "tuya-devices" [] = Some (map persisted (devices a)).
Proof. unfold useKV_get, kv_of, useKV_set. rewrite lookup_insert_eq. apply devices_json_roundtrip. Qed.

Lemma kv_of_lastScan a : useKV_get (kv_of a) "last-scan-time" "" = Some (lastScan a).
Proof. unfold useKV_get, kv_of, useKV_set. by rewrite lookup_insert_ne, lookup_insert_eq. Qed.

(** C30. A reload gives the page back: the device list [useKV] reads
    from the store the running page left is the list it held, each
    record unchanged but for its [lastSeen], now the text of the [Date];
    the last-scan string comes back as it was; and every device card
    renders from the reloaded record exactly as from the original, for
    [lastSeen] times from 1970 to the end of year 9999. *)
Theorem kv_reload_roundtrip a now isToggling isLoading :
  forallb (fun d => date_in_range (lastSeen d)) (devices a) = true ->
  exists l, useKV_get (kv_of a) "tuya-devices" [] = Some l /\
    useKV_get (kv_of a) "last-scan-time" "" = Some (lastScan a) /\
    Forall2 (fun d' d => with_lastSeen (lastSeen d) d' = d) l (devices a) /\
    map (render_card now isToggling isLoading) l = map (render_card now isToggling isLoading) (devices a).
Proof.
  intros Hr. exists (map persisted (devices a)).
  split; [apply kv_of_devices|]. split; [apply kv_of_lastScan|]. split.
  - apply Forall2_fmap_l, Forall_Forall2_diag, Forall_true. intros d. apply persisted_restore.
  - rewrite map_map. apply map_ext_in. intros d Hd.
    apply render_card_persisted. rewrite forallb_forall in Hr. by apply Hr.
Qed.

Lemma kv_reload_roundtrip_witness :
  forallb (fun d => date_in_range (lastSeen d)) (App.devices (app demo_scanned)) = true /\
  exists l, useKV_get (kv_of (app demo_scanned)) "tuya-devices" [] = Some l /\
    useKV_get (kv_of (app demo_scanned)) "last-scan-time" "" = Some (lastScan (app demo_scanned)) /\
    Forall2 (fun d' d => with_lastSeen (lastSeen d) d' = d) l (App.devices (app demo_scanned)) /\
    map (render_card 1700000060000 false false) l =
      map (render_card 1700000060000 false false) (App.devices (app demo_scanned)).
Proof.
  assert (H : forallb (fun d => date_in_range (lastSeen d)) (App.devices (app demo_scanned)) = true)
    by (vm_compute; reflexivity).
  split; [exact H | exact (kv_reload_roundtrip _ _ _ _ H)].
Defined.
