(* ===== verification/Session.v ===== *)
(** * Page loads: the persisted list, the mount effect and the Retry button

    A page load evaluates [tuya-api.ts] again, so the module-level
    [export const tuyaAPI = new TuyaAPIService()] builds a fresh registry
    from the seed, stamped with the load time. [App] starts from what
    [useKV] persisted (the device list and the last-scan string; the
    hooks are read as handing the stored values to the first render, as
    [@github/spark] is not in the repository), with
    [isScanning = false] and [error = null], and its mount effect
    ([useEffect(..., [])]) starts a scan only when that list is empty.
    The card of an offline device shows a Retry button whose handler is
    [window.location.reload()]: the pending timers are dropped with the
    page, the values [useKV] wrote to its store survive.

    [page_load] is that start from the values the hooks read, [reload]
    reads them from a store ([Persist]), and [session_step] adds the
    Retry button's reload of the store the page leaves ([kv_of]) to the
    steps of [System]. A first visit is a state of [System]'s runs, so
    its theorems apply to it (C23); a reload is not: the page comes back
    showing the persisted power states while the registry has been
    re-seeded, with nothing in flight that would reconcile them
    ([retry_persists_unconfirmed] is one such session, documenting a
    finding of the manifest). *)

From stdpp Require Import gmap.
From S2P Require Import Prelude Runtime JsMap Types TuyaApi App Card Generic System Persist.
Local Open Scope Z_scope.

(** ** Loading the page *)

Definition page_load (persisted : list TuyaDevice) (lastScan : string) (w : World) : Sys :=
  let s := mkSys (mkApp persisted false lastScan None [])
                 (mkMachine (new_TuyaAPIService (mockDevices (clock w))) w) [] in
  if mount_scans (app s) then
    let '(due, m') := schedule 1500 3000 (mach s) in
    mkSys (scanForDevices_start (app s)) m' [TScan due]
  else s.

(** A page load that reads the hooks' values from the store [st]. *)
Definition reload (st : Store) (w : World) : option Sys :=
  persisted ← useKV_get st "tuya-devices" [];
  lastScan ← useKV_get st "last-scan-time" "";
  Some (page_load persisted lastScan w).

(** A first visit finds the store empty: the hooks start from their
    defaults. *)
Lemma reload_empty w : reload ∅ w = Some (page_load [] "" w).
Proof. reflexivity. Qed.

(** The user's and the timers' steps, and the Retry button of an offline
    device's card, which reloads the page at a later time [w] from the
    store the page leaves. *)
Inductive session_step : Sys -> Sys -> Prop :=
  | session_run s s' : step s s' -> session_step s s'
  | session_retry s d w s' :
      In d (App.devices (app s)) -> isOnline d = false ->
      clock (world (mach s)) <= clock w ->
      reload (kv_of (app s)) w = Some s' ->
      session_step s s'.

Lemma star_session (s s' : Sys) : star step s s' -> star session_step s s'.
Proof. induction 1; [apply star_refl | eapply star_step; [constructor|]; eauto]. Qed.

(** C23. On a first visit nothing is persisted, so the mount effect
    starts a discovery; from there, every state the clicks and timers
    reach keeps the consistency invariant of [System] (each settled card
    shows the registry's flags) and has its scanning flag raised exactly
    while the one discovery is in flight. *)
Theorem first_visit_invariants w s :
  rng_ok w -> star step (page_load [] "" w) s ->
  isScanning (app (page_load [] "" w)) = true /\ sys_inv s /\
  scan_count (pending s) = (if isScanning (app s) then 1%nat else 0%nat).
Proof.
  intros Hrng Hstar. unfold page_load in *. cbn -[schedule scanForDevices_start] in *.
  destruct (schedule 1500 3000 (mkMachine (new_TuyaAPIService (mockDevices (clock w))) w))
    as [due m'] eqn:Hsch.
  (* A first visit is the fresh dashboard after a click on the scan
     button: the mount effect is that click. *)
  assert (Hfrom : star step (sys_init (clock w) w) s)
    by exact (star_step _ _ _ _ (step_click_scan is_toggling (sys_init (clock w) w) due m' eq_refl Hsch) Hstar).
  split; [reflexivity|]. split.
  - exact (star_invariant step sys_inv step_inv _ _ Hfrom (sys_init_inv _ _ Hrng)).
  - exact (reachable_scan_inv is_toggling _ _ _ Hfrom).
Qed.

Lemma first_visit_invariants_witness :
  let w := mkWorld 1700000000000 demo_rng 0 in
  rng_ok w /\ star step (page_load [] "" w) (page_load [] "" w) /\
  isScanning (app (page_load [] "" w)) = true /\ sys_inv (page_load [] "" w) /\
  scan_count (pending (page_load [] "" w)) =
    (if isScanning (app (page_load [] "" w)) then 1%nat else 0%nat).
Proof.
  intros w. split; [apply demo_rng_ok|]. split; [apply star_refl|].
  exact (first_visit_invariants w _ (demo_rng_ok 0) (star_refl _ _)).
Defined.

(** ** The store holds unconfirmed state

    [useKV] writes on every call of [setDevices], the optimistic update
    included: the user switches the living-room light on and presses
    Retry on the bedroom fan's card before the control request
    completes. The reloaded page shows the light on, the request that
    would have confirmed or rolled it back is gone with the old page,
    and the registry has it off. *)

Definition visit_world : World := mkWorld 1700000000000 demo_rng 0.

Definition toggle_in_flight : option Sys :=
  exec_trace is_toggling [ActFire 0; ActToggle "device_001"] (page_load [] "" visit_world).

Lemma retry_persists_unconfirmed :
  exists s s', star step (page_load [] "" visit_world) s /\
    toggle_ids (pending s) = ["device_001"] /\
    session_step s s' /\ pending s' = [] /\
    exists d r, In d (App.devices (app s')) /\ id d = "device_001" /\ isOn d = true /\
      map_get (id d) (TuyaApi.devices (svc (mach s'))) = Some r /\ isOn r = false.
Proof.
  destruct toggle_in_flight as [s1|] eqn:Hrun; [|vm_compute in Hrun; discriminate].
  pose proof (exec_trace_sound _ _ _ _ Hrun) as Hstar.
  unfold toggle_in_flight in Hrun. vm_compute in Hrun. injection Hrun as <-.
  eexists; eexists. split; [exact Hstar|]. split; [vm_compute; reflexivity|]. split.
  { eapply (session_retry _ (nth 2 (mockDevices 1700000000000) lamp));
      [vm_compute; tauto | reflexivity | reflexivity | vm_compute; reflexivity]. }
  vm_compute. split; [reflexivity|].
  eexists; eexists. split; [left; reflexivity|]. repeat split.
Qed.
