(* ===== verification/Settle.v ===== *)
(** * An idle page settles

    Once the user stops clicking, the browser's event loop runs the
    pending timers, the one due first before the others (HTML timer
    ordering; among equal due times, the one scheduled first).
    [event_loop] does that for a given number of timers. The theorem of
    this file is that the loop terminates: with one firing per pending
    timer it empties the queue, each firing is a step of [System], and
    the page it leaves shows every device exactly as the registry holds
    it, with no scan running. *)

From S2P Require Import Prelude Runtime JsMap Types TuyaApi App Card Generic System.
Local Open Scope Z_scope.

Definition task_due (t : Task) : Z :=
  match t with TScan due => due | TToggle _ _ due => due end.

(** The index of the first timer with the least due time, from position
    [i] on, [best] being the best so far and [bd] its due time. *)
Fixpoint earliest_from (p : list Task) (i best : nat) (bd : Z) : nat :=
  match p with
  | [] => best
  | t :: p =>
      if task_due t <? bd then earliest_from p (S i) i (task_due t)
      else earliest_from p (S i) best bd
  end.

Definition earliest (p : list Task) : nat :=
  match p with
  | [] => 0
  | t :: p => earliest_from p 1 0 (task_due t)
  end.

Fixpoint event_loop (fuel : nat) (s : Sys) : Sys :=
  match fuel with
  | O => s
  | S n =>
      match fire_task (earliest (pending s)) s with
      | Some s' => event_loop n s'
      | None => s
      end
  end.

(** ** The loop always has a timer to fire *)

Lemma earliest_from_lt p i best bd :
  (best < i)%nat -> (earliest_from p i best bd < i + length p)%nat.
Proof.
  revert i best bd. induction p as [|t p IH]; intros i best bd Hb; simpl; [lia|].
  destruct (task_due t <? bd); [specialize (IH (S i) i) | specialize (IH (S i) best)];
    eapply Nat.lt_le_trans; [apply IH; lia | lia | apply IH; lia | lia].
Qed.

Lemma earliest_lt p : p <> [] -> (earliest p < length p)%nat.
Proof.
  destruct p as [|t p]; [done|]. intros _. simpl.
  pose proof (earliest_from_lt p 1 0 (task_due t)). lia.
Qed.

(** Firing an existing timer always succeeds and removes exactly it. *)
Lemma fire_task_some i s :
  (i < length (pending s))%nat ->
  exists s', fire_task i s = Some s' /\ step s s' /\
             length (pending s') = pred (length (pending s)).
Proof.
  intros Hi. destruct (nth_error (pending s) i) as [x|] eqn:Hnth;
    [|apply nth_error_None in Hnth; lia].
  destruct (fire_task i s) as [s'|] eqn:Hfire.
  - exists s'. split; [done|]. split; [exact (exec_sound is_toggling (ActFire i) s s' Hfire)|].
    unfold fire_task in Hfire. rewrite Hnth in Hfire.
    assert (Hlen : length (firstn i (pending s) ++ skipn (S i) (pending s)) = pred (length (pending s))).
    { rewrite length_app, length_firstn, length_skipn. lia. }
    destruct x as [due|k t due];
      [destruct (discoverDevices_resume _) | destruct (controlDevice_resume _ _)];
      injection Hfire as <-; exact Hlen.
  - unfold fire_task in Hfire. rewrite Hnth in Hfire.
    destruct x as [due|k t due];
      [destruct (discoverDevices_resume _) | destruct (controlDevice_resume _ _)]; discriminate.
Qed.

Lemma event_loop_runs n s :
  length (pending s) = n -> star step s (event_loop n s) /\ pending (event_loop n s) = [].
Proof.
  revert s. induction n as [|n IH]; intros s Hn; simpl.
  - split; [apply star_refl | by apply length_zero_iff_nil].
  - assert (Hne : pending s <> []) by (intros E; rewrite E in Hn; discriminate).
    destruct (fire_task_some (earliest (pending s)) s (earliest_lt _ Hne)) as (s' & -> & Hstep & Hlen).
    destruct (IH s' ltac:(lia)) as [Hstar Hnil].
    split; [exact (star_step _ _ _ _ Hstep Hstar) | exact Hnil].
Qed.

(** C24. An idle page settles: from every state reachable from the page
    load, the event loop fires one pending timer after the other, earliest
    first, and after as many firings as there were timers it stops with
    none left; the page then shows every listed device with the
    registry's power and online flags, and no scan is running. *)
Theorem idle_page_settles t0 w s :
  rng_ok w -> star step (sys_init t0 w) s ->
  let s' := event_loop (length (pending s)) s in
  star step s s' /\ pending s' = [] /\ isScanning (app s') = false /\
  forall d, In d (App.devices (app s')) ->
    exists r, map_get (id d) (TuyaApi.devices (svc (mach s'))) = Some r /\
              isOn r = isOn d /\ isOnline r = isOnline d.
Proof.
  intros Hrng Hstar s'. destruct (event_loop_runs _ s eq_refl) as [Hrun Hnil]. fold s' in Hrun, Hnil.
  pose proof (star_trans _ _ _ _ Hstar Hrun) as Hfrom.
  pose proof (reachable_scan_inv is_toggling _ _ _ Hfrom) as Hscan.
  unfold scan_inv, flag_ok in Hscan. rewrite Hnil in Hscan.
  split; [exact Hrun|]. split; [exact Hnil|]. split.
  { destruct (isScanning (app s')); [discriminate|reflexivity]. }
  intros d Hd. apply (sys_inv_settled s'); [|exact Hd|rewrite Hnil; simpl; tauto].
  exact (star_invariant step sys_inv step_inv _ _ Hfrom (sys_init_inv _ _ Hrng)).
Qed.

Lemma idle_page_settles_witness :
  rng_ok (world (demo_machine 0)) /\ star step demo_sys demo_scanning /\
  let s' := event_loop (length (pending demo_scanning)) demo_scanning in
  star step demo_scanning s' /\ pending s' = [] /\ isScanning (app s') = false /\
  forall d, In d (App.devices (app s')) ->
    exists r, map_get (id d) (TuyaApi.devices (svc (mach s'))) = Some r /\
              isOn r = isOn d /\ isOnline r = isOnline d.
Proof.
  assert (H : star step demo_sys demo_scanning) by (apply star_one; apply step_click_scan; reflexivity).
  split; [apply demo_rng_ok|]. split; [exact H|].
  exact (idle_page_settles _ _ demo_scanning (demo_rng_ok 0) H).
Defined.
